(** * esp_dmx: the RDM wire codec and transaction engine

    A shallow embedding of the RDM utilities of the driver (UID algebra,
    format codec [pd_emplace], discovery codec, frame I/O
    [rdm_read]/[rdm_write] and the transaction engine [rdm_request])
    together with the properties of the specification that concern
    them.

    Conventions.
    - The target is the ESP32: an ILP32, little-endian machine.  [int],
      [long] and [size_t] are 32 bits wide.
    - Integers of the program are values of [Z]; every place where the C
      code truncates or wraps is written out ([u8], [u16], [u32], ...).
    - A block of memory is a [list Z] of bytes.  An access outside the
      block is undefined behaviour in C; the embedding makes it explicit
      as [None] in the [option] monad. *)

From Stdlib Require Import ZArith List String Ascii Bool Lia.
Import ListNotations.
Open Scope Z_scope.

(** ** The undefined-behaviour monad *)

Definition bind {A B : Type} (m : option A) (k : A -> option B) : option B :=
  match m with
  | Some a => k a
  | None => None
  end.

Notation "x <- m ;; k" := (bind m (fun x => k))
  (at level 61, m at next level, right associativity).
Notation "' p <- m ;; k" := (bind m (fun p => k))
  (at level 61, p pattern, m at next level, right associativity).

(** ** Machine integers *)

Definition u8 (x : Z) : Z := x mod 256.
Definition u16 (x : Z) : Z := x mod 65536.
Definition u32 (x : Z) : Z := x mod 4294967296.
Definition u64 (x : Z) : Z := x mod 18446744073709551616.

(** Conversion of a 32-bit unsigned value to [int]. *)
Definition to_int (x : Z) : Z :=
  let w := u32 x in
  if w <? 2147483648 then w else w - 4294967296.

Definition LONG_MAX : Z := 2147483647.
Definition LONG_MIN : Z := -2147483648.
Definition SIZE_MAX : Z := 4294967295.

(** [byte_of x k] is [((uint8_t * )&x)[k]] on a little-endian machine. *)
Definition byte_of (x k : Z) : Z := Z.land (Z.shiftr x (8 * k)) 255.

Definition bswap16 (x : Z) : Z :=
  Z.lor (Z.shiftl (byte_of x 0) 8) (byte_of x 1).

Definition bswap32 (x : Z) : Z :=
  Z.lor (Z.shiftl (byte_of x 0) 24)
    (Z.lor (Z.shiftl (byte_of x 1) 16)
       (Z.lor (Z.shiftl (byte_of x 2) 8) (byte_of x 3))).

(** ** Memory blocks *)

Definition bytes := list Z.

Definition load8 (m : bytes) (i : Z) : option Z :=
  if 0 <=? i then nth_error m (Z.to_nat i) else None.

Fixpoint upd (m : bytes) (i : nat) (v : Z) : bytes :=
  match m, i with
  | [], _ => []
  | _ :: m', O => v :: m'
  | x :: m', S i' => x :: upd m' i' v
  end.

Definition store8 (m : bytes) (i v : Z) : option bytes :=
  if (0 <=? i) && (i <? Z.of_nat (List.length m))
  then Some (upd m (Z.to_nat i) v)
  else None.

(** [*(uint16_t * )(m + i)] and [*(uint32_t * )(m + i)], little-endian. *)
Definition load16 (m : bytes) (i : Z) : option Z :=
  b0 <- load8 m i ;;
  b1 <- load8 m (i + 1) ;;
  Some (Z.lor b0 (Z.shiftl b1 8)).

Definition load32 (m : bytes) (i : Z) : option Z :=
  b0 <- load8 m i ;;
  b1 <- load8 m (i + 1) ;;
  b2 <- load8 m (i + 2) ;;
  b3 <- load8 m (i + 3) ;;
  Some (Z.lor b0 (Z.lor (Z.shiftl b1 8)
         (Z.lor (Z.shiftl b2 16) (Z.shiftl b3 24)))).

Definition store16 (m : bytes) (i v : Z) : option bytes :=
  m <- store8 m i (byte_of v 0) ;;
  store8 m (i + 1) (byte_of v 1).

Definition store32 (m : bytes) (i v : Z) : option bytes :=
  m <- store8 m i (byte_of v 0) ;;
  m <- store8 m (i + 1) (byte_of v 1) ;;
  m <- store8 m (i + 2) (byte_of v 2) ;;
  store8 m (i + 3) (byte_of v 3).

(** [len] successive bytes starting at [m + i]. *)
Fixpoint load_range (m : bytes) (i : Z) (len : nat) : option bytes :=
  match len with
  | O => Some []
  | S len' =>
      b <- load8 m i ;;
      bs <- load_range m (i + 1) len' ;;
      Some (b :: bs)
  end.

Fixpoint store_range (m : bytes) (i : Z) (bs : bytes) : option bytes :=
  match bs with
  | [] => Some m
  | b :: bs' =>
      m <- store8 m i b ;;
      store_range m (i + 1) bs'
  end.

(** [memmove(dst + i, src + j, len)] between two distinct blocks; [memcpy]
    is the same function there. *)
Definition memmove (dst : bytes) (i : Z) (src : bytes) (j : Z) (len : Z)
  : option bytes :=
  bs <- load_range src j (Z.to_nat len) ;;
  store_range dst i bs.

Definition memcpy := memmove.

(** [strnlen(m + i, maxlen)]. *)
Fixpoint strnlen (m : bytes) (i : Z) (maxlen : nat) : option Z :=
  match maxlen with
  | O => Some 0
  | S k =>
      b <- load8 m i ;;
      if b =? 0 then Some 0
      else (n <- strnlen m (i + 1) k ;; Some (n + 1))
  end.

(** ** C strings and the pieces of libc the codec uses *)

Definition NUL : ascii := Ascii.zero.

(** The array behind a string literal: its characters and the
    terminator.  A pointer into the array is the suffix it points to;
    the empty suffix is the pointer past the end, which must not be
    read. *)
Definition c_array (s : string) : list ascii :=
  list_ascii_of_string s ++ [NUL].

Definition code (c : ascii) : Z := Z.of_N (N_of_ascii c).

Definition isdigit (c : ascii) : bool := (48 <=? code c) && (code c <=? 57).

Definition isxdigit (c : ascii) : bool :=
  isdigit c
  || ((97 <=? code c) && (code c <=? 102))
  || ((65 <=? code c) && (code c <=? 70)).

Definition isspace (c : ascii) : bool :=
  (code c =? 32) || ((9 <=? code c) && (code c <=? 13)).

(** The value of [c] as a digit of the given base, if it is one. *)
Definition digit_val (base : Z) (c : ascii) : option Z :=
  let v :=
    if isdigit c then Some (code c - 48)
    else if (97 <=? code c) && (code c <=? 122) then Some (code c - 87)
    else if (65 <=? code c) && (code c <=? 90) then Some (code c - 55)
    else None in
  match v with
  | Some d => if d <? base then Some d else None
  | None => None
  end.

(** The digits at the head of [l]: their value and their number. *)
Fixpoint scan_digits (base : Z) (l : list ascii) (acc : Z) (cnt : nat)
  : option (Z * nat) :=
  match l with
  | [] => None
  | c :: l' =>
      match digit_val base c with
      | Some d => scan_digits base l' (acc * base + d) (S cnt)
      | None => Some (acc, cnt)
      end
  end.

Fixpoint skip_spaces (l : list ascii) (cnt : nat) : option (list ascii * nat) :=
  match l with
  | [] => None
  | c :: l' => if isspace c then skip_spaces l' (S cnt) else Some (l, cnt)
  end.

Definition clamp_long (v : Z) : Z :=
  if v >? LONG_MAX then LONG_MAX
  else if v <? LONG_MIN then LONG_MIN
  else v.

(** [strtol(l, &end_ptr, base)] for [base] 10 or 16, after newlib: white
    space, an optional sign, for base 16 an optional [0x], then digits;
    the value saturates; with no digit at all [end_ptr] is [l].  The
    result is the value and [end_ptr - l]. *)
Definition strtol (l : list ascii) (base : Z) : option (Z * nat) :=
  '(l1, n1) <- skip_spaces l 0 ;;
  '(neg, l2, n2) <-
     match l1 with
     | [] => None
     | c :: l' =>
         if (c =? "-")%char then Some (true, l', S n1)
         else if (c =? "+")%char then Some (false, l', S n1)
         else Some (false, l1, n1)
     end ;;
  '(l3, n3) <-
     match l2 with
     | c0 :: cx :: l' =>
         if (base =? 16) && (c0 =? "0")%char
            && ((cx =? "x")%char || (cx =? "X")%char)
         then Some (l', S (S n2))
         else Some (l2, n2)
     | _ => Some (l2, n2)
     end ;;
  '(v, k) <- scan_digits base l3 0 O ;;
  match k with
  | O => Some (0, O)
  | _ => Some (clamp_long (if neg : bool then - v else v), (n3 + k)%nat)
  end.

(** [atoi(l)] is [(int)strtol(l, NULL, 10)]. *)
Definition atoi (l : list ascii) : option Z :=
  '(v, _) <- strtol l 10 ;;
  Some v.

(** ** UIDs *)

Record rdm_uid_t := mk_uid { man_id : Z; dev_id : Z }.

Definition uid_is_eq (a b : rdm_uid_t) : bool :=
  (man_id a =? man_id b) && (dev_id a =? dev_id b).

Definition uid_is_lt (a b : rdm_uid_t) : bool :=
  (man_id a <? man_id b)
  || ((man_id a =? man_id b) && (dev_id a <? dev_id b)).

Definition uid_is_gt (a b : rdm_uid_t) : bool :=
  (man_id a >? man_id b)
  || ((man_id a =? man_id b) && (dev_id a >? dev_id b)).

Definition uid_is_le (a b : rdm_uid_t) : bool := negb (uid_is_gt a b).

Definition uid_is_ge (a b : rdm_uid_t) : bool := negb (uid_is_lt a b).

Definition uid_is_broadcast (uid : rdm_uid_t) : bool :=
  dev_id uid =? 4294967295.

Definition uid_is_null (uid : rdm_uid_t) : bool :=
  (man_id uid =? 0) && (dev_id uid =? 0).

Definition uid_is_target (uid alias : rdm_uid_t) : bool :=
  (((man_id alias =? 65535) || (man_id alias =? man_id uid))
   && (dev_id alias =? 4294967295))
  || uid_is_eq uid alias.

(** An [rdm_uid_t] object in memory: a packed struct of six bytes. *)
Definition load_uid (m : bytes) (i : Z) : option rdm_uid_t :=
  man <- load16 m i ;;
  dev <- load32 m (i + 2) ;;
  Some (mk_uid man dev).

Definition store_uid (m : bytes) (i : Z) (u : rdm_uid_t) : option bytes :=
  m <- store16 m i (man_id u) ;;
  store32 m (i + 2) (dev_id u).

(** [uidcpy(dst + i, src + j)]. *)
Definition uidcpy (dst : bytes) (i : Z) (src : bytes) (j : Z) : option bytes :=
  man <- load16 src j ;;
  dst <- store16 dst i (bswap16 man) ;;
  dev <- load32 src (j + 2) ;;
  store32 dst (i + 2) (bswap32 dev).

(** [uidmove(dst + i, src + j)]: the source is read into a temporary
    first. *)
Definition uidmove (dst : bytes) (i : Z) (src : bytes) (j : Z) : option bytes :=
  temp <- load_uid src j ;;
  dst <- store16 dst i (bswap16 (man_id temp)) ;;
  store32 dst (i + 2) (bswap32 (dev_id temp)).

(** [uid_is_null(m + i)] on raw memory; [dev_id] is read only when
    [man_id] is zero. *)
Definition uid_is_null_at (m : bytes) (i : Z) : option bool :=
  man <- load16 m i ;;
  if man =? 0 then (dev <- load32 m (i + 2) ;; Some (dev =? 0))
  else Some false.

(** ** The format codec *)

(** [sizeof(rdm_uid_t)]: the struct is packed ([uidcpy] finds [dev_id]
    two bytes after [man_id]). *)
Definition sizeof_uid : Z := 6.

Definition is_chr (c lower upper : ascii) : bool :=
  (c =? lower)%char || (c =? upper)%char.

(** What one turn of the loop of [rdm_param_parse] does with the
    character at [f]: it returns from the function, or it goes on with a
    [field_size], a number of characters by which [f] moved inside the
    body (the [++f] of the [for] comes on top) and [*is_singleton]. *)
Inductive parse_step :=
| ParseReturn (result : Z) (is_singleton : bool)
| ParseField (field_size : Z) (advance : nat) (is_singleton : bool).

(** The number of hexadecimal digits at the head of [l], counted as the
    loop [for (; num_chars <= 16; ++num_chars)] counts them: at most 17. *)
Fixpoint count_xdigits (l : list ascii) (todo : nat) : option nat :=
  match todo with
  | O => Some O
  | S todo' =>
      match l with
      | [] => None
      | c :: l' =>
          if isxdigit c
          then (n <- count_xdigits l' todo' ;; Some (S n))
          else Some O
      end
  end.

(** The body of the loop; [c] is [*f], [rest] is [f + 1]. *)
Definition parse_field (c : ascii) (rest : list ascii) (param_size : Z)
  (is_singleton : bool) : option parse_step :=
  if is_chr c "b" "B" then Some (ParseField 1 0 is_singleton)
  else if is_chr c "w" "W" then Some (ParseField 2 0 is_singleton)
  else if is_chr c "d" "D" then Some (ParseField 4 0 is_singleton)
  else if is_chr c "u" "U" then Some (ParseField sizeof_uid 0 is_singleton)
  else if is_chr c "v" "V" then
    match rest with
    | [] => None
    | f1 :: _ =>
        if negb (f1 =? NUL)%char && negb (f1 =? "$")%char
        then Some (ParseReturn 0 is_singleton)
        else Some (ParseField sizeof_uid 0 true)
    end
  else if is_chr c "a" "A" then
    match rest with
    | [] => None
    | f1 :: _ =>
        let str_has_fixed_len := isdigit f1 in
        '(field_size, digits) <-
           (if str_has_fixed_len
            then ('(v, e) <- strtol rest 10 ;; Some (u32 v, e))
            else Some (32, O)) ;;
        if negb str_has_fixed_len
           && (negb (f1 =? NUL)%char && negb (f1 =? "$")%char)
        then Some (ParseReturn (u32 (-1)) is_singleton)
        else if str_has_fixed_len && (field_size =? 0)
        then Some (ParseReturn 0 is_singleton)
        else if str_has_fixed_len && (field_size >? u32 (231 - param_size))
        then Some (ParseReturn 0 is_singleton)
        else if str_has_fixed_len
        then Some (ParseField field_size (S digits) is_singleton)
        else Some (ParseField field_size 0 true)
    end
  else if (c =? "#")%char then
    num_chars <- count_xdigits rest 17 ;;
    if (16 <? Z.of_nat num_chars)
    then Some (ParseReturn 0 is_singleton)
    else
      let field_size := Z.of_nat num_chars / 2 + Z.of_nat num_chars mod 2 in
      match nth_error rest num_chars with
      | None => None
      | Some t =>
          if negb (is_chr t "h" "H")
          then Some (ParseReturn 0 is_singleton)
          else Some (ParseField field_size (S num_chars) is_singleton)
      end
  else if (c =? "$")%char then
    match rest with
    | [] => None
    | f1 :: _ =>
        if negb (f1 =? NUL)%char
        then Some (ParseReturn 0 is_singleton)
        else Some (ParseField 0 0 true)
    end
  else Some (ParseReturn 0 is_singleton).

(** The loop [for (f = format; *f != 0; ++f)].  The pointer [f] is the
    suffix [l] of the format array together with [skip], the number of
    characters by which [f] still has to move before it is read again. *)
Fixpoint parse_loop (l : list ascii) (skip : nat) (param_size : Z)
  (is_singleton : bool) : option (Z * bool) :=
  match l with
  | [] => None
  | c :: rest =>
      match skip with
      | S k => parse_loop rest k param_size is_singleton
      | O =>
          if (c =? NUL)%char then Some (u32 param_size, is_singleton)
          else
            step <- parse_field c rest param_size is_singleton ;;
            match step with
            | ParseReturn r s => Some (r, s)
            | ParseField field_size advance s =>
                if u32 (param_size + field_size) >? 231
                then Some (0, s)
                else parse_loop rest advance
                       (to_int (param_size + field_size)) s
            end
      end
  end.

(** [rdm_param_parse(format, &is_singleton)]: the [size_t] it returns and
    the final value of [*is_singleton]. *)
Definition rdm_param_parse (format : string) : option (Z * bool) :=
  match c_array format with
  | [] => None
  | c :: _ => parse_loop (c_array format) 0 0 (c =? NUL)%char
  end.

(** The format with which [rdm_read] and [rdm_write] move the header. *)
Definition header_format : string := "#cc01#18huubbbwbw".

(** What one turn of the inner loop of [pd_emplace] does with the
    character at [f]: it leaves the loop ([break]), or it goes on with
    the new [n], the new destination and the number of characters by
    which [f] moved inside the body. *)
Inductive emplace_step :=
| EmplaceBreak
| EmplaceNext (n : Z) (destination : bytes) (advance : nat).

(** [for (j = 0, k = literal_len - 1; j < literal_len; ++j, --k)]: the
    bytes of the 64-bit [literal], most significant of the
    [literal_len] first. *)
Fixpoint emplace_literal (destination : bytes) (n literal j k : Z)
  (todo : nat) : option bytes :=
  match todo with
  | O => Some destination
  | S todo' =>
      b <- (if (0 <=? k) && (k <? 8) then Some (byte_of literal k)
            else None) ;;
      destination <- store8 destination (n + j) b ;;
      emplace_literal destination n literal (j + 1) (k - 1) todo'
  end.

(** The body of the inner loop; [c] is [*f], [rest] is [f + 1]. *)
Definition emplace_field (c : ascii) (rest : list ascii) (size : Z)
  (encode_nulls : bool) (source : bytes) (n : Z) (destination : bytes)
  : option emplace_step :=
  if is_chr c "b" "B" then
    v <- load8 source n ;;
    destination <- store8 destination n v ;;
    Some (EmplaceNext (n + 1) destination 0)
  else if is_chr c "w" "W" then
    v <- load16 source n ;;
    destination <- store16 destination n (bswap16 v) ;;
    Some (EmplaceNext (n + 2) destination 0)
  else if is_chr c "d" "D" then
    v <- load32 source n ;;
    destination <- store32 destination n (bswap32 v) ;;
    Some (EmplaceNext (n + 4) destination 0)
  else if is_chr c "u" "U" || is_chr c "v" "V" then
    stop <- (if is_chr c "v" "V" && negb encode_nulls
             then uid_is_null_at source n
             else Some false) ;;
    if stop : bool then Some EmplaceBreak
    else
      destination <- uidmove destination n source n ;;
      Some (EmplaceNext (n + sizeof_uid) destination 0)
  else if is_chr c "a" "A" then
    v <- atoi rest ;;
    len <- (if u32 v =? 0 then
              let str_size := u32 (size - (if encode_nulls then 1 else 0)) in
              let max_len :=
                if u32 (str_size - n) <? 32 then u32 (str_size - n) else 32 in
              strnlen source n (Z.to_nat max_len)
            else Some (u32 v)) ;;
    destination <- memmove destination n source n len ;;
    if encode_nulls then
      destination <- store8 destination len 0 ;;
      Some (EmplaceNext (n + 1 + len) destination 0)
    else Some (EmplaceNext (n + len) destination 0)
  else if (c =? "#")%char then
    '(v, end_ptr) <- strtol rest 16 ;;
    let literal := u64 v in
    let literal_len := Z.of_nat end_ptr / 2 + Z.of_nat end_ptr mod 2 in
    destination <-
      emplace_literal destination n literal 0 (literal_len - 1)
        (Z.to_nat literal_len) ;;
    Some (EmplaceNext (n + literal_len) destination (S end_ptr))
  else Some (EmplaceNext n destination 0).

(** The inner loop [for (f = format; *f != 0; ++f)], with [f] as in
    [parse_loop]. *)
Fixpoint emplace_loop (l : list ascii) (skip : nat) (size : Z)
  (encode_nulls : bool) (source : bytes) (n : Z) (destination : bytes)
  : option (Z * bytes) :=
  match l with
  | [] => None
  | c :: rest =>
      match skip with
      | S k => emplace_loop rest k size encode_nulls source n destination
      | O =>
          if (c =? NUL)%char then Some (n, destination)
          else
            step <- emplace_field c rest size encode_nulls source n
                      destination ;;
            match step with
            | EmplaceBreak => Some (n, destination)
            | EmplaceNext n' destination' advance =>
                emplace_loop rest advance size encode_nulls source n'
                  destination'
            end
      end
  end.

(** The outer loop [for (i = 0; i < num_params_to_copy; ++i)]. *)
Fixpoint emplace_params (format : string) (todo : nat) (size : Z)
  (encode_nulls : bool) (source : bytes) (n : Z) (destination : bytes)
  : option (Z * bytes) :=
  match todo with
  | O => Some (n, destination)
  | S todo' =>
      '(n', destination') <-
         emplace_loop (c_array format) 0 size encode_nulls source n
           destination ;;
      emplace_params format todo' size encode_nulls source n' destination'
  end.

(** [pd_emplace(destination, dest_size, format, source, src_size,
    encode_nulls)]: the value it returns and the destination block
    afterwards. *)
Definition pd_emplace (destination : bytes) (dest_size : Z) (format : string)
  (source : bytes) (src_size : Z) (encode_nulls : bool)
  : option (Z * bytes) :=
  let src_size := if src_size >? 231 then 231 else src_size in
  '(parsed, param_is_singleton) <- rdm_param_parse format ;;
  let param_size := to_int parsed in
  if param_size <? 1 then Some (0, destination)
  else
    let size := if dest_size <? src_size then dest_size else src_size in
    let num_params_to_copy :=
      if param_is_singleton : bool then 1 else to_int (size / param_size) in
    emplace_params format (Z.to_nat num_params_to_copy) size encode_nulls
      source 0 destination.

(** ** The discovery codec *)

(** Modelled from the spec: the constants [RDM_PREAMBLE], [RDM_DELIMITER],
    [RDM_SC] and [RDM_SUB_SC] of [rdm/types.h], which is not among the
    sources: the preamble byte is [0xFE], the delimiter [0xAA], the start
    code [0xCC] and the sub-start code [0x01]. *)
Definition RDM_PREAMBLE : Z := 254.
Definition RDM_DELIMITER : Z := 170.
Definition RDM_SC : Z := 204.
Definition RDM_SUB_SC : Z := 1.

Fixpoint encode_preamble (destination : bytes) (i : Z) (todo : nat)
  : option bytes :=
  match todo with
  | O => Some destination
  | S todo' =>
      destination <- store8 destination i RDM_PREAMBLE ;;
      encode_preamble destination (i + 1) todo'
  end.

(** [for (i = 0; i < count; ++i) checksum += m[start + i]] on a
    [uint16_t]. *)
Fixpoint checksum_loop (m : bytes) (i : Z) (todo : nat) (checksum : Z)
  : option Z :=
  match todo with
  | O => Some checksum
  | S todo' =>
      b <- load8 m i ;;
      checksum_loop m (i + 1) todo' (u16 (checksum + b))
  end.

(** [uid_encode(destination, uid, preamble_len)]. *)
Definition uid_encode (destination : bytes) (uid : rdm_uid_t)
  (preamble_len : Z) : option (Z * bytes) :=
  let preamble_len := if preamble_len >? 7 then 7 else preamble_len in
  m <- encode_preamble destination 0 (Z.to_nat preamble_len) ;;
  m <- store8 m preamble_len RDM_DELIMITER ;;
  let d := preamble_len + 1 in
  m <- store8 m (d + 0) (Z.lor (byte_of (man_id uid) 1) 170) ;;
  m <- store8 m (d + 1) (Z.lor (byte_of (man_id uid) 1) 85) ;;
  m <- store8 m (d + 2) (Z.lor (byte_of (man_id uid) 0) 170) ;;
  m <- store8 m (d + 3) (Z.lor (byte_of (man_id uid) 0) 85) ;;
  m <- store8 m (d + 4) (Z.lor (byte_of (dev_id uid) 3) 170) ;;
  m <- store8 m (d + 5) (Z.lor (byte_of (dev_id uid) 3) 85) ;;
  m <- store8 m (d + 6) (Z.lor (byte_of (dev_id uid) 2) 170) ;;
  m <- store8 m (d + 7) (Z.lor (byte_of (dev_id uid) 2) 85) ;;
  m <- store8 m (d + 8) (Z.lor (byte_of (dev_id uid) 1) 170) ;;
  m <- store8 m (d + 9) (Z.lor (byte_of (dev_id uid) 1) 85) ;;
  m <- store8 m (d + 10) (Z.lor (byte_of (dev_id uid) 0) 170) ;;
  m <- store8 m (d + 11) (Z.lor (byte_of (dev_id uid) 0) 85) ;;
  checksum <- checksum_loop m d 12 0 ;;
  m <- store8 m (d + 12) (Z.lor (Z.shiftr checksum 8) 170) ;;
  m <- store8 m (d + 13) (Z.lor (Z.shiftr checksum 8) 85) ;;
  m <- store8 m (d + 14) (Z.lor (Z.land checksum 255) 170) ;;
  m <- store8 m (d + 15) (Z.lor (Z.land checksum 255) 85) ;;
  Some (preamble_len + 1 + 16, m).

(** [for (...; preamble_len <= 7; ++preamble_len)] of
    [get_preamble_len]. *)
Fixpoint preamble_scan (data : bytes) (preamble_len : Z) (todo : nat)
  : option Z :=
  match todo with
  | O => Some preamble_len
  | S todo' =>
      b <- load8 data preamble_len ;;
      if b =? RDM_DELIMITER then Some preamble_len
      else preamble_scan data (preamble_len + 1) todo'
  end.

Definition get_preamble_len (data : bytes) : option Z :=
  preamble_scan data 0 8.

(** [for (i = 0, j = 0; i < 6; ++i, j += 2) buf[i] = d[j] & d[j + 1]]. *)
Fixpoint decode_euid (source : bytes) (d : Z) (todo : nat) : option bytes :=
  match todo with
  | O => Some []
  | S todo' =>
      b0 <- load8 source d ;;
      b1 <- load8 source (d + 1) ;;
      bs <- decode_euid source (d + 2) todo' ;;
      Some (Z.land b0 b1 :: bs)
  end.

(** [uid_decode(uid, source, size)]: the value it returns and [*uid]
    afterwards. *)
Definition uid_decode (uid : rdm_uid_t) (source : bytes) (size : Z)
  : option (Z * rdm_uid_t) :=
  if size <? 17 then Some (0, uid)
  else
    preamble_len <- get_preamble_len source ;;
    if (preamble_len >? 7) || (size <? preamble_len + 17) then Some (0, uid)
    else
      buf <- decode_euid source (preamble_len + 1) 6 ;;
      image <- store_uid [0; 0; 0; 0; 0; 0] 0 uid ;;
      image <- uidcpy image 0 buf 0 ;;
      uid <- load_uid image 0 ;;
      Some (preamble_len + 1 + 16, uid).

(** ** The port and the frame *)

(** The fields of [dmx_driver_t] that [rdm/utils.c] touches:
    [data.buffer], [data.tx_size], [is_sending], [rdm.tn], and the RTS
    line of [uart]. *)
Record dmx_driver_t := mk_driver {
  data_buffer : bytes;
  data_tx_size : Z;
  is_sending : bool;
  rdm_tn : Z;
  uart_rts : Z
}.

(** Modelled from the spec: [dmx_uart_get_rts] and [dmx_uart_set_rts] of
    the HAL, which is not among the sources: they read and set the
    direction latch, 0 is outbound and 1 is inbound. *)
Definition dmx_uart_get_rts (driver : dmx_driver_t) : Z := uart_rts driver.

Definition dmx_uart_set_rts (driver : dmx_driver_t) (set : Z) : dmx_driver_t :=
  mk_driver (data_buffer driver) (data_tx_size driver) (is_sending driver)
    (rdm_tn driver) set.

Definition set_buffer (driver : dmx_driver_t) (b : bytes) : dmx_driver_t :=
  mk_driver b (data_tx_size driver) (is_sending driver) (rdm_tn driver)
    (uart_rts driver).

Definition set_tx_size (driver : dmx_driver_t) (n : Z) : dmx_driver_t :=
  mk_driver (data_buffer driver) n (is_sending driver) (rdm_tn driver)
    (uart_rts driver).

(** Modelled from the spec: the struct [rdm_header_t] of [rdm/types.h],
    which is not among the sources: the 24-byte message envelope in wire
    order, that is start code, sub-start code, message length,
    [dest_uid], [src_uid], [tn], [port_id] (a union with
    [response_type]), [message_count], [sub_device], [cc], [pid] and
    [pdl], packed, every field in the byte order of the machine. *)
Record rdm_header_t := mk_header {
  start_code : Z;
  sub_start_code : Z;
  message_len : Z;
  dest_uid : rdm_uid_t;
  src_uid : rdm_uid_t;
  tn : Z;
  port_id : Z;
  message_count : Z;
  sub_device : Z;
  cc : Z;
  pid : Z;
  pdl : Z
}.

Definition response_type (h : rdm_header_t) : Z := port_id h.

Definition sizeof_header : Z := 24.

(** The object representation of a header. *)
Definition header_image (h : rdm_header_t) : bytes :=
  [ byte_of (start_code h) 0; byte_of (sub_start_code h) 0;
    byte_of (message_len h) 0;
    byte_of (man_id (dest_uid h)) 0; byte_of (man_id (dest_uid h)) 1;
    byte_of (dev_id (dest_uid h)) 0; byte_of (dev_id (dest_uid h)) 1;
    byte_of (dev_id (dest_uid h)) 2; byte_of (dev_id (dest_uid h)) 3;
    byte_of (man_id (src_uid h)) 0; byte_of (man_id (src_uid h)) 1;
    byte_of (dev_id (src_uid h)) 0; byte_of (dev_id (src_uid h)) 1;
    byte_of (dev_id (src_uid h)) 2; byte_of (dev_id (src_uid h)) 3;
    byte_of (tn h) 0; byte_of (port_id h) 0; byte_of (message_count h) 0;
    byte_of (sub_device h) 0; byte_of (sub_device h) 1;
    byte_of (cc h) 0;
    byte_of (pid h) 0; byte_of (pid h) 1;
    byte_of (pdl h) 0 ].

Definition header_of_image (m : bytes) : option rdm_header_t :=
  b0 <- load8 m 0 ;;
  b1 <- load8 m 1 ;;
  len <- load8 m 2 ;;
  dest <- load_uid m 3 ;;
  src <- load_uid m 9 ;;
  t <- load8 m 15 ;;
  port <- load8 m 16 ;;
  count <- load8 m 17 ;;
  sub <- load16 m 18 ;;
  c <- load8 m 20 ;;
  p <- load16 m 21 ;;
  l <- load8 m 23 ;;
  Some (mk_header b0 b1 len dest src t port count sub c p l).

(** Modelled from the spec: the constants of [dmx/types.h] and
    [rdm/types.h] that the spec leaves without a value, and the
    collaborators of the engine ([dmx_send], [dmx_receive],
    [dmx_wait_sent], [dmx_read], [rdm_driver_get_uid] and the FreeRTOS
    macro [pdMS_TO_TICKS]), none of which is among the sources.  The
    engine is verified for every choice of them. *)
Record rdm_types := mk_types {
  DMX_NUM_MAX : Z;
  RDM_RESPONSE_TYPE_NONE : Z;
  RDM_RESPONSE_TYPE_ACK : Z;
  RDM_RESPONSE_TYPE_ACK_TIMER : Z;
  RDM_RESPONSE_TYPE_NACK_REASON : Z;
  RDM_RESPONSE_TYPE_ACK_OVERFLOW : Z;
  RDM_RESPONSE_TYPE_INVALID : Z;
  RDM_PID_DISC_UNIQUE_BRANCH : Z;
  RDM_SUB_DEVICE_ROOT : Z;
  RDM_SUB_DEVICE_ALL : Z
}.

Record dmx_hal := mk_hal {
  (** [dmx_send(dmx_num, size)] *)
  dmx_send : Z -> Z -> dmx_driver_t -> dmx_driver_t;
  (** [dmx_receive(dmx_num, &packet, ticks)]: the driver afterwards, the
      size returned and [packet.err] *)
  dmx_receive : Z -> Z -> dmx_driver_t -> dmx_driver_t * Z * Z;
  (** [dmx_wait_sent(dmx_num, ticks)] *)
  dmx_wait_sent : Z -> Z -> dmx_driver_t -> dmx_driver_t;
  (** [dmx_read(dmx_num, destination, size)]: the destination afterwards *)
  dmx_read : Z -> bytes -> Z -> dmx_driver_t -> bytes;
  (** [rdm_driver_get_uid(dmx_num, &uid)] *)
  rdm_driver_get_uid : Z -> dmx_driver_t -> rdm_uid_t;
  pdMS_TO_TICKS : Z -> Z
}.

(** Modelled from the spec: the command classes of [rdm/types.h]:
    [DISC_COMMAND=0x10], [DISC_COMMAND_RESPONSE=0x11],
    [GET_COMMAND=0x20], [SET_COMMAND=0x30]; and the null UID. *)
Definition RDM_CC_DISC_COMMAND : Z := 16.
Definition RDM_CC_DISC_COMMAND_RESPONSE : Z := 17.
Definition RDM_CC_GET_COMMAND : Z := 32.
Definition RDM_CC_SET_COMMAND : Z := 48.
Definition RDM_UID_NULL : rdm_uid_t := mk_uid 0 0.

Definition is_null {A : Type} (p : option A) : bool :=
  match p with
  | Some _ => false
  | None => true
  end.

Section FrameIO.

Variable T : rdm_types.

(** [rdm_read(dmx_num, header, pdl, pd)].  [driver] is the entry
    [dmx_driver[dmx_num]], [None] when no driver is installed; a pointer
    argument is [None] when it is [NULL] and the object it points to
    otherwise.  The result is the value returned and the three objects
    afterwards.  [DMX_CHECK(c, 0, ...)] returns 0 when [c] fails. *)
Definition rdm_read (dmx_num : Z) (driver : option dmx_driver_t)
  (header : option rdm_header_t) (pdl : option Z) (pd : option bytes)
  : option (Z * option rdm_header_t * option Z * option bytes) :=
  if negb (dmx_num <? DMX_NUM_MAX T) then Some (0, header, pdl, pd)
  else
    match driver with
    | None => Some (0, header, pdl, pd)
    | Some driver =>
        let header_ptr := data_buffer driver in
        sc <- load16 header_ptr 0 ;;
        if negb (sc =? Z.lor RDM_SC (Z.shiftl RDM_SUB_SC 8))
        then Some (0, header, pdl, pd)
        else
          message_len <- load8 header_ptr 2 ;;
          checksum <- checksum_loop header_ptr 0 (Z.to_nat message_len) 0 ;;
          stored <- load16 header_ptr message_len ;;
          if negb (checksum =? bswap16 stored)
          then Some (0, header, pdl, pd)
          else
            header <-
              match header with
              | None => Some None
              | Some h =>
                  '(_, image) <-
                     pd_emplace (header_image h) sizeof_header header_format
                       header_ptr 513 true ;;
                  h' <- header_of_image image ;;
                  Some (Some h')
              end ;;
            pdl_on_wire <- load8 header_ptr 24 ;;
            let cpy_size :=
              match pdl with
              | None => pdl_on_wire
              | Some v => if v >? pdl_on_wire then pdl_on_wire else v
              end in
            pd <-
              match pd with
              | None => Some None
              | Some block =>
                  block <- memcpy block 0 header_ptr 25 cpy_size ;;
                  Some (Some block)
              end ;;
            let pdl :=
              match pdl with
              | None => None
              | Some _ => Some cpy_size
              end in
            Some (message_len + 2, header, pdl, pd)
    end.

(** [rdm_write(dmx_num, header, pdl, pd)]: the value returned and the
    driver afterwards. *)
Definition rdm_write (dmx_num : Z) (driver : option dmx_driver_t)
  (header : option rdm_header_t) (pdl : Z) (pd : option bytes)
  : option (Z * option dmx_driver_t) :=
  if negb (dmx_num <? DMX_NUM_MAX T) then Some (0, driver)
  else if negb ((pdl <=? 231) && negb (is_null pd && (pdl >? 0)))
  then Some (0, driver)
  else if negb (negb (is_null header) || (negb (is_null pd) && (pdl >? 0)))
  then Some (0, driver)
  else
    match driver with
    | None => Some (0, driver)
    | Some driver =>
        if is_sending driver then Some (0, Some driver)
        else
          let driver :=
            if dmx_uart_get_rts driver =? 1 then dmx_uart_set_rts driver 0
            else driver in
          let source :=
            match header with
            | Some h => header_image h
            | None => []
            end in
          '(_, m) <-
             pd_emplace (data_buffer driver) 513 header_format source
               sizeof_header false ;;
          m <- memcpy m 25 (match pd with Some b => b | None => [] end) 0
                 pdl ;;
          len <- load8 m 2 ;;
          m <- store8 m 2 (u8 (len + pdl)) ;;
          m <- store8 m 24 pdl ;;
          message_len <- load8 m 2 ;;
          checksum <-
            checksum_loop m 2 (Z.to_nat (message_len - 2))
              (RDM_SC + RDM_SUB_SC) ;;
          m <- store16 m message_len (bswap16 checksum) ;;
          message_len <- load8 m 2 ;;
          let written := message_len + 2 in
          Some (written, Some (set_tx_size (set_buffer driver m) written))
    end.

End FrameIO.

(** ** The transaction engine *)

Record rdm_ack_t := mk_ack { ack_err : Z; ack_type : Z; ack_num : Z }.

(** The calls of the engine to the bus, in the order in which it makes
    them; [CallSend size frame] carries the first [size] bytes of the
    port buffer at the time of the call, the frame that goes out. *)
Inductive bus_call :=
| CallSend (size : Z) (frame : bytes)
| CallReceive (ticks : Z)
| CallWaitSent (ticks : Z)
| CallRead (size : Z).

(** What a call of [rdm_request] leaves behind: the value returned, the
    driver, the objects behind its pointer arguments, and the calls it
    made to the bus. *)
Record request_result := mk_result {
  returned : Z;
  driver_after : option dmx_driver_t;
  header_after : option rdm_header_t;
  pdl_out_after : option Z;
  pd_out_after : option bytes;
  ack_after : option rdm_ack_t;
  bus_calls : list bus_call
}.

Definition set_port_id (h : rdm_header_t) (v : Z) : rdm_header_t :=
  mk_header (start_code h) (sub_start_code h) (message_len h) (dest_uid h)
    (src_uid h) (tn h) v (message_count h) (sub_device h) (cc h) (pid h)
    (pdl h).

Definition set_src_uid (h : rdm_header_t) (u : rdm_uid_t) : rdm_header_t :=
  mk_header (start_code h) (sub_start_code h) (message_len h) (dest_uid h)
    u (tn h) (port_id h) (message_count h) (sub_device h) (cc h) (pid h)
    (pdl h).

Definition set_tn_count (h : rdm_header_t) (t count : Z) : rdm_header_t :=
  mk_header (start_code h) (sub_start_code h) (message_len h) (dest_uid h)
    (src_uid h) t (port_id h) count (sub_device h) (cc h) (pid h) (pdl h).

Definition set_ack_err (a : option rdm_ack_t) (e : Z) : option rdm_ack_t :=
  match a with
  | None => None
  | Some a => Some (mk_ack e (ack_type a) (ack_num a))
  end.

Definition set_ack (a : option rdm_ack_t) (type num : Z) : option rdm_ack_t :=
  match a with
  | None => None
  | Some a => Some (mk_ack (ack_err a) type num)
  end.

Section Engine.

Variable T : rdm_types.
Variable HAL : dmx_hal.

(** The conditions that the [DMX_CHECK]s of [rdm_request] put on the
    header, in their order. *)
Definition header_checks (h : rdm_header_t) : bool :=
  negb (uid_is_null (dest_uid h))
  && negb (uid_is_broadcast (src_uid h))
  && ((cc h =? RDM_CC_DISC_COMMAND) || (cc h =? RDM_CC_GET_COMMAND)
      || (cc h =? RDM_CC_SET_COMMAND))
  && ((sub_device h <? 513)
      || ((sub_device h =? RDM_SUB_DEVICE_ALL T)
          && negb (cc h =? RDM_CC_GET_COMMAND))).

Definition response_expected (h : rdm_header_t) : bool :=
  negb (uid_is_broadcast (dest_uid h))
  || ((pid h =? RDM_PID_DISC_UNIQUE_BRANCH T)
      && (cc h =? RDM_CC_DISC_COMMAND)).

(** The classification of a response that is not a discovery response:
    [read] is the value of [rdm_read], [header] the header after it. *)
Definition classify (req : rdm_header_t) (read : Z) (header : rdm_header_t)
  : Z :=
  if read =? 0 then RDM_RESPONSE_TYPE_INVALID T
  else if negb (response_type header =? RDM_RESPONSE_TYPE_ACK T)
          && negb (response_type header =? RDM_RESPONSE_TYPE_ACK_TIMER T)
          && negb (response_type header =? RDM_RESPONSE_TYPE_NACK_REASON T)
          && negb (response_type header =? RDM_RESPONSE_TYPE_ACK_OVERFLOW T)
  then RDM_RESPONSE_TYPE_INVALID T
  else if negb (cc req =? cc header - 1)
          || negb (pid req =? pid header)
          || negb (tn req =? tn header)
          || negb (uid_is_target (src_uid header) (dest_uid req))
          || negb (uid_is_eq (dest_uid header) (src_uid req))
  then RDM_RESPONSE_TYPE_INVALID T
  else response_type header.

(** [decoded], from the response type and [pd_out]. *)
Definition decode_ack (type size : Z) (pd_out : option bytes) : option Z :=
  let pd := match pd_out with Some b => b | None => [] end in
  if type =? RDM_RESPONSE_TYPE_ACK T then Some (to_int size)
  else if type =? RDM_RESPONSE_TYPE_ACK_TIMER T then
    v <- load16 pd 0 ;;
    Some (pdMS_TO_TICKS HAL (bswap16 v * 10))
  else if type =? RDM_RESPONSE_TYPE_NACK_REASON T then
    v <- load16 pd 0 ;;
    Some (bswap16 v)
  else Some 0.

(** [rdm_request(dmx_num, header, pdl_in, pd_in, pdl_out, pd_out, ack)]. *)
Definition rdm_request (dmx_num : Z) (driver : option dmx_driver_t)
  (header : option rdm_header_t) (pdl_in : Z) (pd_in : option bytes)
  (pdl_out : option Z) (pd_out : option bytes) (ack : option rdm_ack_t)
  : option request_result :=
  let rejected := Some (mk_result 0 driver header pdl_out pd_out ack []) in
  if negb (dmx_num <? DMX_NUM_MAX T) then rejected
  else
    match header with
    | None => rejected
    | Some h =>
        if negb (negb (is_null pd_in) || (pdl_in =? 0)) then rejected
        else if negb (negb (is_null pd_out)
                      || match pdl_out with
                         | None => true
                         | Some v => v =? 0
                         end)
        then rejected
        else if negb (header_checks h) then rejected
        else
          match driver with
          | None => rejected
          | Some d =>
              (* Update the optional components of the header *)
              let h :=
                if port_id h =? 0 then set_port_id h (u8 (dmx_num + 1))
                else h in
              let h :=
                if uid_is_null (src_uid h)
                then set_src_uid h (rdm_driver_get_uid HAL dmx_num d)
                else h in
              (* Set header values that the user cannot set themselves *)
              let h := set_tn_count h (rdm_tn d) 0 in
              (* Write and send the request *)
              '(size, written) <-
                 rdm_write T dmx_num (Some d) (Some h) pdl_in pd_in ;;
              d <- written ;;
              let sent :=
                CallSend size (firstn (Z.to_nat size) (data_buffer d)) in
              let d := dmx_send HAL dmx_num size d in
              if response_expected h then
                let '(d, size, err) := dmx_receive HAL dmx_num 2 d in
                let ack := set_ack_err ack err in
                let calls := [sent; CallReceive 2] in
                if negb (err =? 0) then
                  Some (mk_result size (Some d) (Some h) pdl_out pd_out
                          (set_ack ack (RDM_RESPONSE_TYPE_INVALID T) 0)
                          calls)
                else if negb (pid h =? RDM_PID_DISC_UNIQUE_BRANCH T) then
                  (* Handle the RDM response packet *)
                  let req := h in
                  '(read, header, pdl_out, pd_out) <-
                     rdm_read T dmx_num (Some d) (Some h) pdl_out pd_out ;;
                  h <- header ;;
                  let type := classify req read h in
                  decoded <- decode_ack type size pd_out ;;
                  Some (mk_result size (Some d) (Some h) pdl_out pd_out
                          (set_ack ack type decoded) calls)
                else
                  (* Decode the EUID from the discovery response packet *)
                  let size := if size >? 24 then 24 else size in
                  let euid := dmx_read HAL dmx_num (repeat 0 24) size d in
                  let calls := calls ++ [CallRead size] in
                  '(decode_size, uid) <- uid_decode RDM_UID_NULL euid size ;;
                  if decode_size =? 0 then
                    Some (mk_result size (Some d) (Some h) pdl_out pd_out
                            (set_ack ack (RDM_RESPONSE_TYPE_INVALID T) 0)
                            calls)
                  else
                    let h :=
                      mk_header (start_code h) (sub_start_code h)
                        (message_len h) RDM_UID_NULL uid 0
                        (u8 (RDM_RESPONSE_TYPE_ACK T)) 0
                        (u16 (RDM_SUB_DEVICE_ROOT T))
                        RDM_CC_DISC_COMMAND_RESPONSE
                        (u16 (RDM_PID_DISC_UNIQUE_BRANCH T)) (pdl h) in
                    Some (mk_result decode_size (Some d) (Some h) pdl_out
                            pd_out
                            (set_ack ack (RDM_RESPONSE_TYPE_ACK T) 0) calls)
              else
                let ack := set_ack ack (RDM_RESPONSE_TYPE_NONE T) 0 in
                let d := dmx_wait_sent HAL dmx_num 2 d in
                Some (mk_result size (Some d) (Some h) pdl_out pd_out ack
                        [sent; CallWaitSent 2])
          end
    end.

End Engine.

(** ** [memcpyswap] of the driver *)

(** [for (; chrsrc >= src; --chrsrc, chrdest++) *chrdest = *chrsrc]:
    [chrsrc] is [src + left - 1], so the loop makes [left] turns; the
    result is the final [chrdest] and the destination block. *)
Fixpoint memcpyswap_loop (dest : bytes) (chrdest : Z) (source : bytes)
  (src : Z) (left : nat) : option (Z * bytes) :=
  match left with
  | O => Some (chrdest, dest)
  | S left' =>
      v <- load8 source (src + Z.of_nat left') ;;
      dest <- store8 dest chrdest v ;;
      memcpyswap_loop dest (chrdest + 1) source src left'
  end.

(** [memcpyswap(dest + i, source + src, n)] between two distinct
    blocks: the pointer it returns, as an offset into [dest], and the
    destination afterwards. *)
Definition memcpyswap (dest : bytes) (i : Z) (source : bytes) (src : Z)
  (n : Z) : option (Z * bytes) :=
  memcpyswap_loop dest i source src (Z.to_nat n).

(** ** The controller *)

Section Controller.

Variable T : rdm_types.

(** [rdm_uid_get(dmx_num, &uid)] and the constant
    [RDM_PID_DMX_START_ADDRESS], neither of which is among the
    sources. *)
Variable rdm_uid_get : Z -> dmx_driver_t -> rdm_uid_t.
Variable RDM_PID_DMX_START_ADDRESS : Z.

(** [rdm_send_get_dmx_start_address(dmx_num, header, dmx_start_address,
    ack)]: the value returned and the objects behind the three pointers
    afterwards. *)
Definition rdm_send_get_dmx_start_address (dmx_num : Z)
  (driver : option dmx_driver_t) (header : option rdm_header_t)
  (dmx_start_address : option Z) (ack : option rdm_ack_t)
  : bool * option rdm_header_t * option Z * option rdm_ack_t :=
  if negb (dmx_num <? DMX_NUM_MAX T)
  then (false, header, dmx_start_address, ack)
  else
    match header with
    | None => (false, header, dmx_start_address, ack)
    | Some h =>
        if is_null dmx_start_address
        then (false, header, dmx_start_address, ack)
        else
          match driver with
          | None => (false, header, dmx_start_address, ack)
          | Some d =>
              let h := set_src_uid h (rdm_uid_get dmx_num d) in
              let h := set_port_id h (u8 (dmx_num + 1)) in
              let h :=
                mk_header (start_code h) (sub_start_code h) (message_len h)
                  (dest_uid h) (src_uid h) (tn h) (port_id h)
                  (message_count h) (sub_device h) RDM_CC_GET_COMMAND
                  (u16 RDM_PID_DMX_START_ADDRESS) 0 in
              let ret := false in
              (ret, Some h, dmx_start_address, ack)
          end
    end.

(** [rdm_send_set_dmx_start_address(dmx_num, header, dmx_start_address,
    ack)]; [sizeof(dmx_start_address)] is 2. *)
Definition rdm_send_set_dmx_start_address (dmx_num : Z)
  (driver : option dmx_driver_t) (header : option rdm_header_t)
  (dmx_start_address : Z) (ack : option rdm_ack_t)
  : bool * option rdm_header_t * option rdm_ack_t :=
  if negb (dmx_num <? DMX_NUM_MAX T) then (false, header, ack)
  else
    match header with
    | None => (false, header, ack)
    | Some h =>
        if negb (dmx_start_address <? 513) then (false, header, ack)
        else
          match driver with
          | None => (false, header, ack)
          | Some d =>
              let h := set_src_uid h (rdm_uid_get dmx_num d) in
              let h := set_port_id h (u8 (dmx_num + 1)) in
              let h :=
                mk_header (start_code h) (sub_start_code h) (message_len h)
                  (dest_uid h) (src_uid h) (tn h) (port_id h)
                  (message_count h) (sub_device h) RDM_CC_SET_COMMAND
                  (u16 RDM_PID_DMX_START_ADDRESS) 2 in
              (false, Some h, ack)
          end
    end.

End Controller.

(** ** A concrete port, for running the code *)

(** Modelled from the spec: one choice for the constants that the spec
    leaves open: three ports, [NACK_REASON = 0x03] as the spec has it with
    the other response types numbered around it, and the values of
    ANSI E1.20 for [DISC_UNIQUE_BRANCH] and the sub-devices. *)
Definition spec_types : rdm_types :=
  {| DMX_NUM_MAX := 3;
     RDM_RESPONSE_TYPE_NONE := 0;
     RDM_RESPONSE_TYPE_ACK := 1;
     RDM_RESPONSE_TYPE_ACK_TIMER := 2;
     RDM_RESPONSE_TYPE_NACK_REASON := 3;
     RDM_RESPONSE_TYPE_ACK_OVERFLOW := 4;
     RDM_RESPONSE_TYPE_INVALID := 254;
     RDM_PID_DISC_UNIQUE_BRANCH := 1;
     RDM_SUB_DEVICE_ROOT := 0;
     RDM_SUB_DEVICE_ALL := 65535 |}.

(** A freshly installed driver: a zeroed buffer of 513 slots, idle,
    with the given transaction number. *)
Definition idle_driver (t : Z) : dmx_driver_t :=
  {| data_buffer := repeat 0 513;
     data_tx_size := 0;
     is_sending := false;
     rdm_tn := t;
     uart_rts := 1 |}.

Definition set_tn (driver : dmx_driver_t) (t : Z) : dmx_driver_t :=
  mk_driver (data_buffer driver) (data_tx_size driver) (is_sending driver) t
    (uart_rts driver).

(** Modelled from the spec: a bus on which one responder answers every
    request with the frame [response]: [dmx_send] transmits and moves the
    transaction number of the port on modulo 256, [dmx_receive] finds
    [response] at the start of the port buffer and reports its size and
    no error, [dmx_read] copies slots of the buffer, the port has the UID
    [own], and a tick is a millisecond. *)
Definition answering_bus (own : rdm_uid_t) (response : bytes) : dmx_hal :=
  {| dmx_send := fun _ _ d => set_tn d (u8 (rdm_tn d + 1));
     dmx_receive := fun _ _ d =>
       (set_buffer d
          (response ++ skipn (List.length response) (data_buffer d)),
        Z.of_nat (List.length response), 0);
     dmx_wait_sent := fun _ _ d => d;
     dmx_read := fun _ destination size d =>
       firstn (Z.to_nat size) (data_buffer d)
       ++ skipn (Z.to_nat size) destination;
     rdm_driver_get_uid := fun _ _ => own;
     pdMS_TO_TICKS := fun ms => ms |}.

(** The header of the second scenario of the spec: a [GET] of the DMX
    start address. *)
Definition scenario_header : rdm_header_t :=
  {| start_code := 0;
     sub_start_code := 0;
     message_len := 0;
     dest_uid := mk_uid 1 2;
     src_uid := mk_uid 3 4;
     tn := 5;
     port_id := 1;
     message_count := 0;
     sub_device := 0;
     cc := 32;
     pid := 96;
     pdl := 0 |}.

(** The bytes that the spec expects at the start of the port buffer for
    [scenario_header]. *)
Definition scenario_wire : bytes :=
  [ 204; 1; 24; 0; 1; 0; 0; 0; 2; 0; 3; 0; 0; 0; 4; 5; 1; 0; 0; 0; 32; 0;
    96; 0 ].

(** The answer of the responder [1:2] to [scenario_header]: a frame
    with [response_type = 0x03], [cc = GET_COMMAND_RESPONSE], [pdl = 2],
    the parameter data [00 05] and its checksum [0x0181]. *)
Definition nack_response : bytes :=
  [ 204; 1; 26; 0; 3; 0; 0; 0; 4; 0; 1; 0; 0; 0; 2; 5; 3; 0; 0; 0; 33; 0;
    96; 2; 0; 5; 1; 129 ].

(** A [SET] of the DMX start address sent to every device. *)
Definition broadcast_header : rdm_header_t :=
  {| start_code := 0;
     sub_start_code := 0;
     message_len := 0;
     dest_uid := mk_uid 65535 4294967295;
     src_uid := mk_uid 3 4;
     tn := 0;
     port_id := 1;
     message_count := 0;
     sub_device := 0;
     cc := 48;
     pid := 240;
     pdl := 2 |}.

(** The port after [rdm_write] of [scenario_header], without parameter
    data, into a fresh buffer. *)
Definition written_driver : dmx_driver_t :=
  {| data_buffer := [0; 205] ++ repeat 0 511;
     data_tx_size := 2;
     is_sending := false;
     rdm_tn := 5;
     uart_rts := 0 |}.

(** A port whose buffer already holds the header of the scenario. *)
Definition preloaded_driver : dmx_driver_t :=
  set_buffer (idle_driver 5) (scenario_wire ++ repeat 0 489).

(** A port buffer with a frame as [rdm_read] takes it: [MSG_LEN = 27],
    the number 2 at offset 24, the parameter data [05 06] from offset
    25 on and the checksum [0x00F5] behind them. *)
Definition framed_buffer : bytes :=
  [204; 1; 27] ++ repeat 0 21 ++ [2; 5; 6; 0; 245] ++ repeat 0 484.

(** Modelled from the spec: a bus on which nobody answers:
    [dmx_receive] reports no byte and the error [ESP_ERR_TIMEOUT]
    ([0x107]); the rest is as in [answering_bus]. *)
Definition silent_bus (own : rdm_uid_t) : dmx_hal :=
  {| dmx_send := fun _ _ d => set_tn d (u8 (rdm_tn d + 1));
     dmx_receive := fun _ _ d => (d, 0, 263);
     dmx_wait_sent := fun _ _ d => d;
     dmx_read := fun _ destination _ _ => destination;
     rdm_driver_get_uid := fun _ _ => own;
     pdMS_TO_TICKS := fun ms => ms |}.

(** A [DISC_UNIQUE_BRANCH] request over the whole range of UIDs, and
    the discovery response of the responder [5afe:12345678] with a
    preamble of seven bytes. *)
Definition discovery_header : rdm_header_t :=
  {| start_code := 0;
     sub_start_code := 0;
     message_len := 0;
     dest_uid := mk_uid 65535 4294967295;
     src_uid := mk_uid 3 4;
     tn := 0;
     port_id := 1;
     message_count := 0;
     sub_device := 0;
     cc := 16;
     pid := 1;
     pdl := 12 |}.

Definition discovery_response : bytes :=
  [ 254; 254; 254; 254; 254; 254; 254; 170; 250; 95; 254; 255; 186; 87; 190;
    117; 254; 87; 250; 125; 170; 93; 238; 119 ].

(** ** Notions used in the statements *)

Definition is_byte (b : Z) : Prop := 0 <= b < 256.

Definition sum_bytes (l : bytes) : Z := fold_right Z.add 0 l.

(** The byte at offset [i] of a block. *)
Definition byte_at (m : bytes) (i : Z) : Z := nth (Z.to_nat i) m 0.

(** The checksum of the frame in a buffer, as the frame format defines
    it: the 16-bit sum of the first [MSG_LEN] bytes, [MSG_LEN] being the
    byte at offset 2; and the checksum that the frame carries, big-endian,
    at offset [MSG_LEN]. *)
Definition frame_checksum (buffer : bytes) : Z :=
  sum_bytes (firstn (Z.to_nat (byte_at buffer 2)) buffer) mod 65536.

Definition stored_checksum (buffer : bytes) : Z :=
  256 * byte_at buffer (byte_at buffer 2)
  + byte_at buffer (byte_at buffer 2 + 1).

(** The twelve bytes that carry a UID in a discovery response. *)
Definition euid_bytes (u : rdm_uid_t) : bytes :=
  [ Z.lor (byte_of (man_id u) 1) 170; Z.lor (byte_of (man_id u) 1) 85;
    Z.lor (byte_of (man_id u) 0) 170; Z.lor (byte_of (man_id u) 0) 85;
    Z.lor (byte_of (dev_id u) 3) 170; Z.lor (byte_of (dev_id u) 3) 85;
    Z.lor (byte_of (dev_id u) 2) 170; Z.lor (byte_of (dev_id u) 2) 85;
    Z.lor (byte_of (dev_id u) 1) 170; Z.lor (byte_of (dev_id u) 1) 85;
    Z.lor (byte_of (dev_id u) 0) 170; Z.lor (byte_of (dev_id u) 0) 85 ].

(** The bytes of a list taken in pairs, each pair combined by [&]. *)
Fixpoint pair_and (l : bytes) : bytes :=
  match l with
  | b0 :: b1 :: l' => Z.land b0 b1 :: pair_and l'
  | _ => []
  end.


(** The number that a row of decimal digits writes, after [acc]. *)
Fixpoint numeral_value (ds : list ascii) (acc : Z) : Z :=
  match ds with
  | [] => acc
  | c :: ds' => numeral_value ds' (acc * 10 + (code c - 48))
  end.




(** The preconditions of [rdm_request], as the spec lists them: a
    header; [pd_in] or no [pdl_in]; [pd_out] or no (or a zero)
    [*pdl_out]; a destination that is not the null UID; a source that is
    not a broadcast UID; a command class among [DISC], [GET] and [SET];
    a sub-device below 513, or all sub-devices when the command is not a
    [GET]. *)
Definition request_preconditions (T : rdm_types)
  (header : option rdm_header_t) (pdl_in : Z) (pd_in : option bytes)
  (pdl_out : option Z) (pd_out : option bytes) : Prop :=
  exists h,
    header = Some h
    /\ (pd_in <> None \/ pdl_in = 0)
    /\ (pd_out <> None \/ pdl_out = None \/ pdl_out = Some 0)
    /\ ~ (man_id (dest_uid h) = 0 /\ dev_id (dest_uid h) = 0)
    /\ dev_id (src_uid h) <> 4294967295
    /\ (cc h = RDM_CC_DISC_COMMAND \/ cc h = RDM_CC_GET_COMMAND
        \/ cc h = RDM_CC_SET_COMMAND)
    /\ (sub_device h < 513
        \/ (sub_device h = RDM_SUB_DEVICE_ALL T
            /\ cc h <> RDM_CC_GET_COMMAND)).

(** The size of a field whose format is one character: [b], [w], [d]
    or [u], as [rdm_param_parse] and [pd_emplace] count it. *)
Definition plain_field (c : ascii) : option Z :=
  if is_chr c "b" "B" then Some 1
  else if is_chr c "w" "W" then Some 2
  else if is_chr c "d" "D" then Some 4
  else if is_chr c "u" "U" then Some sizeof_uid
  else None.

(** The size of a parameter whose format has such fields only. *)
Fixpoint plain_size (l : list ascii) : option Z :=
  match l with
  | [] => Some 0
  | c :: l' =>
      match plain_field c, plain_size l' with
      | Some k, Some n => Some (k + n)
      | _, _ => None
      end
  end.

(** The bytes of a field in the other byte order: a number reversed, a
    UID with its manufacturer and its device reversed each. *)
Definition swap_field (c : ascii) (bs : bytes) : bytes :=
  if is_chr c "u" "U" then rev (firstn 2 bs) ++ rev (skipn 2 bs)
  else rev bs.

(** The bytes of a parameter, and of [todo] parameters of [size] bytes
    in a row, with every field in the other byte order. *)
Fixpoint swap_fields (l : list ascii) (bs : bytes) : bytes :=
  match l with
  | [] => []
  | c :: l' =>
      match plain_field c with
      | Some k =>
          swap_field c (firstn (Z.to_nat k) bs)
          ++ swap_fields l' (skipn (Z.to_nat k) bs)
      | None => []
      end
  end.

Fixpoint swap_params (todo : nat) (l : list ascii) (size : nat) (bs : bytes)
  : bytes :=
  match todo with
  | O => []
  | S todo' =>
      swap_fields l (firstn size bs)
      ++ swap_params todo' l size (skipn size bs)
  end.

(** The values that fit the fields of a UID and of a header. *)
Definition uid_in_range (u : rdm_uid_t) : Prop :=
  0 <= man_id u < 65536 /\ 0 <= dev_id u < 4294967296.

Definition header_in_range (h : rdm_header_t) : Prop :=
  is_byte (start_code h) /\ is_byte (sub_start_code h)
  /\ is_byte (message_len h)
  /\ uid_in_range (dest_uid h) /\ uid_in_range (src_uid h)
  /\ is_byte (tn h) /\ is_byte (port_id h) /\ is_byte (message_count h)
  /\ 0 <= sub_device h < 65536
  /\ is_byte (cc h)
  /\ 0 <= pid h < 65536
  /\ is_byte (pdl h).

(** * Properties *)

(** ** Bytes and words *)

Lemma byte_of_div (x k : Z) :
  0 <= k -> byte_of x k = (x / 2 ^ (8 * k)) mod 256.
Proof.
  intros Hk. unfold byte_of.
  rewrite Z.shiftr_div_pow2 by lia.
  change 255 with (Z.ones 8).
  rewrite Z.land_ones by lia. reflexivity.
Qed.

Lemma byte_of_is_byte (x k : Z) : 0 <= k -> is_byte (byte_of x k).
Proof.
  intros Hk. rewrite byte_of_div by lia. unfold is_byte.
  apply Z.mod_pos_bound. lia.
Qed.

(** A low part and a shifted high part do not overlap. *)
Lemma lor_shiftl_add (a b k : Z) :
  0 <= k -> 0 <= a < 2 ^ k -> Z.lor a (Z.shiftl b k) = a + b * 2 ^ k.
Proof.
  intros Hk Ha.
  assert (Hdisj : Z.land a (Z.shiftl b k) = 0).
  { apply Z.bits_inj'. intros n Hn.
    rewrite Z.land_spec, Z.bits_0.
    destruct (Z.ltb_spec n k) as [Hlt | Hge].
    - rewrite Z.shiftl_spec_low by lia. apply andb_false_r.
    - assert (Hbit : Z.testbit a n = false).
      { destruct (Z.eq_dec a 0) as [-> | Hne].
        - apply Z.bits_0.
        - apply Z.bits_above_log2; [lia |].
          apply Z.log2_lt_pow2; [lia |].
          apply Z.lt_le_trans with (2 ^ k); [lia |].
          apply Z.pow_le_mono_r; lia. }
      rewrite Hbit. reflexivity. }
  rewrite <- Z.lxor_lor by exact Hdisj.
  rewrite <- Z.add_nocarry_lxor by exact Hdisj.
  rewrite Z.shiftl_mul_pow2 by lia. reflexivity.
Qed.

Lemma land_lor_euid (b : Z) : Z.land (Z.lor b 170) (Z.lor b 85) = b.
Proof.
  rewrite <- Z.lor_land_distr_r.
  change (Z.land 170 85) with 0. apply Z.lor_0_r.
Qed.

(** Two bytes as a little-endian 16-bit word, four as a 32-bit word. *)
Lemma word16_add (b0 b1 : Z) :
  is_byte b0 -> Z.lor b0 (Z.shiftl b1 8) = b0 + 256 * b1.
Proof.
  intros H0. rewrite lor_shiftl_add by (unfold is_byte in H0; lia).
  change (2 ^ 8) with 256. lia.
Qed.

Lemma word32_add (b0 b1 b2 b3 : Z) :
  is_byte b0 -> is_byte b1 -> is_byte b2 -> is_byte b3 ->
  Z.lor b0 (Z.lor (Z.shiftl b1 8) (Z.lor (Z.shiftl b2 16) (Z.shiftl b3 24)))
  = b0 + 256 * b1 + 65536 * b2 + 16777216 * b3.
Proof.
  unfold is_byte. intros H0 H1 H2 H3.
  assert (E3 : Z.lor (Z.shiftl b2 16) (Z.shiftl b3 24)
               = Z.shiftl (b2 + 256 * b3) 16).
  { rewrite <- (word16_add b2 b3) by exact H2.
    rewrite Z.shiftl_lor, Z.shiftl_shiftl by lia. reflexivity. }
  rewrite E3.
  assert (E2 : Z.lor (Z.shiftl b1 8) (Z.shiftl (b2 + 256 * b3) 16)
               = Z.shiftl (b1 + 256 * (b2 + 256 * b3)) 8).
  { rewrite <- (word16_add b1 (b2 + 256 * b3)) by exact H1.
    rewrite Z.shiftl_lor, Z.shiftl_shiftl by lia. reflexivity. }
  rewrite E2.
  rewrite word16_add by (unfold is_byte; lia). lia.
Qed.

Lemma bswap16_add (x : Z) : bswap16 x = 256 * byte_of x 0 + byte_of x 1.
Proof.
  unfold bswap16. rewrite Z.lor_comm.
  rewrite word16_add by (apply byte_of_is_byte; lia). lia.
Qed.

Lemma bswap32_add (x : Z) :
  bswap32 x = 16777216 * byte_of x 0 + 65536 * byte_of x 1
              + 256 * byte_of x 2 + byte_of x 3.
Proof.
  unfold bswap32.
  pose proof (byte_of_is_byte x 0 ltac:(lia)) as H0.
  pose proof (byte_of_is_byte x 1 ltac:(lia)) as H1.
  pose proof (byte_of_is_byte x 2 ltac:(lia)) as H2.
  pose proof (byte_of_is_byte x 3 ltac:(lia)) as H3.
  unfold is_byte in *.
  rewrite (Z.lor_comm (Z.shiftl (byte_of x 2) 8)).
  rewrite (lor_shiftl_add (byte_of x 3)) by lia.
  rewrite (Z.lor_comm (Z.shiftl (byte_of x 1) 16)).
  rewrite (lor_shiftl_add _ (byte_of x 1) 16)
    by (change (2 ^ 8) with 256; change (2 ^ 16) with 65536; lia).
  rewrite (Z.lor_comm (Z.shiftl (byte_of x 0) 24)).
  rewrite (lor_shiftl_add _ (byte_of x 0) 24)
    by (change (2 ^ 8) with 256; change (2 ^ 16) with 65536;
        change (2 ^ 24) with 16777216; lia).
  change (2 ^ 8) with 256; change (2 ^ 16) with 65536;
    change (2 ^ 24) with 16777216. lia.
Qed.

Lemma byte_of_word16 (c0 c1 : Z) :
  is_byte c0 -> is_byte c1 ->
  byte_of (c0 + 256 * c1) 0 = c0 /\ byte_of (c0 + 256 * c1) 1 = c1.
Proof.
  unfold is_byte. intros H0 H1. rewrite !byte_of_div by lia.
  change (2 ^ (8 * 0)) with 1. change (2 ^ (8 * 1)) with 256.
  split; Z.div_mod_to_equations; lia.
Qed.

Lemma byte_of_word32 (c0 c1 c2 c3 : Z) :
  is_byte c0 -> is_byte c1 -> is_byte c2 -> is_byte c3 ->
  byte_of (c0 + 256 * c1 + 65536 * c2 + 16777216 * c3) 0 = c0
  /\ byte_of (c0 + 256 * c1 + 65536 * c2 + 16777216 * c3) 1 = c1
  /\ byte_of (c0 + 256 * c1 + 65536 * c2 + 16777216 * c3) 2 = c2
  /\ byte_of (c0 + 256 * c1 + 65536 * c2 + 16777216 * c3) 3 = c3.
Proof.
  unfold is_byte. intros H0 H1 H2 H3.
  rewrite !byte_of_div by lia.
  change (2 ^ (8 * 0)) with 1. change (2 ^ (8 * 1)) with 256.
  change (2 ^ (8 * 2)) with 65536. change (2 ^ (8 * 3)) with 16777216.
  repeat split; Z.div_mod_to_equations; lia.
Qed.

(** ** Memory blocks *)

Lemma length_upd (m : bytes) (i : nat) (v : Z) :
  List.length (upd m i v) = List.length m.
Proof.
  revert i. induction m as [| x m IH]; intros [| i]; simpl; auto.
Qed.

Lemma nth_error_upd_eq (m : bytes) (i : nat) (v : Z) :
  (i < List.length m)%nat -> nth_error (upd m i v) i = Some v.
Proof.
  revert i. induction m as [| x m IH]; intros [| i] H; simpl in *;
    try lia; auto.
  apply IH. lia.
Qed.

Lemma nth_error_upd_neq (m : bytes) (i j : nat) (v : Z) :
  i <> j -> nth_error (upd m i v) j = nth_error m j.
Proof.
  revert i j. induction m as [| x m IH]; intros [| i] [| j] H; simpl;
    try reflexivity; try congruence.
  apply IH. congruence.
Qed.

Lemma store8_Some (m : bytes) (i v : Z) :
  0 <= i < Z.of_nat (List.length m) ->
  store8 m i v = Some (upd m (Z.to_nat i) v).
Proof.
  intros H. unfold store8.
  replace (0 <=? i) with true by (symmetry; apply Z.leb_le; lia).
  replace (i <? Z.of_nat (List.length m)) with true
    by (symmetry; apply Z.ltb_lt; lia).
  reflexivity.
Qed.

Lemma store8_length (m m' : bytes) (i v : Z) :
  store8 m i v = Some m' -> List.length m' = List.length m.
Proof.
  unfold store8. destruct (_ && _); intros E; inversion E.
  apply length_upd.
Qed.

Lemma load8_nth (m : bytes) (i : Z) :
  0 <= i < Z.of_nat (List.length m) ->
  load8 m i = Some (nth (Z.to_nat i) m 0).
Proof.
  intros H. unfold load8.
  replace (0 <=? i) with true by (symmetry; apply Z.leb_le; lia).
  apply nth_error_nth'. lia.
Qed.

Lemma load8_upd_eq (m : bytes) (n : nat) (v j : Z) :
  j = Z.of_nat n -> (n < List.length m)%nat ->
  load8 (upd m n v) j = Some v.
Proof.
  intros -> H. unfold load8.
  replace (0 <=? Z.of_nat n) with true by (symmetry; apply Z.leb_le; lia).
  rewrite Nat2Z.id. apply nth_error_upd_eq. exact H.
Qed.

Lemma load8_upd_neq (m : bytes) (n : nat) (v j : Z) :
  j <> Z.of_nat n -> load8 (upd m n v) j = load8 m j.
Proof.
  intros H. unfold load8. destruct (0 <=? j) eqn:E; [| reflexivity].
  apply nth_error_upd_neq. apply Z.leb_le in E. lia.
Qed.

Lemma load_range_Some (n : nat) (m : bytes) (i : Z) :
  0 <= i -> i + Z.of_nat n <= Z.of_nat (List.length m) ->
  exists bs, load_range m i n = Some bs /\ List.length bs = n.
Proof.
  revert i. induction n as [| n IH]; intros i Hi Hn.
  - exists []. split; reflexivity.
  - simpl. rewrite load8_nth by lia. simpl.
    destruct (IH (i + 1)) as [bs [E L]]; try lia.
    rewrite E. simpl. eexists. split; [reflexivity |]. simpl. lia.
Qed.

Lemma store_range_Some (bs m : bytes) (i : Z) :
  0 <= i -> i + Z.of_nat (List.length bs) <= Z.of_nat (List.length m) ->
  exists m', store_range m i bs = Some m'
             /\ List.length m' = List.length m
             /\ forall j, j < i -> load8 m' j = load8 m j.
Proof.
  revert m i. induction bs as [| b bs IH]; intros m i Hi Hn.
  - exists m. repeat split; reflexivity.
  - simpl in *. rewrite store8_Some by lia. simpl.
    destruct (IH (upd m (Z.to_nat i) b) (i + 1)) as [m' [E [L K]]];
      rewrite ?length_upd; try lia.
    exists m'. split; [exact E |]. split.
    + rewrite L. apply length_upd.
    + intros j Hj. rewrite K by lia. apply load8_upd_neq. lia.
Qed.

Lemma memmove_Some (dst src : bytes) (i j len : Z) :
  0 <= i -> 0 <= j -> 0 <= len ->
  j + len <= Z.of_nat (List.length src) ->
  i + len <= Z.of_nat (List.length dst) ->
  exists m', memmove dst i src j len = Some m'
             /\ List.length m' = List.length dst
             /\ forall k, k < i -> load8 m' k = load8 dst k.
Proof.
  intros Hi Hj Hlen Hs Hd. unfold memmove.
  destruct (load_range_Some (Z.to_nat len) src j) as [bs [E L]]; try lia.
  rewrite E. simpl.
  apply store_range_Some; lia.
Qed.

Lemma checksum_loop_sum (todo : nat) (m : bytes) (i c : Z) :
  0 <= i -> i + Z.of_nat todo <= Z.of_nat (List.length m) ->
  0 <= c < 65536 ->
  checksum_loop m i todo c
  = Some ((c + sum_bytes (firstn todo (skipn (Z.to_nat i) m))) mod 65536).
Proof.
  revert i c. induction todo as [| todo IH]; intros i c Hi Hn Hc.
  - simpl. rewrite Z.add_0_r, Z.mod_small by lia. reflexivity.
  - cbn [checksum_loop]. rewrite load8_nth by lia. cbn [bind].
    rewrite IH; try lia.
    + f_equal.
      assert (E : skipn (Z.to_nat i) m
                  = nth (Z.to_nat i) m 0 :: skipn (Z.to_nat (i + 1)) m).
      { replace (Z.to_nat (i + 1)) with (S (Z.to_nat i)) by lia.
        clear IH Hc. assert (Hlt : (Z.to_nat i < List.length m)%nat) by lia.
        revert Hlt. generalize (Z.to_nat i). clear.
        induction m as [| x m IHm]; intros [| n] H; simpl in *; try lia.
        - reflexivity.
        - apply IHm. lia. }
      rewrite E. cbn [firstn sum_bytes fold_right]. unfold u16.
      fold (sum_bytes (firstn todo (skipn (Z.to_nat (i + 1)) m))).
      rewrite Zplus_mod_idemp_l. f_equal. lia.
    + unfold u16. apply Z.mod_pos_bound. lia.
Qed.

Lemma checksum_loop_Some (todo : nat) (m : bytes) (i c : Z) :
  0 <= i -> i + Z.of_nat todo <= Z.of_nat (List.length m) ->
  exists c', checksum_loop m i todo c = Some c'.
Proof.
  revert i c. induction todo as [| todo IH]; intros i c Hi Hn.
  - eexists. reflexivity.
  - simpl. rewrite load8_nth by lia. simpl. apply IH; lia.
Qed.

Ltac store_step :=
  rewrite store8_Some by (rewrite ?length_upd; lia); cbn [bind].

Ltac load_upd :=
  repeat (rewrite load8_upd_neq by lia);
  try (rewrite load8_upd_eq by (rewrite ?length_upd; lia)).

Lemma load16_Some (m : bytes) (i : Z) :
  0 <= i -> i + 2 <= Z.of_nat (List.length m) ->
  exists v, load16 m i = Some v.
Proof.
  intros Hi Hn. unfold load16. rewrite !load8_nth by lia. cbn [bind]. eauto.
Qed.





Lemma skipn_cons_nth (m : bytes) (i : nat) :
  (i < List.length m)%nat -> skipn i m = nth i m 0 :: skipn (S i) m.
Proof.
  revert i. induction m as [| x m IH]; intros [| i] H; simpl in *; try lia.
  - reflexivity.
  - apply IH. lia.
Qed.

Lemma upd_splice (m : bytes) (i : nat) (v : Z) :
  (i < List.length m)%nat -> upd m i v = firstn i m ++ v :: skipn (S i) m.
Proof.
  revert i. induction m as [| x m IH]; intros [| i] H; simpl in *; try lia.
  - reflexivity.
  - f_equal. apply IH. lia.
Qed.

Lemma load_range_splice (len : nat) (src : bytes) (i : nat) :
  (i + len <= List.length src)%nat ->
  load_range src (Z.of_nat i) len = Some (firstn len (skipn i src)).
Proof.
  revert i. induction len as [| len IH]; intros i H.
  - reflexivity.
  - cbn [load_range]. rewrite load8_nth by lia. cbn [bind].
    replace (Z.of_nat i + 1) with (Z.of_nat (S i)) by lia.
    rewrite IH by lia. cbn [bind]. rewrite Nat2Z.id.
    rewrite (skipn_cons_nth src i) by lia. reflexivity.
Qed.

Lemma store_range_splice (bs : bytes) :
  forall (m : bytes) (i : nat),
    (i + List.length bs <= List.length m)%nat ->
    store_range m (Z.of_nat i) bs
    = Some (firstn i m ++ bs ++ skipn (i + List.length bs) m).
Proof.
  induction bs as [| b bs IH]; intros m i H.
  - cbn [store_range List.length app]. rewrite Nat.add_0_r.
    rewrite firstn_skipn. reflexivity.
  - cbn [store_range List.length] in *. rewrite store8_Some by lia.
    cbn [bind]. rewrite Nat2Z.id.
    replace (Z.of_nat i + 1) with (Z.of_nat (S i)) by lia.
    rewrite IH by (rewrite length_upd; lia). f_equal.
    rewrite (upd_splice m i b) by lia.
    assert (Hfi : List.length (firstn i m) = i)
      by (apply firstn_length_le; lia).
    replace (S i) with (List.length (firstn i m) + 1)%nat at 1 by lia.
    rewrite firstn_app_2. cbn [firstn].
    replace (S i + List.length bs)%nat
      with (List.length (firstn i m) + S (List.length bs))%nat by lia.
    rewrite skipn_app.
    replace (List.length (firstn i m) + S (List.length bs)
             - List.length (firstn i m))%nat
      with (S (List.length bs)) by lia.
    rewrite skipn_all2 by lia. cbn [app].
    change (skipn (S (List.length bs)) (b :: skipn (S i) m))
      with (skipn (List.length bs) (skipn (S i) m)).
    rewrite skipn_skipn. rewrite <- app_assoc. cbn [app].
    replace (List.length bs + S i)%nat with (i + S (List.length bs))%nat
      by lia.
    reflexivity.
Qed.


(** ** The discovery codec *)

Lemma encode_preamble_spec (todo : nat) (m : bytes) (i : Z) :
  0 <= i -> i + Z.of_nat todo <= Z.of_nat (List.length m) ->
  exists m', encode_preamble m i todo = Some m'
             /\ List.length m' = List.length m
             /\ (forall j, i <= j < i + Z.of_nat todo ->
                           load8 m' j = Some RDM_PREAMBLE)
             /\ (forall j, j < i -> load8 m' j = load8 m j).
Proof.
  revert m i. induction todo as [| todo IH]; intros m i Hi Hn.
  - exists m. repeat split; try reflexivity. intros j Hj. lia.
  - cbn [encode_preamble]. rewrite store8_Some by lia. cbn [bind].
    destruct (IH (upd m (Z.to_nat i) RDM_PREAMBLE) (i + 1))
      as [m' [E [L [P K]]]]; rewrite ?length_upd; try lia.
    exists m'. split; [exact E |]. split; [| split].
    + rewrite L. apply length_upd.
    + intros j Hj. destruct (Z.eq_dec j i) as [-> | Hne].
      * rewrite K by lia. apply load8_upd_eq; lia.
      * apply P. lia.
    + intros j Hj. rewrite K by lia. apply load8_upd_neq. lia.
Qed.

(** What [uid_encode] leaves in the destination. *)
Lemma uid_encode_spec (destination : bytes) (u : rdm_uid_t) (p : Z) :
  0 <= p <= 7 -> p + 17 <= Z.of_nat (List.length destination) ->
  exists m, uid_encode destination u p = Some (p + 17, m)
            /\ List.length m = List.length destination
            /\ (forall j, 0 <= j < p -> load8 m j = Some RDM_PREAMBLE)
            /\ load8 m p = Some RDM_DELIMITER
            /\ (forall k, (k < 12)%nat ->
                  load8 m (p + 1 + Z.of_nat k)
                  = Some (nth k (euid_bytes u) 0)).
Proof.
  intros Hp Hlen. unfold uid_encode.
  assert (Hclamp : (p >? 7) = false) by lia.
  rewrite Hclamp.
  destruct (encode_preamble_spec (Z.to_nat p) destination 0)
    as [m1 [E1 [L1 [P1 _]]]]; try lia.
  rewrite E1. cbn [bind].
  do 13 store_step.
  match goal with
  | |- context [checksum_loop ?m ?i ?n ?c0] =>
      destruct (checksum_loop_Some n m i c0) as [c Ec];
      rewrite ?length_upd; try lia
  end.
  rewrite Ec. cbn [bind].
  do 4 store_step.
  eexists. split; [f_equal; f_equal; lia |].
  split; [rewrite !length_upd; exact L1 |].
  split; [| split].
  - intros j Hj. load_upd. apply P1. lia.
  - load_upd. reflexivity.
  - intros k Hk.
    do 12 (destruct k as [| k]; [cbn [Z.of_nat nth euid_bytes]; load_upd;
                                reflexivity |]).
    lia.
Qed.

Lemma preamble_scan_spec (todo : nat) (m : bytes) (i p : Z) :
  i <= p -> p - i < Z.of_nat todo ->
  (forall j, i <= j < p ->
     exists b, load8 m j = Some b /\ b <> RDM_DELIMITER) ->
  load8 m p = Some RDM_DELIMITER ->
  preamble_scan m i todo = Some p.
Proof.
  revert i. induction todo as [| todo IH]; intros i Hi Hn Hpre Hdel.
  - lia.
  - cbn [preamble_scan]. destruct (Z.eq_dec i p) as [-> | Hne].
    + rewrite Hdel. cbn [bind]. rewrite Z.eqb_refl. reflexivity.
    + destruct (Hpre i) as [b [Eb Nb]]; [lia |].
      rewrite Eb. cbn [bind].
      replace (b =? RDM_DELIMITER) with false
        by (symmetry; apply Z.eqb_neq; exact Nb).
      apply IH; try lia; [| exact Hdel].
      intros j Hj. apply Hpre. lia.
Qed.

Lemma decode_euid_spec (todo : nat) (m : bytes) (d : Z) (enc : bytes) :
  List.length enc = (2 * todo)%nat ->
  (forall k, (k < 2 * todo)%nat ->
     load8 m (d + Z.of_nat k) = Some (nth k enc 0)) ->
  decode_euid m d todo = Some (pair_and enc).
Proof.
  revert d enc. induction todo as [| todo IH]; intros d enc Hlen Hload.
  - destruct enc; [reflexivity | discriminate].
  - destruct enc as [| e0 [| e1 enc]]; try (simpl in Hlen; lia).
    cbn [decode_euid pair_and].
    pose proof (Hload 0%nat ltac:(lia)) as H0.
    pose proof (Hload 1%nat ltac:(lia)) as H1.
    cbn [Z.of_nat nth] in H0, H1. rewrite Z.add_0_r in H0.
    change (Z.pos (Pos.of_succ_nat 0)) with 1 in H1.
    rewrite H0, H1. cbn [bind].
    rewrite (IH (d + 2) enc).
    + reflexivity.
    + simpl in Hlen. lia.
    + intros k Hk.
      replace (d + 2 + Z.of_nat k) with (d + Z.of_nat (S (S k))) by lia.
      rewrite Hload by lia. reflexivity.
Qed.

(** [uidcpy] from six bytes into a UID object, as the code computes
    it, and for six bytes in wire order. *)
Lemma uidcpy_image {A : Type} (b0 b1 b2 b3 b4 b5 : Z) (uid0 : rdm_uid_t)
  (k : rdm_uid_t -> option A) :
  (image <- store_uid [0; 0; 0; 0; 0; 0] 0 uid0 ;;
   image <- uidcpy image 0 [b0; b1; b2; b3; b4; b5] 0 ;;
   uid <- load_uid image 0 ;;
   k uid)
  = k (let man := bswap16 (Z.lor b0 (Z.shiftl b1 8)) in
       let dev :=
         bswap32 (Z.lor b2 (Z.lor (Z.shiftl b3 8)
                    (Z.lor (Z.shiftl b4 16) (Z.shiftl b5 24)))) in
       mk_uid (Z.lor (byte_of man 0) (Z.shiftl (byte_of man 1) 8))
         (Z.lor (byte_of dev 0)
            (Z.lor (Z.shiftl (byte_of dev 1) 8)
               (Z.lor (Z.shiftl (byte_of dev 2) 16)
                  (Z.shiftl (byte_of dev 3) 24))))).
Proof.
  cbv -[Z.lor Z.shiftl byte_of bswap16 bswap32]. reflexivity.
Qed.

Lemma uidcpy_from_wire {A : Type} (b0 b1 b2 b3 b4 b5 : Z)
  (uid0 : rdm_uid_t) (k : rdm_uid_t -> option A) :
  is_byte b0 -> is_byte b1 -> is_byte b2 -> is_byte b3 -> is_byte b4 ->
  is_byte b5 ->
  (image <- store_uid [0; 0; 0; 0; 0; 0] 0 uid0 ;;
   image <- uidcpy image 0 [b0; b1; b2; b3; b4; b5] 0 ;;
   uid <- load_uid image 0 ;;
   k uid)
  = k (mk_uid (256 * b0 + b1)
              (16777216 * b2 + 65536 * b3 + 256 * b4 + b5)).
Proof.
  intros H0 H1 H2 H3 H4 H5.
  rewrite uidcpy_image. cbv zeta.
  rewrite (word16_add b0 b1) by assumption.
  rewrite (word32_add b2 b3 b4 b5) by assumption.
  rewrite bswap16_add, bswap32_add.
  destruct (byte_of_word16 b0 b1 H0 H1) as [E0 E1].
  destruct (byte_of_word32 b2 b3 b4 b5 H2 H3 H4 H5) as [F0 [F1 [F2 F3]]].
  rewrite E0, E1, F0, F1, F2, F3.
  replace (256 * b0 + b1) with (b1 + 256 * b0) by lia.
  replace (16777216 * b2 + 65536 * b3 + 256 * b4 + b5)
    with (b5 + 256 * b4 + 65536 * b3 + 16777216 * b2) by lia.
  destruct (byte_of_word16 b1 b0 H1 H0) as [G0 G1].
  destruct (byte_of_word32 b5 b4 b3 b2 H5 H4 H3 H2) as [K0 [K1 [K2 K3]]].
  rewrite G0, G1, K0, K1, K2, K3.
  rewrite word16_add by assumption.
  rewrite word32_add by assumption.
  reflexivity.
Qed.

(** [uid_decode] on any source whose first delimiter is at [p <= 7] and
    that is followed by the twelve bytes [enc]. *)
Lemma uid_decode_accepts (source enc : bytes) (size p : Z)
  (uid0 : rdm_uid_t) :
  0 <= p <= 7 -> p + 17 <= size ->
  (forall j, 0 <= j < p ->
     exists b, load8 source j = Some b /\ b <> RDM_DELIMITER) ->
  load8 source p = Some RDM_DELIMITER ->
  List.length enc = 12%nat ->
  (forall k, (k < 12)%nat ->
     load8 source (p + 1 + Z.of_nat k) = Some (nth k enc 0)) ->
  uid_decode uid0 source size
  = (image <- store_uid [0; 0; 0; 0; 0; 0] 0 uid0 ;;
     image <- uidcpy image 0 (pair_and enc) 0 ;;
     uid <- load_uid image 0 ;;
     Some (p + 17, uid)).
Proof.
  intros Hp Hsize Hpre Hdel Hlen Henc. unfold uid_decode.
  assert (E1 : (size <? 17) = false) by lia. rewrite E1.
  unfold get_preamble_len.
  rewrite (preamble_scan_spec 8 source 0 p) by (assumption || lia).
  cbn [bind].
  assert (E2 : ((p >? 7) || (size <? p + 17)) = false) by lia. rewrite E2.
  rewrite (decode_euid_spec 6 source (p + 1) enc) by assumption.
  cbn [bind]. replace (p + 1 + 16) with (p + 17) by lia. reflexivity.
Qed.

(** C5. Discovery round trip: for every UID [u] and every preamble
    length [p] from 0 to 7, [uid_encode] fills [p + 17] bytes of the
    destination, and [uid_decode] of that buffer with size [p + 17]
    succeeds, gives back exactly [u] and reports [p + 17] bytes; so
    [uid_decode] accepts every preamble length from 0 to 7. *)
Theorem uid_decode_encode (destination : bytes) (u uid0 : rdm_uid_t)
  (p : Z) :
  0 <= p <= 7 ->
  0 <= man_id u < 65536 -> 0 <= dev_id u < 4294967296 ->
  p + 17 <= Z.of_nat (List.length destination) ->
  exists m, uid_encode destination u p = Some (p + 17, m)
            /\ uid_decode uid0 m (p + 17) = Some (p + 17, u).
Proof.
  intros Hp Hman Hdev Hlen.
  destruct (uid_encode_spec destination u p Hp Hlen)
    as [m [E [L [Hpre [Hdel Henc]]]]].
  exists m. split; [exact E |].
  rewrite (uid_decode_accepts m (euid_bytes u) (p + 17) p uid0);
    try assumption; try lia; try reflexivity.
  - cbn [euid_bytes pair_and]. rewrite !land_lor_euid.
    rewrite uidcpy_from_wire by (apply byte_of_is_byte; lia).
    f_equal. f_equal. destruct u as [man dev]. cbn [man_id dev_id] in *.
    rewrite !byte_of_div by lia.
    change (2 ^ (8 * 0)) with 1. change (2 ^ (8 * 1)) with 256.
    change (2 ^ (8 * 2)) with 65536. change (2 ^ (8 * 3)) with 16777216.
    f_equal; Z.div_mod_to_equations; lia.
  - intros j Hj. exists RDM_PREAMBLE. split; [apply Hpre; exact Hj |].
    discriminate.
Qed.

Lemma uid_decode_encode_witness :
  (0 <= 7 <= 7 /\ 0 <= 23294 < 65536 /\ 0 <= 305419896 < 4294967296
   /\ 7 + 17 <= Z.of_nat (List.length (repeat 0 24)))
  /\ exists m,
       uid_encode (repeat 0 24) (mk_uid 23294 305419896) 7
       = Some (7 + 17, m)
       /\ uid_decode RDM_UID_NULL m (7 + 17)
          = Some (7 + 17, mk_uid 23294 305419896).
Proof.
  split.
  - simpl. lia.
  - apply (uid_decode_encode (repeat 0 24) (mk_uid 23294 305419896)
             RDM_UID_NULL 7); simpl; lia.
Defined.

(** ** The format codec *)

(** The parser does not accept the format of the header: after the
    digits [cc01] it wants [h] and finds [#]. *)
Lemma header_format_rejected : rdm_param_parse header_format = Some (0, false).
Proof. reflexivity. Qed.

(** So [pd_emplace] with the format of the header moves nothing, and
    neither [rdm_write] nor [rdm_read] ever looks at the image of a
    header: the layout taken for [rdm_header_t] plays no part below. *)
Lemma pd_emplace_header (destination source : bytes) (dest_size src_size : Z)
  (encode_nulls : bool) :
  pd_emplace destination dest_size header_format source src_size
    encode_nulls
  = Some (0, destination).
Proof.
  unfold pd_emplace. rewrite header_format_rejected. reflexivity.
Qed.

(** The branch of the parser that returns [-1]: a string without a
    length that is followed by another field. *)
Lemma rdm_param_parse_string_not_last (c : ascii) (rest : string) :
  isdigit c = false -> c <> NUL -> c <> "$"%char ->
  rdm_param_parse (String "a" (String c rest)) = Some (u32 (-1), false).
Proof.
  intros Hdigit Hnul Hanchor.
  unfold rdm_param_parse, c_array. cbn [list_ascii_of_string app].
  cbn [parse_loop].
  change (("a" =? NUL)%char) with false. cbv iota.
  unfold parse_field.
  change (is_chr "a" "b" "B") with false.
  change (is_chr "a" "w" "W") with false.
  change (is_chr "a" "d" "D") with false.
  change (is_chr "a" "u" "U") with false.
  change (is_chr "a" "v" "V") with false.
  change (is_chr "a" "a" "A") with true. cbv iota.
  rewrite Hdigit. cbn [bind negb andb].
  destruct (Ascii.eqb_spec c NUL); [contradiction |].
  destruct (Ascii.eqb_spec c "$"); [contradiction |].
  reflexivity.
Qed.

(** A format that [rdm_param_parse] rejects, with 0 or, where a string
    without a length is not at the end, with [(size_t)-1]: for it
    [pd_emplace] returns 0 and leaves the destination as it was. *)
Lemma pd_emplace_parse_rejected (destination source : bytes)
  (dest_size src_size : Z) (format : string) (encode_nulls : bool)
  (parsed : Z) (is_singleton : bool) :
  rdm_param_parse format = Some (parsed, is_singleton) ->
  parsed = 0 \/ parsed = u32 (-1) ->
  pd_emplace destination dest_size format source src_size encode_nulls
  = Some (0, destination).
Proof.
  intros Hparse Hbad. unfold pd_emplace. rewrite Hparse. cbn [bind].
  destruct Hbad as [-> | ->]; reflexivity.
Qed.

Lemma u32_small (x : Z) : 0 <= x < 4294967296 -> u32 x = x.
Proof. intros H. unfold u32. apply Z.mod_small. exact H. Qed.

Lemma to_int_small (x : Z) : 0 <= x < 2147483648 -> to_int x = x.
Proof.
  intros H. unfold to_int. rewrite u32_small by lia.
  destruct (Z.ltb_spec x 2147483648); lia.
Qed.

Lemma list_ascii_of_string_app (s t : string) :
  list_ascii_of_string (s ++ t)
  = list_ascii_of_string s ++ list_ascii_of_string t.
Proof.
  induction s as [| c s IH]; cbn [String.append list_ascii_of_string app].
  - reflexivity.
  - rewrite IH. reflexivity.
Qed.

(** Decimal numerals, as [strtol] reads them. *)
Lemma digit_val_decimal (c : ascii) :
  digit_val 10 c = if isdigit c then Some (code c - 48) else None.
Proof.
  unfold digit_val, isdigit.
  destruct (Z.leb_spec 48 (code c)); destruct (Z.leb_spec (code c) 57);
    cbn [andb];
    repeat match goal with
           | |- context [?a <=? ?b] => destruct (Z.leb_spec a b)
           end; cbn [andb];
    repeat match goal with
           | |- context [?a <? 10] => destruct (Z.ltb_spec a 10)
           end; try reflexivity; lia.
Qed.

Lemma scan_digits_decimal (ds : list ascii) (c : ascii) (rest : list ascii) :
  forall (acc : Z) (cnt : nat),
    forallb isdigit ds = true -> isdigit c = false ->
    scan_digits 10 (ds ++ c :: rest) acc cnt
    = Some (numeral_value ds acc, (cnt + List.length ds)%nat).
Proof.
  induction ds as [| d ds IH]; intros acc cnt Hds Hc.
  - cbn [app scan_digits numeral_value List.length].
    rewrite digit_val_decimal, Hc. f_equal. f_equal. lia.
  - cbn [forallb] in Hds. apply andb_true_iff in Hds. destruct Hds as [Hd Hds].
    cbn [app scan_digits numeral_value List.length].
    rewrite digit_val_decimal, Hd. rewrite IH by assumption.
    f_equal. f_equal. lia.
Qed.

Lemma numeral_value_nonneg (ds : list ascii) :
  forall acc, forallb isdigit ds = true -> 0 <= acc ->
              acc <= numeral_value ds acc.
Proof.
  induction ds as [| d ds IH]; intros acc Hds Hacc; cbn [numeral_value].
  - lia.
  - cbn [forallb] in Hds. apply andb_true_iff in Hds. destruct Hds as [Hd Hds].
    unfold isdigit in Hd.
    specialize (IH (acc * 10 + (code d - 48)) Hds ltac:(lia)). lia.
Qed.

(** [strtol] in base 10 on a row of digits that something else follows. *)
Lemma strtol_decimal (d : ascii) (ds : list ascii) (c : ascii)
  (rest : list ascii) :
  forallb isdigit (d :: ds) = true -> isdigit c = false ->
  numeral_value (d :: ds) 0 <= LONG_MAX ->
  strtol (d :: ds ++ c :: rest) 10
  = Some (numeral_value (d :: ds) 0, S (List.length ds)).
Proof.
  intros Hds Hc Hmax.
  pose proof (numeral_value_nonneg (d :: ds) 0 Hds ltac:(lia)) as Hpos.
  pose proof (scan_digits_decimal (d :: ds) c rest 0 0 Hds Hc) as Hscan.
  cbn [forallb] in Hds. apply andb_true_iff in Hds. destruct Hds as [Hd Hds].
  assert (Hsp : isspace d = false)
    by (unfold isdigit in Hd; unfold isspace; lia).
  assert (Hminus : (d =? "-")%char = false)
    by (destruct (Ascii.eqb_spec d "-"); [subst d; discriminate | reflexivity]).
  assert (Hplus : (d =? "+")%char = false)
    by (destruct (Ascii.eqb_spec d "+"); [subst d; discriminate | reflexivity]).
  unfold strtol. cbn [skip_spaces]. rewrite Hsp. cbn [bind].
  rewrite Hminus, Hplus. cbn [bind].
  assert (Hprefix :
            match ds ++ c :: rest with
            | [] => Some (d :: ds ++ c :: rest, 0%nat)
            | cx :: l' =>
                if (10 =? 16) && (d =? "0")%char
                   && ((cx =? "x")%char || (cx =? "X")%char)
                then Some (l', 2%nat)
                else Some (d :: ds ++ c :: rest, 0%nat)
            end = Some (d :: ds ++ c :: rest, 0%nat)).
  { destruct (ds ++ c :: rest); reflexivity. }
  rewrite Hprefix. cbn [bind].
  change (d :: ds ++ c :: rest) with ((d :: ds) ++ c :: rest).
  rewrite Hscan. cbn [bind List.length Nat.add].
  unfold clamp_long.
  destruct (Z.gtb_spec (numeral_value (d :: ds) 0) LONG_MAX); [lia |].
  destruct (Z.ltb_spec (numeral_value (d :: ds) 0) LONG_MIN);
    [unfold LONG_MIN in *; lia |].
  reflexivity.
Qed.

Lemma parse_loop_skip (pre : list ascii) :
  forall (l : list ascii) (k : nat) (ps : Z) (s : bool),
    parse_loop (pre ++ l) (List.length pre + k) ps s = parse_loop l k ps s.
Proof.
  induction pre as [| c pre IH]; intros l k ps s.
  - reflexivity.
  - cbn [app List.length Nat.add parse_loop]. apply IH.
Qed.

(** After the length of a string the parser moves on by one character
    more, whatever it is. *)
Lemma parse_field_fixed_string (d : ascii) (ds : list ascii) (c : ascii)
  (rest : list ascii) (ps : Z) (s : bool) :
  forallb isdigit (d :: ds) = true -> isdigit c = false ->
  0 <= ps <= 231 ->
  1 <= numeral_value (d :: ds) 0 <= 231 - ps ->
  parse_field "a" (d :: ds ++ c :: rest) ps s
  = Some (ParseField (numeral_value (d :: ds) 0) (S (S (List.length ds))) s).
Proof.
  intros Hds Hc Hps HL. unfold parse_field.
  change (is_chr "a" "b" "B") with false.
  change (is_chr "a" "w" "W") with false.
  change (is_chr "a" "d" "D") with false.
  change (is_chr "a" "u" "U") with false.
  change (is_chr "a" "v" "V") with false.
  change (is_chr "a" "a" "A") with true. cbv iota.
  rewrite (strtol_decimal d ds c rest Hds Hc) by (unfold LONG_MAX; lia).
  pose proof Hds as Hd. cbn [forallb] in Hd. apply andb_true_iff in Hd.
  destruct Hd as [Hd _]. rewrite Hd. cbn [bind negb andb].
  rewrite !u32_small by lia.
  replace (numeral_value (d :: ds) 0 =? 0) with false by lia.
  replace (numeral_value (d :: ds) 0 >? 231 - ps) with false by lia.
  reflexivity.
Qed.

Lemma rdm_param_parse_skips_after_length (d : ascii) (ds : list ascii)
  (c1 c2 : ascii) (rest : string) :
  forallb isdigit (d :: ds) = true ->
  isdigit c1 = false -> isdigit c2 = false ->
  1 <= numeral_value (d :: ds) 0 <= 231 ->
  rdm_param_parse
    (String "a" (string_of_list_ascii (d :: ds) ++ String c1 rest))
  = rdm_param_parse
      (String "a" (string_of_list_ascii (d :: ds) ++ String c2 rest)).
Proof.
  intros Hds H1 H2 HL.
  assert (Harr : forall c,
             c_array (String "a" (string_of_list_ascii (d :: ds)
                                  ++ String c rest))
             = "a"%char :: d :: ds ++ c :: c_array rest).
  { intros c. unfold c_array. cbn [list_ascii_of_string app].
    rewrite list_ascii_of_string_app, list_ascii_of_string_of_list_ascii.
    cbn [list_ascii_of_string]. rewrite <- app_assoc. reflexivity. }
  assert (Hparse : forall c,
             isdigit c = false ->
             rdm_param_parse
               (String "a" (string_of_list_ascii (d :: ds) ++ String c rest))
             = parse_loop (c_array rest) 0 (numeral_value (d :: ds) 0) false).
  { intros c Hc. unfold rdm_param_parse. rewrite Harr.
    cbn [parse_loop]. change (("a" =? NUL)%char) with false. cbv iota.
    rewrite (parse_field_fixed_string d ds c (c_array rest) 0 false Hds Hc)
      by lia.
    cbn [bind]. rewrite Z.add_0_l, u32_small by lia.
    replace (numeral_value (d :: ds) 0 >? 231) with false by lia.
    rewrite to_int_small by lia.
    replace (S (List.length ds)) with (List.length (ds ++ [c]) + 0)%nat
      by (rewrite length_app; cbn [List.length]; lia).
    replace (ds ++ c :: c_array rest) with ((ds ++ [c]) ++ c_array rest)
      by (rewrite <- app_assoc; reflexivity).
    apply parse_loop_skip. }
  rewrite (Hparse c1 H1), (Hparse c2 H2). reflexivity.
Qed.

(** C9. Not every format with a syntax error is rejected.  The parser
    rejects a string without a length, an optional UID and an anchor
    that another field follows, and a character that is no field.
    Behind the length of a string it moves on by one character more
    without looking at it, so the same four errors pass there: the
    parser returns the size 3, and [pd_emplace] writes to the
    destination and returns what it wrote, not 0. *)
Theorem pd_emplace_invalid_format_accepted :
  (rdm_param_parse "ab" = Some (u32 (-1), false)
   /\ rdm_param_parse "vb" = Some (0, false)
   /\ rdm_param_parse "$b" = Some (0, false)
   /\ rdm_param_parse "?b" = Some (0, false))
  /\ (rdm_param_parse "a2ab" = Some (3, false)
      /\ pd_emplace [9; 9; 9; 9; 9] 5 "a2ab" [65; 66; 67; 0; 69] 5 false
         = Some (4, [65; 66; 67; 0; 9]))
  /\ (rdm_param_parse "a2vb" = Some (3, false)
      /\ pd_emplace [9; 9; 9; 9; 9; 9; 9; 9; 9] 5 "a2vb"
           [65; 66; 1; 2; 3; 4; 5; 6; 67] 5 false
         = Some (9, [65; 66; 2; 1; 6; 5; 4; 3; 67]))
  /\ (rdm_param_parse "a2$b" = Some (3, false)
      /\ pd_emplace [9; 9; 9; 9; 9] 5 "a2$b" [65; 66; 67; 68; 69] 5 false
         = Some (3, [65; 66; 67; 9; 9]))
  /\ (rdm_param_parse "a2?b" = Some (3, false)
      /\ pd_emplace [9; 9; 9; 9; 9] 5 "a2?b" [65; 66; 67; 68; 69] 5 false
         = Some (3, [65; 66; 67; 9; 9])).
Proof. repeat split; vm_compute; reflexivity. Qed.

(** What the parser can return: a size from 1 to 231, or one of the two
    values with which it rejects a format. *)
Lemma parse_field_range (c : ascii) (rest : list ascii) (param_size : Z)
  (is_singleton : bool) (step : parse_step) :
  0 <= param_size <= 231 ->
  parse_field c rest param_size is_singleton = Some step ->
  match step with
  | ParseReturn r _ => r = 0 \/ r = u32 (-1)
  | ParseField field_size _ _ =>
      0 <= field_size /\ param_size + field_size <= 263
  end.
Proof.
  intros Hps. unfold parse_field, sizeof_uid.
  repeat match goal with
         | |- context [if is_chr ?x ?y ?z then _ else _] =>
             destruct (is_chr x y z)
         end;
    try (intros E; inversion E; subst; clear E; lia).
  - destruct rest as [| f1 rest']; [discriminate |].
    destruct (negb (f1 =? NUL)%char && negb (f1 =? "$")%char);
      intros E; inversion E; subst; clear E; [left; reflexivity | lia].
  - destruct rest as [| f1 rest']; [discriminate |].
    destruct (isdigit f1).
    + destruct (strtol (f1 :: rest') 10) as [[v e] |]; [| discriminate].
      cbn [bind negb andb].
      assert (Hv : 0 <= u32 v < 4294967296)
        by (unfold u32; apply Z.mod_pos_bound; lia).
      destruct (u32 v =? 0); [intros E; inversion E; left; reflexivity |].
      rewrite (u32_small (231 - param_size)) by lia.
      destruct (Z.gtb_spec (u32 v) (231 - param_size));
        intros E; inversion E; subst; clear E; [left; reflexivity | lia].
    + cbn [bind negb andb].
      destruct (negb (f1 =? NUL)%char && negb (f1 =? "$")%char);
        intros E; inversion E; subst; clear E; [right; reflexivity | lia].
  - destruct ((c =? "#")%char).
    + destruct (count_xdigits rest 17) as [n |]; [| discriminate].
      cbn [bind]. destruct (Z.ltb_spec 16 (Z.of_nat n)).
      * intros E; inversion E. left; reflexivity.
      * destruct (nth_error rest n) as [t |]; [| discriminate].
        destruct (negb (is_chr t "h" "H"));
          intros E; inversion E; subst; clear E; [left; reflexivity |].
        split; Z.div_mod_to_equations; lia.
    + destruct ((c =? "$")%char).
      * destruct rest as [| f1 rest']; [discriminate |].
        destruct (negb (f1 =? NUL)%char);
          intros E; inversion E; subst; clear E; [left; reflexivity | lia].
      * intros E; inversion E. left; reflexivity.
Qed.

Lemma parse_loop_range (l : list ascii) :
  forall (skip : nat) (param_size : Z) (is_singleton : bool) (r : Z)
         (s : bool),
    0 <= param_size <= 231 ->
    parse_loop l skip param_size is_singleton = Some (r, s) ->
    0 <= r <= 231 \/ r = u32 (-1).
Proof.
  induction l as [| c rest IH]; intros skip ps sg r s Hps.
  - discriminate.
  - cbn [parse_loop]. destruct skip as [| k].
    + destruct ((c =? NUL)%char).
      * intros E; inversion E; subst. rewrite u32_small by lia. lia.
      * destruct (parse_field c rest ps sg) as [step |] eqn:Estep;
          [| discriminate].
        cbn [bind]. pose proof (parse_field_range _ _ _ _ _ Hps Estep) as R.
        destruct step as [r0 s0 | fs adv s0].
        -- intros E; inversion E; subst. destruct R; lia.
        -- rewrite u32_small by lia.
           destruct (Z.gtb_spec (ps + fs) 231).
           ++ intros E; inversion E; subst. lia.
           ++ rewrite to_int_small by lia. apply IH. lia.
    + apply IH. exact Hps.
Qed.

Lemma rdm_param_parse_range (format : string) (r : Z) (s : bool) :
  rdm_param_parse format = Some (r, s) -> 0 <= r <= 231 \/ r = u32 (-1).
Proof.
  unfold rdm_param_parse. destruct (c_array format) as [| c l]; [discriminate |].
  apply parse_loop_range. lia.
Qed.





Lemma is_chr_cases (c lower upper : ascii) :
  is_chr c lower upper = true -> c = lower \/ c = upper.
Proof.
  unfold is_chr. intros H. apply orb_true_iff in H.
  destruct H as [H | H]; apply Ascii.eqb_eq in H; auto.
Qed.








Section Simulation.

Variables (size : Z) (en : bool) (src : bytes).


End Simulation.




(** ** A string with a length *)
















(** ** Frame I/O *)

Lemma byte_at_is_byte (m : bytes) (i : Z) :
  Forall is_byte m -> 0 <= i < Z.of_nat (List.length m) ->
  is_byte (byte_at m i).
Proof.
  intros Hall Hi. unfold byte_at.
  rewrite Forall_forall in Hall. apply Hall. apply nth_In. lia.
Qed.

Lemma load8_byte_at (m : bytes) (i : Z) :
  0 <= i < Z.of_nat (List.length m) -> load8 m i = Some (byte_at m i).
Proof. apply load8_nth. Qed.

(** C10. When the port buffer does not start with the start code [0xCC]
    and the sub-start code [0x01], or when the checksum computed over its
    first [MSG_LEN] bytes differs from the big-endian checksum stored at
    offset [MSG_LEN], [rdm_read] returns 0 and leaves the header, [*pdl]
    and the parameter data of the caller untouched. *)
Theorem rdm_read_error_atomic (T : rdm_types) (dmx_num : Z)
  (d : dmx_driver_t) (header : option rdm_header_t) (pdl : option Z)
  (pd : option bytes) :
  List.length (data_buffer d) = 513%nat ->
  Forall is_byte (data_buffer d) ->
  byte_at (data_buffer d) 0 <> 204
  \/ byte_at (data_buffer d) 1 <> 1
  \/ frame_checksum (data_buffer d) <> stored_checksum (data_buffer d) ->
  rdm_read T dmx_num (Some d) header pdl pd = Some (0, header, pdl, pd).
Proof.
  intros Hlen Hbytes Hbad. unfold rdm_read.
  destruct (negb (dmx_num <? DMX_NUM_MAX T)); [reflexivity |].
  pose proof (byte_at_is_byte _ 0 Hbytes ltac:(lia)) as B0.
  pose proof (byte_at_is_byte _ 1 Hbytes ltac:(lia)) as B1.
  pose proof (byte_at_is_byte _ 2 Hbytes ltac:(lia)) as B2.
  unfold load16 at 1. rewrite !load8_byte_at by lia. cbn [bind].
  change (0 + 1) with 1.
  rewrite word16_add by exact B0.
  change (Z.lor RDM_SC (Z.shiftl RDM_SUB_SC 8)) with 460.
  unfold is_byte in B0, B1, B2.
  destruct (Z.eqb_spec (byte_at (data_buffer d) 0
                        + 256 * byte_at (data_buffer d) 1) 460)
    as [Hsc | Hsc]; [| reflexivity].
  cbn [negb].
  destruct Hbad as [H | [H | Hsum]]; try lia.
  rewrite checksum_loop_sum by lia. cbn [bind].
  unfold load16. rewrite !load8_byte_at by lia. cbn [bind].
  pose proof (byte_at_is_byte _ (byte_at (data_buffer d) 2) Hbytes
                ltac:(lia)) as C0.
  pose proof (byte_at_is_byte _ (byte_at (data_buffer d) 2 + 1) Hbytes
                ltac:(lia)) as C1.
  rewrite word16_add by exact C0.
  rewrite bswap16_add.
  destruct (byte_of_word16 _ _ C0 C1) as [E0 E1]. rewrite E0, E1.
  change (skipn (Z.to_nat 0) (data_buffer d)) with (data_buffer d).
  rewrite Z.add_0_l.
  fold (frame_checksum (data_buffer d)).
  fold (stored_checksum (data_buffer d)).
  destruct (Z.eqb_spec (frame_checksum (data_buffer d))
              (stored_checksum (data_buffer d))); [contradiction |].
  reflexivity.
Qed.

Lemma rdm_read_error_atomic_witness :
  (List.length (data_buffer (idle_driver 0)) = 513%nat
   /\ Forall is_byte (data_buffer (idle_driver 0))
   /\ (byte_at (data_buffer (idle_driver 0)) 0 <> 204
       \/ byte_at (data_buffer (idle_driver 0)) 1 <> 1
       \/ frame_checksum (data_buffer (idle_driver 0))
          <> stored_checksum (data_buffer (idle_driver 0))))
  /\ rdm_read spec_types 0 (Some (idle_driver 0)) (Some scenario_header)
       (Some 231) (Some [9; 9])
     = Some (0, Some scenario_header, Some 231, Some [9; 9]).
Proof.
  assert (Hbytes : Forall is_byte (data_buffer (idle_driver 0))).
  { apply Forall_forall. intros x Hx. apply repeat_spec in Hx. subst x.
    unfold is_byte. lia. }
  assert (Hsc : byte_at (data_buffer (idle_driver 0)) 0 <> 204)
    by (vm_compute; discriminate).
  split.
  - split; [reflexivity |]. split; [exact Hbytes |]. left. exact Hsc.
  - apply (rdm_read_error_atomic spec_types 0 (idle_driver 0));
      [reflexivity | exact Hbytes | left; exact Hsc].
Defined.

(** [rdm_write] returns, whatever the buffer holds, as long as the
    buffer has its 513 slots and [pd] has [pdl] bytes. *)
Lemma rdm_write_total (T : rdm_types) (dmx_num : Z) (d : dmx_driver_t)
  (header : option rdm_header_t) (pdl : Z) (pd : option bytes) :
  List.length (data_buffer d) = 513%nat ->
  0 <= pdl ->
  (forall b, pd = Some b -> pdl <= Z.of_nat (List.length b)) ->
  exists n d', rdm_write T dmx_num (Some d) header pdl pd = Some (n, Some d').
Proof.
  intros Hlen Hpdl Hpd. unfold rdm_write.
  destruct (negb (dmx_num <? DMX_NUM_MAX T)); [eauto |].
  destruct (Z.leb_spec pdl 231) as [Hmax | Hmax]; cbn [andb negb];
    [| eauto].
  destruct (negb (is_null pd && (pdl >? 0))) eqn:Hnull; cbn [negb];
    [| eauto].
  destruct (negb (is_null header) || negb (is_null pd) && (pdl >? 0));
    cbn [negb]; [| eauto].
  destruct (is_sending d); [eauto |].
  rewrite pd_emplace_header. cbn [bind].
  set (drv := if dmx_uart_get_rts d =? 1 then dmx_uart_set_rts d 0 else d).
  assert (Hbuf : data_buffer drv = data_buffer d)
    by (subst drv; destruct (dmx_uart_get_rts d =? 1); reflexivity).
  rewrite Hbuf.
  destruct (memmove_Some (data_buffer d)
              match pd with
              | Some b => b
              | None => []
              end 25 0 pdl) as [m1 [E1 [L1 _]]]; try lia.
  { destruct pd as [b |].
    - specialize (Hpd b eq_refl). lia.
    - simpl in Hnull. destruct (Z.gtb_spec pdl 0); [discriminate |].
      simpl. lia. }
  unfold memcpy. rewrite E1. cbn [bind].
  rewrite (load8_nth m1 2) by lia. cbn [bind].
  set (len := u8 (nth (Z.to_nat 2) m1 0 + pdl)).
  assert (Hu8 : 0 <= len < 256) by (apply Z.mod_pos_bound; lia).
  do 2 store_step.
  rewrite load8_upd_neq by lia.
  rewrite load8_upd_eq by lia. cbn [bind].
  match goal with
  | |- context [checksum_loop ?m ?i ?n ?c0] =>
      destruct (checksum_loop_Some n m i c0) as [c Ec];
      rewrite ?length_upd; try lia
  end.
  rewrite Ec. cbn [bind]. unfold store16.
  do 2 store_step.
  rewrite load8_nth by (rewrite !length_upd; lia). cbn [bind].
  eauto.
Qed.

(** [rdm_write] does not look at the header it is given. *)
Lemma rdm_write_ignores_header (T : rdm_types) (dmx_num : Z)
  (driver : option dmx_driver_t) (h1 h2 : rdm_header_t) (pdl : Z)
  (pd : option bytes) :
  rdm_write T dmx_num driver (Some h1) pdl pd
  = rdm_write T dmx_num driver (Some h2) pdl pd.
Proof.
  unfold rdm_write.
  destruct (negb (dmx_num <? DMX_NUM_MAX T)); [reflexivity |].
  destruct (negb ((pdl <=? 231) && negb (is_null pd && (pdl >? 0))));
    [reflexivity |].
  cbn [is_null negb orb].
  destruct driver as [d |]; [| reflexivity].
  destruct (is_sending d); [reflexivity |].
  rewrite !pd_emplace_header. reflexivity.
Qed.

(** C1. Write, then read: [rdm_write] of [scenario_header] with
    [pdl = 0] into a fresh port returns 2 and leaves the bytes [00 CD] at
    the start of the buffer, because [pd_emplace] does not accept the
    format of the header and writes none of it; [rdm_read] of that
    buffer returns 0 and gives back neither the header nor a [pdl]. *)
Theorem rdm_write_read_scenario :
  rdm_write spec_types 0 (Some (idle_driver 5)) (Some scenario_header) 0 None
  = Some (2, Some written_driver)
  /\ rdm_read spec_types 0 (Some written_driver) (Some broadcast_header)
       (Some 231) (Some (repeat 9 231))
     = Some (0, Some broadcast_header, Some 231, Some (repeat 9 231)).
Proof. split; vm_compute; reflexivity. Qed.

(** C2. The header of the scenario: [pd_emplace] with the format
    [#cc01#18huubbbwbw] returns 0 and writes nothing, and after
    [rdm_write] the buffer starts with [00 CD 00 ...], not with
    [CC 01 18 ...]. *)
Theorem header_serialization_scenario :
  pd_emplace (repeat 0 513) 513 header_format (header_image scenario_header)
    sizeof_header false
  = Some (0, repeat 0 513)
  /\ option_map
       (fun w => (fst w, option_map (fun d => firstn 26 (data_buffer d))
                           (snd w)))
       (rdm_write spec_types 0 (Some (idle_driver 5)) (Some scenario_header)
          0 None)
     = Some (2, Some ([0; 205] ++ repeat 0 24))
  /\ [0; 205] ++ repeat 0 22 <> scenario_wire.
Proof.
  split; [vm_compute; reflexivity |].
  split; [vm_compute; reflexivity | discriminate].
Qed.

(** Apart from the format: [rdm_write] stores [pdl] at offset 24 and the
    parameter data from offset 25, and the checksum at offset
    [MSG_LEN = 24 + pdl], on the last byte of the parameter data.  Here
    the buffer already holds the header; of the data [07 09] the frame
    keeps [07] and the high byte of the checksum, and [rdm_read] gives
    that back. *)
Lemma rdm_write_overwrites_pd :
  option_map
    (fun w => (fst w, option_map (fun d => firstn 4 (skipn 24 (data_buffer d)))
                        (snd w)))
    (rdm_write spec_types 0 (Some preloaded_driver) (Some scenario_header) 2
       (Some [7; 9]))
  = Some (28, Some [2; 7; 1; 128])
  /\ (w <- rdm_write spec_types 0 (Some preloaded_driver)
             (Some scenario_header) 2 (Some [7; 9]) ;;
      r <- rdm_read spec_types 0 (snd w) None (Some 2) (Some [0; 0]) ;;
      Some (fst (fst (fst r)), snd (fst r), snd r))
     = Some (28, Some 2, Some [7; 1]).
Proof. split; vm_compute; reflexivity. Qed.

(** ** The transaction engine *)

Lemma header_checks_iff (T : rdm_types) (h : rdm_header_t) :
  header_checks T h = true <->
  ~ (man_id (dest_uid h) = 0 /\ dev_id (dest_uid h) = 0)
  /\ dev_id (src_uid h) <> 4294967295
  /\ (cc h = RDM_CC_DISC_COMMAND \/ cc h = RDM_CC_GET_COMMAND
      \/ cc h = RDM_CC_SET_COMMAND)
  /\ (sub_device h < 513
      \/ (sub_device h = RDM_SUB_DEVICE_ALL T
          /\ cc h <> RDM_CC_GET_COMMAND)).
Proof.
  unfold header_checks, uid_is_null, uid_is_broadcast.
  destruct (Z.eqb_spec (man_id (dest_uid h)) 0);
    destruct (Z.eqb_spec (dev_id (dest_uid h)) 0);
    destruct (Z.eqb_spec (dev_id (src_uid h)) 4294967295);
    destruct (Z.eqb_spec (cc h) RDM_CC_DISC_COMMAND);
    destruct (Z.eqb_spec (cc h) RDM_CC_GET_COMMAND);
    destruct (Z.eqb_spec (cc h) RDM_CC_SET_COMMAND);
    destruct (Z.ltb_spec (sub_device h) 513);
    destruct (Z.eqb_spec (sub_device h) (RDM_SUB_DEVICE_ALL T));
    cbn [negb andb orb]; split; try discriminate; try tauto;
    try (intros _; repeat split; try tauto; lia);
    intros [H1 [H2 [H3 H4]]]; try reflexivity; exfalso; try tauto; lia.
Qed.

Lemma is_null_false {A : Type} (p : option A) :
  is_null p = false <-> p <> None.
Proof. destruct p; simpl; split; congruence. Qed.

Lemma request_preconditions_iff (T : rdm_types) (h : rdm_header_t)
  (pdl_in : Z) (pd_in : option bytes) (pdl_out : option Z)
  (pd_out : option bytes) :
  request_preconditions T (Some h) pdl_in pd_in pdl_out pd_out <->
  (negb (is_null pd_in) || (pdl_in =? 0)) = true
  /\ (negb (is_null pd_out)
      || match pdl_out with
         | None => true
         | Some v => v =? 0
         end) = true
  /\ header_checks T h = true.
Proof.
  unfold request_preconditions. rewrite header_checks_iff.
  rewrite !orb_true_iff, !negb_true_iff, !is_null_false, Z.eqb_eq.
  assert (Hout : match pdl_out with
                 | None => true
                 | Some v => v =? 0
                 end = true <-> pdl_out = None \/ pdl_out = Some 0).
  { destruct pdl_out as [v |].
    - rewrite Z.eqb_eq. split.
      + intros ->. right. reflexivity.
      + intros [H | H]; congruence.
    - split; auto. }
  rewrite Hout. split.
  - intros [h' [E H]]. inversion E; subst h'. tauto.
  - intros H. exists h. tauto.
Qed.

(** C7. Unless all of its preconditions hold, [rdm_request] returns 0,
    makes no call to the bus, and leaves the driver and the objects of
    the caller as they were. *)
Theorem rdm_request_rejects (T : rdm_types) (HAL : dmx_hal) (dmx_num : Z)
  (driver : option dmx_driver_t) (header : option rdm_header_t)
  (pdl_in : Z) (pd_in : option bytes) (pdl_out : option Z)
  (pd_out : option bytes) (ack : option rdm_ack_t) :
  ~ request_preconditions T header pdl_in pd_in pdl_out pd_out ->
  rdm_request T HAL dmx_num driver header pdl_in pd_in pdl_out pd_out ack
  = Some (mk_result 0 driver header pdl_out pd_out ack []).
Proof.
  intros Hpre. unfold rdm_request.
  destruct (negb (dmx_num <? DMX_NUM_MAX T)); [reflexivity |].
  destruct header as [h |]; [| reflexivity].
  rewrite request_preconditions_iff in Hpre.
  destruct (negb (is_null pd_in) || (pdl_in =? 0)); [| reflexivity].
  destruct (negb (is_null pd_out)
            || match pdl_out with
               | None => true
               | Some v => v =? 0
               end); [| reflexivity].
  destruct (header_checks T h); [| reflexivity].
  exfalso. apply Hpre. auto.
Qed.

Lemma rdm_request_rejects_witness :
  ~ request_preconditions spec_types (Some scenario_header) 2 None None None
  /\ rdm_request spec_types (answering_bus (mk_uid 3 4) nack_response) 0
       (Some (idle_driver 5)) (Some scenario_header) 2 None None None None
     = Some (mk_result 0 (Some (idle_driver 5)) (Some scenario_header) None
               None None []).
Proof.
  assert (H : ~ request_preconditions spec_types (Some scenario_header) 2
                  None None None).
  { intros [h [_ [[Hpd | Hpdl] _]]]; [congruence | discriminate]. }
  split; [exact H |].
  apply (rdm_request_rejects spec_types
           (answering_bus (mk_uid 3 4) nack_response) 0
           (Some (idle_driver 5)) (Some scenario_header) 2 None None None
           None H).
Defined.

Lemma response_expected_iff (T : rdm_types) (h : rdm_header_t) :
  response_expected T h = true <->
  dev_id (dest_uid h) <> 4294967295
  \/ (pid h = RDM_PID_DISC_UNIQUE_BRANCH T /\ cc h = RDM_CC_DISC_COMMAND).
Proof.
  unfold response_expected, uid_is_broadcast.
  rewrite orb_true_iff, negb_true_iff, andb_true_iff, Z.eqb_neq, !Z.eqb_eq.
  tauto.
Qed.



(** A header read back from its own image. *)
Lemma header_of_image_cc (h h' : rdm_header_t) :
  header_of_image (header_image h) = Some h' -> cc h' = byte_of (cc h) 0.
Proof.
  destruct h as [a b c [d1 d2] [e1 e2] f g i j k l m].
  cbv -[byte_of Z.lor Z.shiftl cc]. intros E.
  pose proof (f_equal (fun o => match o with
                                | Some x => cc x
                                | None => 0
                                end) E) as E'.
  cbv beta iota in E'. cbn [cc] in E'. symmetry. exact E'.
Qed.

(** After [rdm_read] the header still has the command class of the
    request, unless [rdm_read] returned 0. *)
Lemma rdm_read_header_cc (T : rdm_types) (dmx_num : Z)
  (driver : option dmx_driver_t) (h hd : rdm_header_t) (pdl pdl' : option Z)
  (pd pd' : option bytes) (read : Z) :
  rdm_read T dmx_num driver (Some h) pdl pd = Some (read, Some hd, pdl', pd')
  -> read = 0 \/ cc hd = byte_of (cc h) 0.
Proof.
  unfold rdm_read.
  destruct (negb (dmx_num <? DMX_NUM_MAX T));
    [intros E; inversion E; auto |].
  destruct driver as [d |]; [| intros E; inversion E; auto].
  destruct (load16 (data_buffer d) 0) as [sc |]; cbn [bind];
    [| discriminate].
  destruct (negb (sc =? Z.lor RDM_SC (Z.shiftl RDM_SUB_SC 8)));
    [intros E; inversion E; auto |].
  destruct (load8 (data_buffer d) 2) as [len |]; cbn [bind];
    [| discriminate].
  destruct (checksum_loop (data_buffer d) 0 (Z.to_nat len) 0) as [sum |];
    cbn [bind]; [| discriminate].
  destruct (load16 (data_buffer d) len) as [stored |]; cbn [bind];
    [| discriminate].
  destruct (negb (sum =? bswap16 stored)); [intros E; inversion E; auto |].
  rewrite pd_emplace_header. cbn [bind].
  destruct (header_of_image (header_image h)) as [h' |] eqn:Eh; cbn [bind];
    [| discriminate].
  destruct (load8 (data_buffer d) 24) as [wire |]; cbn [bind];
    [| discriminate].
  destruct pd as [block |]; cbn [bind].
  - destruct (memcpy block 0 (data_buffer d) 25 _); cbn [bind];
      [| discriminate].
    intros E; inversion E; subst. right. apply header_of_image_cc. exact Eh.
  - intros E; inversion E; subst. right. apply header_of_image_cc. exact Eh.
Qed.

Lemma classify_same_cc (T : rdm_types) (req header : rdm_header_t)
  (read : Z) :
  read = 0 \/ cc header = cc req ->
  classify T req read header = RDM_RESPONSE_TYPE_INVALID T.
Proof.
  intros H. unfold classify.
  destruct (Z.eqb_spec read 0) as [E0 | E0]; [reflexivity |].
  destruct H as [H | H]; [contradiction |].
  destruct (_ && _); [reflexivity |].
  assert (E : (cc req =? cc header - 1) = false) by lia.
  rewrite E. reflexivity.
Qed.

(** Whatever frame comes back, a request that is not a discovery ends
    with the ack [INVALID]. *)
Lemma rdm_request_response_invalid (T : rdm_types) (HAL : dmx_hal)
  (dmx_num : Z) (driver : option dmx_driver_t) (h : rdm_header_t)
  (pdl_in : Z) (pd_in : option bytes) (pdl_out : option Z)
  (pd_out : option bytes) (ack : option rdm_ack_t) (r : request_result)
  (a : rdm_ack_t) :
  pid h <> RDM_PID_DISC_UNIQUE_BRANCH T ->
  rdm_request T HAL dmx_num driver (Some h) pdl_in pd_in pdl_out pd_out ack
  = Some r ->
  In (CallReceive 2) (bus_calls r) ->
  ack_after r = Some a ->
  ack_type a = RDM_RESPONSE_TYPE_INVALID T.
Proof.
  intros Hpid. unfold rdm_request.
  assert (Hrej : forall x,
             Some (mk_result 0 driver (Some h) pdl_out pd_out ack []) = Some x
             -> In (CallReceive 2) (bus_calls x) -> ack_after x = Some a ->
             ack_type a = RDM_RESPONSE_TYPE_INVALID T).
  { intros x E Hin. inversion E; subst x. destruct Hin. }
  destruct (negb (dmx_num <? DMX_NUM_MAX T)); [apply Hrej |].
  destruct (negb (negb (is_null pd_in) || (pdl_in =? 0))); [apply Hrej |].
  destruct (negb (negb (is_null pd_out) || _)); [apply Hrej |].
  destruct (header_checks T h) eqn:Hchk; cbn [negb]; [| apply Hrej].
  destruct driver as [d |]; [| apply Hrej]. clear Hrej.
  cbv zeta. set (h' := set_tn_count _ (rdm_tn d) 0).
  assert (Hcc : cc h' = cc h /\ pid h' = pid h).
  { subst h'. destruct (port_id h =? 0);
      match goal with
      | |- context [if ?b then _ else _] => destruct b
      end; split; reflexivity. }
  destruct Hcc as [Hcc Hpid'].
  assert (Hbyte : byte_of (cc h') 0 = cc h').
  { rewrite Hcc. apply header_checks_iff in Hchk.
    destruct Hchk as [_ [_ [[E | [E | E]] _]]]; rewrite E; reflexivity. }
  destruct (rdm_write T dmx_num (Some d) (Some h') pdl_in pd_in)
    as [[n w] |]; cbn [bind]; [| discriminate].
  destruct w as [d' |]; cbn [bind]; [| discriminate].
  destruct (response_expected T h').
  - destruct (dmx_receive HAL dmx_num 2 (dmx_send HAL dmx_num n d'))
      as [[d2 size] err].
    destruct (negb (err =? 0)).
    + intros E _ Ha. inversion E; subst r. cbn [ack_after] in Ha.
      destruct ack as [a0 |]; cbn in Ha; inversion Ha. reflexivity.
    + rewrite Hpid'.
      assert (Ep : (pid h =? RDM_PID_DISC_UNIQUE_BRANCH T) = false) by lia.
      rewrite Ep. cbn [negb].
      destruct (rdm_read T dmx_num (Some d2) (Some h') pdl_out pd_out)
        as [[[[rd hd] po] pdo] |] eqn:Er; cbn [bind]; [| discriminate].
      destruct hd as [hd |]; cbn [bind]; [| discriminate].
      rewrite (classify_same_cc T h' hd rd).
      * destruct (decode_ack T HAL (RDM_RESPONSE_TYPE_INVALID T) size pdo);
          cbn [bind]; [| discriminate].
        intros E _ Ha. inversion E; subst r. cbn [ack_after] in Ha.
        destruct ack as [a0 |]; cbn in Ha; inversion Ha. reflexivity.
      * destruct (rdm_read_header_cc _ _ _ _ _ _ _ _ _ _ Er) as [H | H];
          [left; exact H | right; congruence].
  - intros E Hin. inversion E; subst r. cbn [bus_calls] in Hin.
    destruct Hin as [H | [H | []]]; discriminate.
Qed.

(** C3. A [NACK_REASON] response: the responder answers
    [scenario_header] with [nack_response].  [rdm_read] accepts the
    frame, but leaves the header of the request in place and reports a
    [pdl] of 0, and the engine sets the ack to [INVALID] with [num = 0],
    not to [NACK_REASON] with [num = 5]. *)
Theorem nack_response_scenario :
  rdm_read spec_types 0
    (Some (set_buffer (idle_driver 6) (nack_response ++ repeat 0 485)))
    (Some scenario_header) (Some 2) (Some [0; 0])
  = Some (28, Some scenario_header, Some 0, Some [0; 0])
  /\ option_map ack_after
       (rdm_request spec_types (answering_bus (mk_uid 3 4) nack_response) 0
          (Some (idle_driver 5)) (Some scenario_header) 0 None (Some 2)
          (Some [0; 0]) (Some (mk_ack 0 0 0)))
     = Some (Some (mk_ack 0 (RDM_RESPONSE_TYPE_INVALID spec_types) 0)).
Proof. split; vm_compute; reflexivity. Qed.

(** C4. The transaction number: on a port whose [tn] is 5 the engine
    puts 5 into the header of the caller, but the frame that it hands to
    [dmx_send] is [00 CD]: it carries no [tn]. *)
Theorem transaction_number_scenario :
  option_map
    (fun r => (returned r, bus_calls r, option_map tn (header_after r),
               option_map rdm_tn (driver_after r)))
    (rdm_request spec_types (answering_bus (mk_uid 3 4) []) 0
       (Some (idle_driver 5)) (Some broadcast_header) 0 None None None None)
  = Some (2, [CallSend 2 [0; 205]; CallWaitSent 2], Some 5, Some 6).
Proof. vm_compute. reflexivity. Qed.

(** * Further properties of the code *)

(** ** The UID algebra *)

(** X1. [uid_is_eq] decides the equality of two UIDs. *)
Theorem uid_is_eq_iff (a b : rdm_uid_t) : uid_is_eq a b = true <-> a = b.
Proof.
  destruct a as [am ad], b as [bm bd]. unfold uid_is_eq. cbn [man_id dev_id].
  rewrite andb_true_iff, !Z.eqb_eq. split.
  - intros [-> ->]. reflexivity.
  - intros E. inversion E. split; reflexivity.
Qed.

(** X2. The comparisons of UIDs are those of one total order: of two
    UIDs exactly one of [uid_is_lt], [uid_is_eq] and [uid_is_gt] holds,
    [uid_is_gt] is [uid_is_lt] with the arguments exchanged, and
    [uid_is_le] and [uid_is_ge] are "less or equal" and "greater or
    equal". *)
Theorem uid_order_trichotomy (a b : rdm_uid_t) :
  ((uid_is_lt a b = true /\ uid_is_eq a b = false /\ uid_is_gt a b = false)
   \/ (uid_is_lt a b = false /\ uid_is_eq a b = true /\ uid_is_gt a b = false)
   \/ (uid_is_lt a b = false /\ uid_is_eq a b = false
       /\ uid_is_gt a b = true))
  /\ uid_is_gt a b = uid_is_lt b a
  /\ uid_is_le a b = (uid_is_lt a b || uid_is_eq a b)
  /\ uid_is_ge a b = (uid_is_gt a b || uid_is_eq a b).
Proof.
  destruct a as [am ad], b as [bm bd].
  unfold uid_is_le, uid_is_ge, uid_is_lt, uid_is_eq, uid_is_gt.
  cbn [man_id dev_id].
  destruct (Z.ltb_spec am bm), (Z.eqb_spec am bm), (Z.gtb_spec am bm),
    (Z.ltb_spec bm am), (Z.eqb_spec bm am),
    (Z.ltb_spec ad bd), (Z.eqb_spec ad bd), (Z.gtb_spec ad bd),
    (Z.ltb_spec bd ad); try lia; cbn; intuition congruence.
Qed.

(** X3. [uid_is_lt] is transitive: with X2 the comparisons are those
    of a strict total order, in which the manufacturer decides before
    the device. *)
Theorem uid_is_lt_trans (a b c : rdm_uid_t) :
  uid_is_lt a b = true -> uid_is_lt b c = true -> uid_is_lt a c = true.
Proof.
  destruct a as [am ad], b as [bm bd], c as [cm cd].
  unfold uid_is_lt. cbn [man_id dev_id].
  rewrite !orb_true_iff, !andb_true_iff, !Z.ltb_lt, !Z.eqb_eq. lia.
Qed.

Lemma uid_is_lt_trans_witness :
  (uid_is_lt (mk_uid 1 9) (mk_uid 2 0) = true
   /\ uid_is_lt (mk_uid 2 0) (mk_uid 2 5) = true)
  /\ uid_is_lt (mk_uid 1 9) (mk_uid 2 5) = true.
Proof.
  split.
  - split; reflexivity.
  - apply (uid_is_lt_trans (mk_uid 1 9) (mk_uid 2 0) (mk_uid 2 5));
      reflexivity.
Defined.

(** X4. [uid_is_target uid alias] holds exactly when [alias] is [uid]
    itself, the broadcast to the devices of every manufacturer, or the
    broadcast to the devices of the manufacturer of [uid]; this is so
    for the null UID as well. *)
Theorem uid_is_target_iff (uid alias : rdm_uid_t) :
  uid_is_target uid alias = true
  <-> alias = uid
      \/ alias = mk_uid 65535 4294967295
      \/ alias = mk_uid (man_id uid) 4294967295.
Proof.
  destruct uid as [um ud], alias as [am ad].
  unfold uid_is_target, uid_is_eq. cbn [man_id dev_id].
  rewrite !orb_true_iff, !andb_true_iff, !orb_true_iff, !Z.eqb_eq. split.
  - intros [[[H | H] Hd] | [Hm Hd]]; subst; auto.
  - intros [E | [E | E]]; inversion E; subst; auto.
Qed.

(** ** Accesses in the middle of a block *)

Lemma load8_app (pre l : bytes) (k : nat) :
  load8 (pre ++ l) (Z.of_nat (List.length pre + k)) = nth_error l k.
Proof.
  unfold load8.
  replace (0 <=? Z.of_nat (List.length pre + k)) with true
    by (symmetry; apply Z.leb_le; lia).
  rewrite Nat2Z.id, nth_error_app2 by lia. f_equal. lia.
Qed.

Lemma upd_app (pre l : bytes) (k : nat) (v : Z) :
  upd (pre ++ l) (List.length pre + k) v = pre ++ upd l k v.
Proof.
  induction pre as [| x pre IH]; cbn [app List.length Nat.add upd].
  - reflexivity.
  - f_equal. exact IH.
Qed.

Lemma store8_app (pre l : bytes) (k : nat) (v : Z) :
  (k < List.length l)%nat ->
  store8 (pre ++ l) (Z.of_nat (List.length pre + k)) v
  = Some (pre ++ upd l k v).
Proof.
  intros H. rewrite store8_Some by (rewrite length_app; lia).
  rewrite Nat2Z.id, upd_app. reflexivity.
Qed.

Lemma load16_app (pre post : bytes) (s0 s1 : Z) (k : nat) (i : Z) :
  i = Z.of_nat (List.length pre + k) ->
  nth_error post k = Some s0 -> nth_error post (S k) = Some s1 ->
  load16 (pre ++ post) i = Some (Z.lor s0 (Z.shiftl s1 8)).
Proof.
  intros -> H0 H1. unfold load16.
  replace (Z.of_nat (List.length pre + k) + 1)
    with (Z.of_nat (List.length pre + S k)) by lia.
  rewrite !load8_app, H0, H1. reflexivity.
Qed.

Lemma load32_app (pre post : bytes) (s0 s1 s2 s3 : Z) (k : nat) (i : Z) :
  i = Z.of_nat (List.length pre + k) ->
  nth_error post k = Some s0 -> nth_error post (S k) = Some s1 ->
  nth_error post (S (S k)) = Some s2 ->
  nth_error post (S (S (S k))) = Some s3 ->
  load32 (pre ++ post) i
  = Some (Z.lor s0 (Z.lor (Z.shiftl s1 8)
            (Z.lor (Z.shiftl s2 16) (Z.shiftl s3 24)))).
Proof.
  intros -> H0 H1 H2 H3. unfold load32.
  replace (Z.of_nat (List.length pre + k) + 1)
    with (Z.of_nat (List.length pre + S k)) by lia.
  replace (Z.of_nat (List.length pre + k) + 2)
    with (Z.of_nat (List.length pre + S (S k))) by lia.
  replace (Z.of_nat (List.length pre + k) + 3)
    with (Z.of_nat (List.length pre + S (S (S k)))) by lia.
  rewrite !load8_app, H0, H1, H2, H3. reflexivity.
Qed.

Lemma store16_app (pre post : bytes) (k : nat) (i v : Z) :
  i = Z.of_nat (List.length pre + k) ->
  (S k < List.length post)%nat ->
  store16 (pre ++ post) i v
  = Some (pre ++ upd (upd post k (byte_of v 0)) (S k) (byte_of v 1)).
Proof.
  intros -> H. unfold store16.
  rewrite store8_app by lia. cbn [bind].
  replace (Z.of_nat (List.length pre + k) + 1)
    with (Z.of_nat (List.length pre + S k)) by lia.
  rewrite store8_app by (rewrite length_upd; lia). reflexivity.
Qed.

Lemma store32_app (pre post : bytes) (k : nat) (i v : Z) :
  i = Z.of_nat (List.length pre + k) ->
  (S (S (S k)) < List.length post)%nat ->
  store32 (pre ++ post) i v
  = Some (pre ++ upd (upd (upd (upd post k (byte_of v 0))
                             (S k) (byte_of v 1))
                        (S (S k)) (byte_of v 2))
                   (S (S (S k))) (byte_of v 3)).
Proof.
  intros -> H. unfold store32.
  rewrite store8_app by lia. cbn [bind].
  replace (Z.of_nat (List.length pre + k) + 1)
    with (Z.of_nat (List.length pre + S k)) by lia.
  rewrite store8_app by (rewrite length_upd; lia). cbn [bind].
  replace (Z.of_nat (List.length pre + k) + 2)
    with (Z.of_nat (List.length pre + S (S k))) by lia.
  rewrite store8_app by (rewrite !length_upd; lia). cbn [bind].
  replace (Z.of_nat (List.length pre + k) + 3)
    with (Z.of_nat (List.length pre + S (S (S k)))) by lia.
  rewrite store8_app by (rewrite !length_upd; lia). reflexivity.
Qed.

(** The byte swaps on words given by their bytes. *)
Lemma bswap16_bytes (s0 s1 : Z) :
  is_byte s0 -> is_byte s1 ->
  byte_of (bswap16 (Z.lor s0 (Z.shiftl s1 8))) 0 = s1
  /\ byte_of (bswap16 (Z.lor s0 (Z.shiftl s1 8))) 1 = s0.
Proof.
  intros H0 H1. rewrite word16_add by assumption. rewrite bswap16_add.
  destruct (byte_of_word16 s0 s1 H0 H1) as [E0 E1]. rewrite E0, E1.
  replace (256 * s0 + s1) with (s1 + 256 * s0) by lia.
  apply byte_of_word16; assumption.
Qed.

Lemma bswap32_bytes (s0 s1 s2 s3 : Z) :
  is_byte s0 -> is_byte s1 -> is_byte s2 -> is_byte s3 ->
  let v := bswap32 (Z.lor s0 (Z.lor (Z.shiftl s1 8)
                      (Z.lor (Z.shiftl s2 16) (Z.shiftl s3 24)))) in
  byte_of v 0 = s3 /\ byte_of v 1 = s2 /\ byte_of v 2 = s1
  /\ byte_of v 3 = s0.
Proof.
  intros H0 H1 H2 H3. cbv zeta. rewrite word32_add by assumption.
  rewrite bswap32_add.
  destruct (byte_of_word32 s0 s1 s2 s3 H0 H1 H2 H3) as [E0 [E1 [E2 E3]]].
  rewrite E0, E1, E2, E3.
  replace (16777216 * s0 + 65536 * s1 + 256 * s2 + s3)
    with (s3 + 256 * s2 + 65536 * s1 + 16777216 * s0) by lia.
  apply byte_of_word32; assumption.
Qed.

(** [uidcpy] and [uidmove] between the middles of two blocks. *)
Lemma uidcpy_app (dpre dpost spre spost : bytes)
  (d0 d1 d2 d3 d4 d5 s0 s1 s2 s3 s4 s5 : Z) :
  is_byte s0 -> is_byte s1 -> is_byte s2 -> is_byte s3 -> is_byte s4 ->
  is_byte s5 ->
  uidcpy (dpre ++ d0 :: d1 :: d2 :: d3 :: d4 :: d5 :: dpost)
    (Z.of_nat (List.length dpre))
    (spre ++ s0 :: s1 :: s2 :: s3 :: s4 :: s5 :: spost)
    (Z.of_nat (List.length spre))
  = Some (dpre ++ s1 :: s0 :: s5 :: s4 :: s3 :: s2 :: dpost).
Proof.
  intros H0 H1 H2 H3 H4 H5. unfold uidcpy.
  rewrite (load16_app spre _ s0 s1 0) by (reflexivity || lia). cbn [bind].
  rewrite (store16_app dpre _ 0) by (cbn [List.length]; lia). cbn [bind upd].
  rewrite (load32_app spre _ s2 s3 s4 s5 2) by (reflexivity || lia).
  cbn [bind].
  rewrite (store32_app dpre _ 2) by (cbn [List.length]; lia). cbn [upd].
  destruct (bswap16_bytes s0 s1 H0 H1) as [E0 E1].
  destruct (bswap32_bytes s2 s3 s4 s5 H2 H3 H4 H5) as [F0 [F1 [F2 F3]]].
  rewrite E0, E1, F0, F1, F2, F3. reflexivity.
Qed.

Lemma uidmove_app (dpre dpost spre spost : bytes)
  (d0 d1 d2 d3 d4 d5 s0 s1 s2 s3 s4 s5 : Z) :
  is_byte s0 -> is_byte s1 -> is_byte s2 -> is_byte s3 -> is_byte s4 ->
  is_byte s5 ->
  uidmove (dpre ++ d0 :: d1 :: d2 :: d3 :: d4 :: d5 :: dpost)
    (Z.of_nat (List.length dpre))
    (spre ++ s0 :: s1 :: s2 :: s3 :: s4 :: s5 :: spost)
    (Z.of_nat (List.length spre))
  = Some (dpre ++ s1 :: s0 :: s5 :: s4 :: s3 :: s2 :: dpost).
Proof.
  intros H0 H1 H2 H3 H4 H5. unfold uidmove, load_uid.
  rewrite (load16_app spre _ s0 s1 0) by (reflexivity || lia). cbn [bind].
  rewrite (load32_app spre _ s2 s3 s4 s5 2) by (reflexivity || lia).
  cbn [bind man_id dev_id].
  rewrite (store16_app dpre _ 0) by (cbn [List.length]; lia). cbn [bind upd].
  rewrite (store32_app dpre _ 2) by (cbn [List.length]; lia). cbn [upd].
  destruct (bswap16_bytes s0 s1 H0 H1) as [E0 E1].
  destruct (bswap32_bytes s2 s3 s4 s5 H2 H3 H4 H5) as [F0 [F1 [F2 F3]]].
  rewrite E0, E1, F0, F1, F2, F3. reflexivity.
Qed.

(** X5. [uidcpy] and [uidmove] write the six bytes of a UID with the two
    bytes of the manufacturer and the four bytes of the device each in
    reverse order, and nothing else; [uidmove] does so in place as well,
    and applied twice it gives the six bytes back. *)
Theorem uidcpy_uidmove_swap (dpre dpost spre spost : bytes)
  (d0 d1 d2 d3 d4 d5 s0 s1 s2 s3 s4 s5 : Z) :
  is_byte s0 -> is_byte s1 -> is_byte s2 -> is_byte s3 -> is_byte s4 ->
  is_byte s5 ->
  let dst := dpre ++ d0 :: d1 :: d2 :: d3 :: d4 :: d5 :: dpost in
  let src := spre ++ s0 :: s1 :: s2 :: s3 :: s4 :: s5 :: spost in
  let i := Z.of_nat (List.length dpre) in
  let j := Z.of_nat (List.length spre) in
  let swapped := spre ++ s1 :: s0 :: s5 :: s4 :: s3 :: s2 :: spost in
  uidcpy dst i src j
  = Some (dpre ++ s1 :: s0 :: s5 :: s4 :: s3 :: s2 :: dpost)
  /\ uidmove dst i src j = uidcpy dst i src j
  /\ uidmove src j src j = Some swapped
  /\ uidmove swapped j swapped j = Some src.
Proof.
  intros H0 H1 H2 H3 H4 H5. cbv zeta.
  rewrite uidmove_app, uidcpy_app by assumption.
  rewrite !uidmove_app by assumption. repeat split.
Qed.

Lemma uidcpy_uidmove_swap_witness :
  (is_byte 18 /\ is_byte 52 /\ is_byte 86 /\ is_byte 120 /\ is_byte 154
   /\ is_byte 188)
  /\ uidcpy [9; 0; 0; 0; 0; 0; 0; 9] 1 [18; 52; 86; 120; 154; 188] 0
     = Some [9; 52; 18; 188; 154; 120; 86; 9].
Proof.
  split.
  - unfold is_byte. lia.
  - apply (uidcpy_uidmove_swap [9] [9] [] [] 0 0 0 0 0 0 18 52 86 120 154
             188); unfold is_byte; lia.
Defined.

(** ** Formats of one-character fields *)

Lemma plain_field_cases (c : ascii) (k : Z) :
  plain_field c = Some k ->
  (is_chr c "b" "B" = true /\ k = 1)
  \/ (is_chr c "b" "B" = false /\ is_chr c "w" "W" = true /\ k = 2)
  \/ (is_chr c "b" "B" = false /\ is_chr c "w" "W" = false
      /\ is_chr c "d" "D" = true /\ k = 4)
  \/ (is_chr c "b" "B" = false /\ is_chr c "w" "W" = false
      /\ is_chr c "d" "D" = false /\ is_chr c "u" "U" = true /\ k = 6).
Proof.
  unfold plain_field, sizeof_uid.
  destruct (is_chr c "b" "B"); [intros H; inversion H; intuition congruence |].
  destruct (is_chr c "w" "W"); [intros H; inversion H; intuition congruence |].
  destruct (is_chr c "d" "D"); [intros H; inversion H; intuition congruence |].
  destruct (is_chr c "u" "U"); [intros H; inversion H; intuition congruence |].
  discriminate.
Qed.

Lemma plain_field_not_nul (c : ascii) (k : Z) :
  plain_field c = Some k -> (c =? NUL)%char = false.
Proof.
  intros H. destruct (Ascii.eqb_spec c NUL) as [-> | Hne]; [| reflexivity].
  discriminate H.
Qed.

Lemma plain_field_pos (c : ascii) (k : Z) :
  plain_field c = Some k -> 1 <= k <= 6.
Proof.
  intros H. apply plain_field_cases in H. intuition lia.
Qed.

Lemma plain_size_nonneg (l : list ascii) :
  forall sz, plain_size l = Some sz -> 0 <= sz.
Proof.
  induction l as [| c l IH]; cbn [plain_size]; intros sz E.
  - inversion E. lia.
  - destruct (plain_field c) as [k |] eqn:Ek; [| discriminate].
    destruct (plain_size l) as [n |]; [| discriminate].
    inversion E. apply plain_field_pos in Ek. specialize (IH n eq_refl). lia.
Qed.

Lemma plain_size_pos (c : ascii) (l : list ascii) (sz : Z) :
  plain_size (c :: l) = Some sz -> 1 <= sz.
Proof.
  cbn [plain_size].
  destruct (plain_field c) as [k |] eqn:Ek; [| discriminate].
  destruct (plain_size l) as [n |] eqn:En; [| discriminate].
  intros E. inversion E. apply plain_field_pos in Ek.
  apply plain_size_nonneg in En. lia.
Qed.

(** The parser on such fields. *)
Lemma parse_field_plain (c : ascii) (rest : list ascii) (ps : Z) (s : bool)
  (k : Z) :
  plain_field c = Some k ->
  parse_field c rest ps s = Some (ParseField k 0 s).
Proof.
  intros H. unfold parse_field.
  destruct (plain_field_cases c k H)
    as [[E1 ->] | [[E1 [E2 ->]] | [[E1 [E2 [E3 ->]]] | [E1 [E2 [E3 [E4 ->]]]]]]];
    rewrite ?E1, ?E2, ?E3, ?E4; reflexivity.
Qed.

Lemma parse_loop_plain (l : list ascii) :
  forall (tl : list ascii) (ps : Z) (s : bool) (sz : Z),
    plain_size l = Some sz -> 0 <= ps -> ps + sz <= 231 ->
    parse_loop (l ++ tl) 0 ps s = parse_loop tl 0 (ps + sz) s.
Proof.
  induction l as [| c l IH]; intros tl ps s sz E Hps Hsz.
  - inversion E. rewrite Z.add_0_r. reflexivity.
  - cbn [plain_size] in E.
    destruct (plain_field c) as [k |] eqn:Ek; [| discriminate].
    destruct (plain_size l) as [n |] eqn:En; [| discriminate].
    inversion E; subst sz. clear E.
    pose proof (plain_field_pos c k Ek) as Hk.
    pose proof (plain_size_nonneg l n En) as Hn.
    cbn [app parse_loop]. rewrite (plain_field_not_nul c k Ek).
    rewrite (parse_field_plain c _ ps s k Ek). cbn [bind].
    rewrite u32_small by lia.
    assert (Hle : (ps + k >? 231) = false) by lia. rewrite Hle.
    rewrite to_int_small by lia.
    rewrite (IH tl (ps + k) s n) by (reflexivity || lia).
    f_equal. lia.
Qed.

Lemma parse_loop_plain_too_big (l : list ascii) :
  forall (tl : list ascii) (ps : Z) (s : bool) (sz : Z),
    plain_size l = Some sz -> 0 <= ps <= 231 -> 231 < ps + sz ->
    parse_loop (l ++ tl) 0 ps s = Some (0, s).
Proof.
  induction l as [| c l IH]; intros tl ps s sz E Hps Hsz.
  - inversion E. lia.
  - cbn [plain_size] in E.
    destruct (plain_field c) as [k |] eqn:Ek; [| discriminate].
    destruct (plain_size l) as [n |] eqn:En; [| discriminate].
    inversion E; subst sz. clear E.
    pose proof (plain_field_pos c k Ek) as Hk.
    cbn [app parse_loop]. rewrite (plain_field_not_nul c k Ek).
    rewrite (parse_field_plain c _ ps s k Ek). cbn [bind].
    rewrite u32_small by lia.
    destruct (Z.gtb_spec (ps + k) 231) as [Hgt | Hle]; [reflexivity |].
    rewrite to_int_small by lia.
    apply (IH tl (ps + k) s n); (reflexivity || lia).
Qed.

(** X6. A format made of the fields [b], [w], [d] and [u] only is
    accepted exactly when its fields take at most 231 bytes together;
    [rdm_param_parse] then returns their total size, otherwise 0; such
    a format is a singleton only when it is empty. *)
Theorem rdm_param_parse_plain (format : string) (sz : Z) :
  plain_size (list_ascii_of_string format) = Some sz ->
  rdm_param_parse format
  = Some (if sz <=? 231 then sz else 0,
          match format with
          | EmptyString => true
          | String _ _ => false
          end).
Proof.
  intros E. unfold rdm_param_parse, c_array.
  destruct format as [| c format].
  - cbn in E. inversion E. reflexivity.
  - cbn [list_ascii_of_string app] in *.
    assert (Hnul : (c =? NUL)%char = false).
    { cbn [plain_size] in E.
      destruct (plain_field c) as [k |] eqn:Ek; [| discriminate].
      exact (plain_field_not_nul c k Ek). }
    rewrite Hnul.
    change (c :: list_ascii_of_string format ++ [NUL])
      with ((c :: list_ascii_of_string format) ++ [NUL]).
    pose proof (plain_size_nonneg _ _ E) as Hsz.
    destruct (Z.leb_spec sz 231) as [Hle | Hgt].
    + rewrite (parse_loop_plain _ [NUL] 0 false sz E) by lia.
      cbn [parse_loop]. rewrite Ascii.eqb_refl. rewrite u32_small by lia.
      reflexivity.
    + apply (parse_loop_plain_too_big _ [NUL] 0 false sz E); lia.
Qed.

Lemma rdm_param_parse_plain_witness :
  plain_size (list_ascii_of_string "wbud") = Some 13
  /\ rdm_param_parse "wbud" = Some (13, false).
Proof.
  split.
  - reflexivity.
  - apply (rdm_param_parse_plain "wbud" 13). reflexivity.
Defined.

(** X7. Whatever the format, the number that [rdm_param_parse]
    returns, read as the [int] that [pd_emplace] makes of it, is -1 or
    lies between 0 and 231.  This bounds the number, not the bytes that
    [pd_emplace] moves in one turn: for the format [a231b] the parser
    returns 231, and [pd_emplace] moves 232 bytes. *)
Theorem rdm_param_parse_bounded :
  (forall (format : string) (r : Z) (s : bool),
     rdm_param_parse format = Some (r, s) -> -1 <= to_int r <= 231)
  /\ rdm_param_parse "a231b" = Some (231, false)
  /\ option_map fst
       (pd_emplace (repeat 0 232) 232 "a231b" (repeat 1 232) 232 false)
     = Some 232.
Proof.
  split.
  - intros format r s E.
    destruct (rdm_param_parse_range format r s E) as [H | ->].
    + rewrite to_int_small by lia. lia.
    + vm_compute. split; discriminate.
  - split; vm_compute; reflexivity.
Qed.

Lemma rdm_param_parse_bounded_witness :
  rdm_param_parse "ab" = Some (u32 (-1), false)
  /\ -1 <= to_int (u32 (-1)) <= 231.
Proof.
  split.
  - reflexivity.
  - apply (proj1 rdm_param_parse_bounded "ab"%string (u32 (-1)) false).
    reflexivity.
Defined.

(** ** [pd_emplace] on such formats *)

Lemma firstn_app_length (A : Type) (f s : list A) (k : nat) :
  List.length f = k -> firstn k (f ++ s) = f.
Proof.
  intros <-. rewrite firstn_app, Nat.sub_diag, firstn_all. cbn [firstn].
  apply app_nil_r.
Qed.

Lemma skipn_app_length (A : Type) (f s : list A) (k : nat) :
  List.length f = k -> skipn k (f ++ s) = s.
Proof.
  intros <-. rewrite skipn_app, Nat.sub_diag, skipn_all. reflexivity.
Qed.

Lemma length_swap_field (c : ascii) (bs : bytes) :
  List.length (swap_field c bs) = List.length bs.
Proof.
  unfold swap_field. destruct (is_chr c "u" "U").
  - rewrite length_app, !length_rev, <- length_app, firstn_skipn.
    reflexivity.
  - apply length_rev.
Qed.

Lemma length_swap_fields (l : list ascii) :
  forall (bs : bytes) (sz : Z),
    plain_size l = Some sz -> List.length bs = Z.to_nat sz ->
    List.length (swap_fields l bs) = List.length bs.
Proof.
  induction l as [| c l IH]; intros bs sz E Hlen.
  - inversion E; subst. destruct bs; [reflexivity | discriminate].
  - cbn [plain_size swap_fields] in *.
    destruct (plain_field c) as [k |] eqn:Ek; [| discriminate].
    destruct (plain_size l) as [n |] eqn:En; [| discriminate].
    inversion E; subst sz.
    pose proof (plain_field_pos c k Ek). pose proof (plain_size_nonneg l n En).
    rewrite length_app, length_swap_field.
    rewrite (IH _ n eq_refl) by (rewrite length_skipn; lia).
    rewrite <- length_app, firstn_skipn. reflexivity.
Qed.

(** One field. *)
Lemma emplace_field_plain (c : ascii) (rest : list ascii) (size : Z)
  (en : bool) (spre sfield srest dpre dfield drest : bytes) (k : Z) :
  plain_field c = Some k ->
  List.length sfield = Z.to_nat k -> List.length dfield = Z.to_nat k ->
  Forall is_byte sfield ->
  List.length spre = List.length dpre ->
  emplace_field c rest size en (spre ++ sfield ++ srest)
    (Z.of_nat (List.length spre)) (dpre ++ dfield ++ drest)
  = Some (EmplaceNext (Z.of_nat (List.length spre) + k)
            (dpre ++ swap_field c sfield ++ drest) 0).
Proof.
  intros Hc Hs Hd Hb Hp.
  unfold emplace_field, swap_field.
  destruct (plain_field_cases c k Hc)
    as [[E1 ->] | [[E1 [E2 ->]] | [[E1 [E2 [E3 ->]]] | [E1 [E2 [E3 [E4 ->]]]]]]];
    rewrite ?E1, ?E2, ?E3, ?E4.
  - destruct sfield as [| s0 [| ? ?]]; try discriminate.
    destruct dfield as [| d0 [| ? ?]]; try discriminate.
    assert (Eu : is_chr c "u" "U" = false).
    { apply is_chr_cases in E1. destruct E1; subst c; reflexivity. }
    rewrite Eu.
    replace (Z.of_nat (List.length spre))
      with (Z.of_nat (List.length spre + 0)) at 1 by lia.
    rewrite load8_app. cbn [app nth_error bind].
    rewrite Hp.
    replace (Z.of_nat (List.length dpre))
      with (Z.of_nat (List.length dpre + 0)) at 1 by lia.
    rewrite store8_app by (cbn [List.length app]; lia).
    reflexivity.
  - destruct sfield as [| s0 [| s1 [| ? ?]]]; try discriminate.
    destruct dfield as [| d0 [| d1 [| ? ?]]]; try discriminate.
    assert (Eu : is_chr c "u" "U" = false).
    { apply is_chr_cases in E2. destruct E2; subst c; reflexivity. }
    rewrite Eu.
    inversion Hb as [| ? ? B0 Hb1]; subst. inversion Hb1 as [| ? ? B1 _].
    subst.
    rewrite (load16_app spre _ s0 s1 0) by (reflexivity || lia).
    cbn [bind]. rewrite Hp.
    rewrite (store16_app dpre _ 0) by (cbn [List.length app]; lia).
    cbn [bind upd app].
    destruct (bswap16_bytes s0 s1 B0 B1) as [F0 F1]. rewrite F0, F1.
    reflexivity.
  - destruct sfield as [| s0 [| s1 [| s2 [| s3 [| ? ?]]]]]; try discriminate.
    destruct dfield as [| d0 [| d1 [| d2 [| d3 [| ? ?]]]]]; try discriminate.
    assert (Eu : is_chr c "u" "U" = false).
    { apply is_chr_cases in E3. destruct E3; subst c; reflexivity. }
    rewrite Eu.
    inversion Hb as [| ? ? B0 Hb1]; subst.
    inversion Hb1 as [| ? ? B1 Hb2]; subst.
    inversion Hb2 as [| ? ? B2 Hb3]; subst.
    inversion Hb3 as [| ? ? B3 _]; subst.
    rewrite (load32_app spre _ s0 s1 s2 s3 0) by (reflexivity || lia).
    cbn [bind]. rewrite Hp.
    rewrite (store32_app dpre _ 0) by (cbn [List.length app]; lia).
    cbn [bind upd app].
    destruct (bswap32_bytes s0 s1 s2 s3 B0 B1 B2 B3) as [F0 [F1 [F2 F3]]].
    rewrite F0, F1, F2, F3. reflexivity.
  - destruct sfield as [| s0 [| s1 [| s2 [| s3 [| s4 [| s5 [| ? ?]]]]]]];
      try discriminate.
    destruct dfield as [| d0 [| d1 [| d2 [| d3 [| d4 [| d5 [| ? ?]]]]]]];
      try discriminate.
    inversion Hb as [| ? ? B0 Hb1]; subst.
    inversion Hb1 as [| ? ? B1 Hb2]; subst.
    inversion Hb2 as [| ? ? B2 Hb3]; subst.
    inversion Hb3 as [| ? ? B3 Hb4]; subst.
    inversion Hb4 as [| ? ? B4 Hb5]; subst.
    inversion Hb5 as [| ? ? B5 _]; subst.
    assert (Ev : is_chr c "v" "V" = false).
    { apply is_chr_cases in E4. destruct E4; subst c; reflexivity. }
    rewrite Ev. cbn [orb andb bind]. rewrite Hp.
    cbn [app].
    rewrite <- Hp at 2.
    rewrite uidmove_app by assumption. cbn [bind]. unfold sizeof_uid.
    reflexivity.
Qed.

(** The inner loop over the fields of a parameter: it goes on with the
    rest of the format. *)
Lemma emplace_loop_plain (l : list ascii) :
  forall (tl : list ascii) (sz size : Z) (en : bool)
         (spre sbody spost dpre dbody dpost : bytes),
    plain_size l = Some sz ->
    List.length sbody = Z.to_nat sz -> List.length dbody = Z.to_nat sz ->
    Forall is_byte sbody ->
    List.length spre = List.length dpre ->
    emplace_loop (l ++ tl) 0 size en (spre ++ sbody ++ spost)
      (Z.of_nat (List.length spre)) (dpre ++ dbody ++ dpost)
    = emplace_loop tl 0 size en (spre ++ sbody ++ spost)
        (Z.of_nat (List.length spre) + sz)
        (dpre ++ swap_fields l sbody ++ dpost).
Proof.
  induction l as [| c l IH];
    intros tl sz size en spre sbody spost dpre dbody dpost E Hs Hd Hb Hp.
  - inversion E; subst sz.
    destruct sbody; [| discriminate]. destruct dbody; [| discriminate].
    rewrite Z.add_0_r. reflexivity.
  - cbn [plain_size] in E.
    destruct (plain_field c) as [k |] eqn:Ek; [| discriminate].
    destruct (plain_size l) as [n |] eqn:En; [| discriminate].
    inversion E; subst sz. clear E.
    pose proof (plain_field_pos c k Ek) as Hk.
    pose proof (plain_size_nonneg l n En) as Hn.
    cbn [app emplace_loop swap_fields]. rewrite Ek.
    rewrite (plain_field_not_nul c k Ek).
    assert (Es : sbody = firstn (Z.to_nat k) sbody ++ skipn (Z.to_nat k) sbody)
      by (symmetry; apply firstn_skipn).
    assert (Ed : dbody = firstn (Z.to_nat k) dbody ++ skipn (Z.to_nat k) dbody)
      by (symmetry; apply firstn_skipn).
    assert (Lsf : List.length (firstn (Z.to_nat k) sbody) = Z.to_nat k)
      by (rewrite firstn_length_le; lia).
    assert (Ldf : List.length (firstn (Z.to_nat k) dbody) = Z.to_nat k)
      by (rewrite firstn_length_le; lia).
    assert (Lss : List.length (skipn (Z.to_nat k) sbody) = Z.to_nat n)
      by (rewrite length_skipn; lia).
    assert (Lds : List.length (skipn (Z.to_nat k) dbody) = Z.to_nat n)
      by (rewrite length_skipn; lia).
    pose proof Hb as Hb'.
    rewrite <- (firstn_skipn (Z.to_nat k) sbody) in Hb'.
    apply Forall_app in Hb'. destruct Hb' as [Bf Bs].
    revert Es Ed Lsf Ldf Lss Lds Bf Bs.
    generalize (firstn (Z.to_nat k) sbody) (skipn (Z.to_nat k) sbody)
      (firstn (Z.to_nat k) dbody) (skipn (Z.to_nat k) dbody).
    intros sf ss df ds Es Ed Lsf Ldf Lss Lds Bf Bs. subst sbody dbody.
    rewrite <- !app_assoc.
    rewrite (emplace_field_plain c (l ++ tl) size en spre sf (ss ++ spost)
               dpre df (ds ++ dpost) k Ek Lsf Ldf Bf Hp).
    cbn [bind].
    assert (Lsw : List.length (swap_field c sf) = Z.to_nat k)
      by (rewrite length_swap_field; exact Lsf).
    replace (Z.of_nat (List.length spre) + k)
      with (Z.of_nat (List.length (spre ++ sf)))
      by (rewrite length_app; lia).
    rewrite (app_assoc spre sf), (app_assoc dpre (swap_field c sf)).
    rewrite (IH tl n size en (spre ++ sf) ss spost
               (dpre ++ swap_field c sf) ds dpost eq_refl Lss Lds Bs)
      by (rewrite !length_app; lia).
    rewrite <- !app_assoc.
    replace (Z.of_nat (List.length (spre ++ sf)) + n)
      with (Z.of_nat (List.length spre) + (k + n))
      by (rewrite length_app; lia).
    reflexivity.
Qed.

(** The outer loop: [todo] parameters in a row. *)
Lemma emplace_params_plain (format : string) (sz size : Z) (en : bool) :
  plain_size (list_ascii_of_string format) = Some sz ->
  forall (todo : nat) (spre sbody spost dpre dbody dpost : bytes),
    List.length sbody = (todo * Z.to_nat sz)%nat ->
    List.length dbody = (todo * Z.to_nat sz)%nat ->
    Forall is_byte sbody ->
    List.length spre = List.length dpre ->
    emplace_params format todo size en (spre ++ sbody ++ spost)
      (Z.of_nat (List.length spre)) (dpre ++ dbody ++ dpost)
    = Some (Z.of_nat (List.length spre) + Z.of_nat todo * sz,
            dpre
            ++ swap_params todo (list_ascii_of_string format) (Z.to_nat sz)
                 sbody
            ++ dpost).
Proof.
  intros E. pose proof (plain_size_nonneg _ _ E) as Hsz.
  induction todo as [| todo IH];
    intros spre sbody spost dpre dbody dpost Hs Hd Hb Hp.
  - destruct sbody; [| discriminate]. destruct dbody; [| discriminate].
    cbn [emplace_params swap_params Z.of_nat]. rewrite Z.add_0_r.
    reflexivity.
  - cbn [emplace_params swap_params]. unfold c_array.
    assert (Lsf : List.length (firstn (Z.to_nat sz) sbody) = Z.to_nat sz)
      by (rewrite firstn_length_le; lia).
    assert (Ldf : List.length (firstn (Z.to_nat sz) dbody) = Z.to_nat sz)
      by (rewrite firstn_length_le; lia).
    assert (Lss : List.length (skipn (Z.to_nat sz) sbody)
                  = (todo * Z.to_nat sz)%nat)
      by (rewrite length_skipn; lia).
    assert (Lds : List.length (skipn (Z.to_nat sz) dbody)
                  = (todo * Z.to_nat sz)%nat)
      by (rewrite length_skipn; lia).
    pose proof Hb as Hb'.
    rewrite <- (firstn_skipn (Z.to_nat sz) sbody) in Hb'.
    apply Forall_app in Hb'. destruct Hb' as [Bf Bs].
    assert (Es : sbody
                 = firstn (Z.to_nat sz) sbody ++ skipn (Z.to_nat sz) sbody)
      by (symmetry; apply firstn_skipn).
    assert (Ed : dbody
                 = firstn (Z.to_nat sz) dbody ++ skipn (Z.to_nat sz) dbody)
      by (symmetry; apply firstn_skipn).
    revert Es Ed Lsf Ldf Lss Lds Bf Bs.
    generalize (firstn (Z.to_nat sz) sbody) (skipn (Z.to_nat sz) sbody)
      (firstn (Z.to_nat sz) dbody) (skipn (Z.to_nat sz) dbody).
    intros sf ss df ds Es Ed Lsf Ldf Lss Lds Bf Bs. subst sbody dbody.
    rewrite <- !app_assoc.
    rewrite (emplace_loop_plain _ [NUL] sz size en spre sf (ss ++ spost)
               dpre df (ds ++ dpost) E Lsf Ldf Bf Hp).
    cbn [emplace_loop]. rewrite Ascii.eqb_refl. cbn [bind].
    assert (Lsw : List.length (swap_fields (list_ascii_of_string format) sf)
                  = Z.to_nat sz)
      by (rewrite (length_swap_fields _ sf sz E Lsf); exact Lsf).
    replace (Z.of_nat (List.length spre) + sz)
      with (Z.of_nat (List.length (spre ++ sf)))
      by (rewrite length_app; lia).
    rewrite (app_assoc spre sf),
      (app_assoc dpre (swap_fields (list_ascii_of_string format) sf)).
    rewrite (IH (spre ++ sf) ss spost _ ds dpost Lss Lds Bs)
      by (rewrite !length_app; lia).
    rewrite <- !app_assoc. f_equal. f_equal.
    rewrite length_app. lia.
Qed.

(** [pd_emplace] with such a format comes down to its outer loop. *)
Lemma pd_emplace_plain_params (destination source : bytes)
  (dest_size src_size : Z) (format : string) (en : bool) (sz : Z) :
  plain_size (list_ascii_of_string format) = Some sz ->
  1 <= sz <= 231 ->
  0 <= dest_size -> 0 <= src_size ->
  pd_emplace destination dest_size format source src_size en
  = emplace_params format
      (Z.to_nat (Z.min dest_size (Z.min src_size 231) / sz))
      (Z.min dest_size (Z.min src_size 231)) en source 0 destination.
Proof.
  intros E Hsz Hd Hs. unfold pd_emplace, rdm_param_parse, c_array.
  destruct format as [| c format]; [cbn in E; inversion E; lia |].
  cbn [list_ascii_of_string app] in *.
  assert (Hnul : (c =? NUL)%char = false).
  { cbn [plain_size] in E.
    destruct (plain_field c) as [k |] eqn:Ek; [| discriminate].
    exact (plain_field_not_nul c k Ek). }
  rewrite Hnul.
  change (c :: list_ascii_of_string format ++ [NUL])
    with ((c :: list_ascii_of_string format) ++ [NUL]).
  rewrite (parse_loop_plain _ [NUL] 0 false sz E) by lia.
  cbn [parse_loop]. rewrite Ascii.eqb_refl. cbn [bind Z.add].
  rewrite u32_small by lia. rewrite to_int_small by lia.
  assert (H1 : (sz <? 1) = false) by lia. rewrite H1.
  assert (Esize : (if dest_size <? (if src_size >? 231 then 231 else src_size)
                   then dest_size
                   else if src_size >? 231 then 231 else src_size)
                  = Z.min dest_size (Z.min src_size 231)).
  { destruct (Z.gtb_spec src_size 231), (Z.ltb_spec dest_size 231),
      (Z.ltb_spec dest_size src_size); lia. }
  rewrite Esize.
  rewrite to_int_small; [reflexivity |].
  split; [apply Z.div_pos; lia |].
  apply Z.le_lt_trans with (Z.min dest_size (Z.min src_size 231)); [| lia].
  apply Z.div_le_upper_bound; nia.
Qed.

Lemma Forall_swap_field (c : ascii) (bs : bytes) :
  Forall is_byte bs -> Forall is_byte (swap_field c bs).
Proof.
  intros H. unfold swap_field.
  assert (H' : Forall is_byte (firstn 2 bs ++ skipn 2 bs))
    by (rewrite firstn_skipn; exact H).
  apply Forall_app in H'. destruct H' as [Hf Hs].
  destruct (is_chr c "u" "U").
  - apply Forall_app. split; apply Forall_rev; assumption.
  - apply Forall_rev. exact H.
Qed.

Lemma Forall_swap_fields (l : list ascii) :
  forall bs, Forall is_byte bs -> Forall is_byte (swap_fields l bs).
Proof.
  induction l as [| c l IH]; intros bs H; cbn [swap_fields].
  - constructor.
  - destruct (plain_field c) as [k |]; [| constructor].
    assert (H' : Forall is_byte (firstn (Z.to_nat k) bs
                                 ++ skipn (Z.to_nat k) bs))
      by (rewrite firstn_skipn; exact H).
    apply Forall_app in H'. destruct H' as [Hf Hs].
    apply Forall_app. split; [apply Forall_swap_field | apply IH];
      assumption.
Qed.

Lemma Forall_swap_params (todo : nat) (l : list ascii) (size : nat) :
  forall bs, Forall is_byte bs -> Forall is_byte (swap_params todo l size bs).
Proof.
  induction todo as [| todo IH]; intros bs H; cbn [swap_params].
  - constructor.
  - assert (H' : Forall is_byte (firstn size bs ++ skipn size bs))
      by (rewrite firstn_skipn; exact H).
    apply Forall_app in H'. destruct H' as [Hf Hs].
    apply Forall_app. split; [apply Forall_swap_fields | apply IH];
      assumption.
Qed.

(** Swapping twice gives the bytes back. *)
Lemma swap_field_involutive (c : ascii) (bs : bytes) (k : Z) :
  plain_field c = Some k -> List.length bs = Z.to_nat k ->
  swap_field c (swap_field c bs) = bs.
Proof.
  intros Hc Hlen. unfold swap_field.
  destruct (is_chr c "u" "U") eqn:Eu.
  - assert (k = 6).
    { apply is_chr_cases in Eu. destruct Eu; subst c; cbv in Hc;
        inversion Hc; reflexivity. }
    subst k.
    destruct bs as [| s0 [| s1 [| s2 [| s3 [| s4 [| s5 [| ? ?]]]]]]];
      try discriminate.
    reflexivity.
  - apply rev_involutive.
Qed.

Lemma swap_fields_involutive (l : list ascii) :
  forall (bs : bytes) (sz : Z),
    plain_size l = Some sz -> List.length bs = Z.to_nat sz ->
    swap_fields l (swap_fields l bs) = bs.
Proof.
  induction l as [| c l IH]; intros bs sz E Hlen.
  - inversion E; subst. destruct bs; [reflexivity | discriminate].
  - cbn [plain_size swap_fields] in *.
    destruct (plain_field c) as [k |] eqn:Ek; [| discriminate].
    destruct (plain_size l) as [n |] eqn:En; [| discriminate].
    inversion E; subst sz.
    pose proof (plain_field_pos c k Ek). pose proof (plain_size_nonneg l n En).
    assert (Lf : List.length (firstn (Z.to_nat k) bs) = Z.to_nat k)
      by (rewrite firstn_length_le; lia).
    assert (Ls : List.length (skipn (Z.to_nat k) bs) = Z.to_nat n)
      by (rewrite length_skipn; lia).
    assert (Lw : List.length (swap_field c (firstn (Z.to_nat k) bs))
                 = Z.to_nat k)
      by (rewrite length_swap_field; exact Lf).
    rewrite (firstn_app_length _ _ _ _ Lw), (skipn_app_length _ _ _ _ Lw).
    rewrite (swap_field_involutive c _ k Ek Lf).
    rewrite (IH _ n eq_refl Ls). apply firstn_skipn.
Qed.

Lemma length_swap_params (todo : nat) (l : list ascii) (sz : Z) :
  plain_size l = Some sz ->
  forall bs, List.length bs = (todo * Z.to_nat sz)%nat ->
             List.length (swap_params todo l (Z.to_nat sz) bs)
             = List.length bs.
Proof.
  intros E. induction todo as [| todo IH]; intros bs Hlen.
  - destruct bs; [reflexivity | discriminate].
  - cbn [swap_params]. rewrite length_app.
    rewrite (length_swap_fields l _ sz E) by (rewrite firstn_length_le; lia).
    rewrite IH by (rewrite length_skipn; lia).
    rewrite <- length_app, firstn_skipn. reflexivity.
Qed.

Lemma swap_params_involutive (todo : nat) (l : list ascii) (sz : Z) :
  plain_size l = Some sz ->
  forall bs, List.length bs = (todo * Z.to_nat sz)%nat ->
             swap_params todo l (Z.to_nat sz)
               (swap_params todo l (Z.to_nat sz) bs)
             = bs.
Proof.
  intros E. induction todo as [| todo IH]; intros bs Hlen.
  - destruct bs; [reflexivity | discriminate].
  - cbn [swap_params].
    assert (Lf : List.length (firstn (Z.to_nat sz) bs) = Z.to_nat sz)
      by (rewrite firstn_length_le; lia).
    assert (Ls : List.length (skipn (Z.to_nat sz) bs)
                 = (todo * Z.to_nat sz)%nat)
      by (rewrite length_skipn; lia).
    assert (Lw : List.length (swap_fields l (firstn (Z.to_nat sz) bs))
                 = Z.to_nat sz)
      by (rewrite (length_swap_fields l _ sz E Lf); exact Lf).
    rewrite (firstn_app_length _ _ _ _ Lw), (skipn_app_length _ _ _ _ Lw).
    rewrite (swap_fields_involutive l _ sz E Lf).
    rewrite (IH _ Ls). apply firstn_skipn.
Qed.

Lemma emplace_params_whole (format : string) (sz size : Z) (en : bool)
  (todo : nat) (source destination : bytes) :
  plain_size (list_ascii_of_string format) = Some sz ->
  (todo * Z.to_nat sz <= List.length destination)%nat ->
  (todo * Z.to_nat sz <= List.length source)%nat ->
  Forall is_byte (firstn (todo * Z.to_nat sz) source) ->
  emplace_params format todo size en source 0 destination
  = Some (Z.of_nat (todo * Z.to_nat sz),
          swap_params todo (list_ascii_of_string format) (Z.to_nat sz)
            (firstn (todo * Z.to_nat sz) source)
          ++ skipn (todo * Z.to_nat sz) destination).
Proof.
  intros E Hd Hs Hb. pose proof (plain_size_nonneg _ _ E) as Hsz.
  pose proof (emplace_params_plain format sz size en E todo []
                (firstn (todo * Z.to_nat sz) source)
                (skipn (todo * Z.to_nat sz) source) []
                (firstn (todo * Z.to_nat sz) destination)
                (skipn (todo * Z.to_nat sz) destination)) as H.
  cbn [app List.length Z.of_nat] in H. rewrite !firstn_skipn in H.
  rewrite H; try assumption; try reflexivity;
    try (apply firstn_length_le; assumption).
  f_equal. f_equal. lia.
Qed.

(** X8. [pd_emplace] with a format of the fields [b], [w], [d] and [u]
    moves as many whole parameters as fit into the smaller of
    [dest_size], [src_size] and 231 bytes, writes every number with its
    bytes in reverse order and every UID with those of its manufacturer
    and of its device in reverse order, leaves the destination behind
    them as it was and returns the number of bytes it wrote;
    [encode_nulls] makes no difference. *)
Theorem pd_emplace_swaps_fields (destination source : bytes)
  (dest_size src_size : Z) (format : string) (encode_nulls : bool) (sz : Z) :
  plain_size (list_ascii_of_string format) = Some sz ->
  1 <= sz <= 231 ->
  0 <= dest_size -> 0 <= src_size ->
  let count := Z.to_nat (Z.min dest_size (Z.min src_size 231) / sz) in
  let n := (count * Z.to_nat sz)%nat in
  (n <= List.length destination)%nat -> (n <= List.length source)%nat ->
  Forall is_byte (firstn n source) ->
  pd_emplace destination dest_size format source src_size encode_nulls
  = Some (Z.of_nat n,
          swap_params count (list_ascii_of_string format) (Z.to_nat sz)
            (firstn n source)
          ++ skipn n destination).
Proof.
  intros E Hsz Hds Hss count n Hd Hs Hb.
  rewrite (pd_emplace_plain_params _ _ _ _ _ _ sz E Hsz Hds Hss).
  apply emplace_params_whole; assumption.
Qed.

Lemma pd_emplace_swaps_fields_witness :
  (plain_size (list_ascii_of_string "wbd") = Some 7
   /\ 1 <= 7 <= 231 /\ 0 <= 15 /\ 0 <= 20
   /\ (14 <= List.length (repeat 0 16))%nat
   /\ (14 <= List.length [1; 2; 3; 4; 5; 6; 7; 8; 9; 10; 11; 12; 13; 14; 15])%nat
   /\ Forall is_byte
        (firstn 14 [1; 2; 3; 4; 5; 6; 7; 8; 9; 10; 11; 12; 13; 14; 15]))
  /\ pd_emplace (repeat 0 16) 15 "wbd"
       [1; 2; 3; 4; 5; 6; 7; 8; 9; 10; 11; 12; 13; 14; 15] 20 false
     = Some (14, [2; 1; 3; 7; 6; 5; 4; 9; 8; 10; 14; 13; 12; 11; 0; 0]).
Proof.
  assert (Hb : Forall is_byte
                 (firstn 14 [1; 2; 3; 4; 5; 6; 7; 8; 9; 10; 11; 12; 13; 14;
                             15])).
  { cbn [firstn]. repeat constructor; unfold is_byte; lia. }
  split.
  - repeat split; try reflexivity; try lia; try (cbn; lia). exact Hb.
  - apply (pd_emplace_swaps_fields (repeat 0 16)
             [1; 2; 3; 4; 5; 6; 7; 8; 9; 10; 11; 12; 13; 14; 15] 15 20 "wbd"
             false 7); try reflexivity; try lia; try (cbn; lia).
    exact Hb.
Defined.

(** X9. What [pd_emplace] wrote with such a format, [pd_emplace] reads
    back: emplacing the output once more, with the same format and the
    same sizes, gives the bytes of the source again; the same call
    serializes and deserializes. *)
Theorem pd_emplace_round_trip (wire_buffer back_buffer source : bytes)
  (dest_size src_size : Z) (format : string) (en en' : bool) (sz : Z) :
  plain_size (list_ascii_of_string format) = Some sz ->
  1 <= sz <= 231 ->
  0 <= dest_size -> 0 <= src_size ->
  let n :=
    (Z.to_nat (Z.min dest_size (Z.min src_size 231) / sz) * Z.to_nat sz)%nat in
  (n <= List.length wire_buffer)%nat -> (n <= List.length back_buffer)%nat ->
  (n <= List.length source)%nat ->
  Forall is_byte (firstn n source) ->
  exists wire back,
    pd_emplace wire_buffer dest_size format source src_size en
    = Some (Z.of_nat n, wire)
    /\ pd_emplace back_buffer dest_size format wire src_size en'
       = Some (Z.of_nat n, back)
    /\ firstn n back = firstn n source
    /\ skipn n back = skipn n back_buffer.
Proof.
  intros E Hsz Hds Hss n Hw Hk Hs Hb. subst n.
  set (count := Z.to_nat (Z.min dest_size (Z.min src_size 231) / sz)) in *.
  set (size := Z.min dest_size (Z.min src_size 231)).
  assert (Lf : List.length (firstn (count * Z.to_nat sz) source)
               = (count * Z.to_nat sz)%nat)
    by (apply firstn_length_le; exact Hs).
  assert (Lw : List.length (swap_params count (list_ascii_of_string format)
                              (Z.to_nat sz)
                              (firstn (count * Z.to_nat sz) source))
               = (count * Z.to_nat sz)%nat).
  { rewrite (length_swap_params count _ sz E); exact Lf. }
  eexists. eexists. split; [| split].
  - rewrite (pd_emplace_plain_params _ _ _ _ _ _ sz E Hsz Hds Hss).
    fold size. fold count.
    apply (emplace_params_whole format sz size en count source wire_buffer E);
      assumption.
  - rewrite (pd_emplace_plain_params _ _ _ _ _ _ sz E Hsz Hds Hss).
    fold size. fold count.
    apply (emplace_params_whole format sz size en' count _ back_buffer E).
    + exact Hk.
    + rewrite length_app, Lw. lia.
    + rewrite (firstn_app_length _ _ _ _ Lw).
      apply Forall_swap_params. exact Hb.
  - rewrite (firstn_app_length _ _ _ _ Lw).
    assert (Lww : List.length
                    (swap_params count (list_ascii_of_string format)
                       (Z.to_nat sz)
                       (swap_params count (list_ascii_of_string format)
                          (Z.to_nat sz)
                          (firstn (count * Z.to_nat sz) source)))
                  = (count * Z.to_nat sz)%nat).
    { rewrite (length_swap_params count _ sz E); exact Lw. }
    rewrite (firstn_app_length _ _ _ _ Lww).
    rewrite (skipn_app_length _ _ _ _ Lww).
    split; [| reflexivity].
    apply (swap_params_involutive count _ sz E). exact Lf.
Qed.

Lemma pd_emplace_round_trip_witness :
  (plain_size (list_ascii_of_string "wu") = Some 8
   /\ 1 <= 8 <= 231 /\ 0 <= 16 /\ 0 <= 16
   /\ (16 <= List.length (repeat 0 16))%nat
   /\ (16 <= List.length (repeat 7 16))%nat
   /\ (16 <= List.length [1; 2; 3; 4; 5; 6; 7; 8; 9; 10; 11; 12; 13; 14; 15;
                          16])%nat
   /\ Forall is_byte
        (firstn 16 [1; 2; 3; 4; 5; 6; 7; 8; 9; 10; 11; 12; 13; 14; 15; 16]))
  /\ exists wire back,
       pd_emplace (repeat 0 16) 16 "wu"
         [1; 2; 3; 4; 5; 6; 7; 8; 9; 10; 11; 12; 13; 14; 15; 16] 16 false
       = Some (16, wire)
       /\ pd_emplace (repeat 7 16) 16 "wu" wire 16 true = Some (16, back)
       /\ firstn 16 back
          = firstn 16 [1; 2; 3; 4; 5; 6; 7; 8; 9; 10; 11; 12; 13; 14; 15; 16]
       /\ skipn 16 back = skipn 16 (repeat 7 16).
Proof.
  assert (Hb : Forall is_byte
                 (firstn 16 [1; 2; 3; 4; 5; 6; 7; 8; 9; 10; 11; 12; 13; 14;
                             15; 16])).
  { cbn [firstn]. repeat constructor; unfold is_byte; lia. }
  split.
  - repeat split; try reflexivity; try lia; try (cbn; lia). exact Hb.
  - apply (pd_emplace_round_trip (repeat 0 16) (repeat 7 16)
             [1; 2; 3; 4; 5; 6; 7; 8; 9; 10; 11; 12; 13; 14; 15; 16] 16 16
             "wu" false true 8); try reflexivity; try lia; try (cbn; lia).
    exact Hb.
Defined.

(** ** Singleton formats *)

(** The parser on a format that has one more field after its
    one-character fields; [tl] is that field and the terminator. *)
Lemma rdm_param_parse_plain_tail (format tail : string) (t : ascii)
  (sz : Z) :
  plain_size (list_ascii_of_string format) = Some sz -> sz <= 231 ->
  list_ascii_of_string tail <> [] ->
  hd NUL (list_ascii_of_string tail) = t -> (t =? NUL)%char = false ->
  rdm_param_parse (format ++ tail)
  = parse_loop (c_array tail) 0 sz false.
Proof.
  intros E Hsz Hne Hhd Hnul. pose proof (plain_size_nonneg _ _ E) as H0.
  unfold rdm_param_parse, c_array. rewrite list_ascii_of_string_app.
  rewrite <- app_assoc.
  destruct (list_ascii_of_string format) as [| c l] eqn:El.
  - inversion E; subst sz. cbn [app].
    destruct (list_ascii_of_string tail) as [| c' l']; [contradiction |].
    cbn [hd] in Hhd. subst c'. cbn [app]. rewrite Hnul. reflexivity.
  - cbn [app].
    assert (Hc : (c =? NUL)%char = false).
    { cbn [plain_size] in E.
      destruct (plain_field c) as [k |] eqn:Ek; [| discriminate].
      exact (plain_field_not_nul c k Ek). }
    rewrite Hc.
    change (c :: l ++ list_ascii_of_string tail ++ [NUL])
      with ((c :: l) ++ list_ascii_of_string tail ++ [NUL]).
    rewrite (parse_loop_plain _ _ 0 false sz E) by lia. reflexivity.
Qed.

Lemma parse_loop_anchor (ps : Z) (s : bool) :
  0 <= ps <= 231 -> parse_loop (c_array "$") 0 ps s = Some (ps, true).
Proof.
  intros H. cbn. rewrite Z.add_0_r. rewrite u32_small by lia.
  assert (E : (ps >? 231) = false) by lia. rewrite E.
  rewrite to_int_small by lia. rewrite u32_small by lia. reflexivity.
Qed.

(** X10. With the anchor [$] after its fields a format is a singleton,
    and [pd_emplace] moves the one parameter whatever [dest_size] and
    [src_size] are, be they smaller than the parameter or zero: the
    sizes bound the number of parameters of an array only. *)
Theorem pd_emplace_singleton_ignores_sizes (destination source : bytes)
  (dest_size src_size : Z) (format : string) (encode_nulls : bool) (sz : Z) :
  plain_size (list_ascii_of_string format) = Some sz ->
  1 <= sz <= 231 ->
  (Z.to_nat sz <= List.length destination)%nat ->
  (Z.to_nat sz <= List.length source)%nat ->
  Forall is_byte (firstn (Z.to_nat sz) source) ->
  pd_emplace destination dest_size (format ++ "$") source src_size
    encode_nulls
  = Some (sz,
          swap_fields (list_ascii_of_string format)
            (firstn (Z.to_nat sz) source)
          ++ skipn (Z.to_nat sz) destination).
Proof.
  intros E Hsz Hd Hs Hb. unfold pd_emplace.
  rewrite (rdm_param_parse_plain_tail format "$" "$" sz E)
    by (reflexivity || lia || discriminate).
  rewrite parse_loop_anchor by lia. cbn [bind].
  rewrite to_int_small by lia.
  assert (H1 : (sz <? 1) = false) by lia. rewrite H1.
  change (Z.to_nat 1) with 1%nat. cbn [emplace_params].
  unfold c_array at 1. rewrite list_ascii_of_string_app, <- app_assoc.
  pose proof (emplace_loop_plain (list_ascii_of_string format)
                (c_array "$") sz
                (if dest_size <? (if src_size >? 231 then 231 else src_size)
                 then dest_size
                 else if src_size >? 231 then 231 else src_size)
                encode_nulls []
                (firstn (Z.to_nat sz) source) (skipn (Z.to_nat sz) source) []
                (firstn (Z.to_nat sz) destination)
                (skipn (Z.to_nat sz) destination) E) as H.
  cbn [app List.length Z.of_nat] in H. rewrite !firstn_skipn in H.
  unfold c_array in H at 1. cbn [list_ascii_of_string] in H.
  cbn [list_ascii_of_string].
  rewrite H; try assumption; try reflexivity;
    try (apply firstn_length_le; assumption).
Qed.

Lemma pd_emplace_singleton_ignores_sizes_witness :
  (plain_size (list_ascii_of_string "w") = Some 2
   /\ 1 <= 2 <= 231
   /\ (Z.to_nat 2 <= List.length [0; 0; 0])%nat
   /\ (Z.to_nat 2 <= List.length [1; 2; 3])%nat
   /\ Forall is_byte (firstn (Z.to_nat 2) [1; 2; 3]))
  /\ pd_emplace [0; 0; 0] 0 ("w" ++ "$") [1; 2; 3] 0 false
     = Some (2, [2; 1; 0]).
Proof.
  assert (Hb : Forall is_byte (firstn (Z.to_nat 2) [1; 2; 3])).
  { cbn. repeat constructor; unfold is_byte; lia. }
  split.
  - repeat split; try reflexivity; try lia; try (cbn; lia). exact Hb.
  - apply (pd_emplace_singleton_ignores_sizes [0; 0; 0] [1; 2; 3] 0 0 "w"
             false 2); try reflexivity; try lia; try (cbn; lia).
    exact Hb.
Defined.

(** ** The optional UID *)

Lemma parse_loop_optional (ps : Z) (s : bool) :
  0 <= ps -> ps + 6 <= 231 ->
  parse_loop (c_array "v") 0 ps s = Some (ps + 6, true).
Proof.
  intros H0 H. cbn. unfold sizeof_uid. rewrite u32_small by lia.
  assert (E : (ps + 6 >? 231) = false) by lia. rewrite E.
  rewrite to_int_small by lia. rewrite u32_small by lia. reflexivity.
Qed.

Lemma uid_is_null_at_app (pre post : bytes) (u0 u1 u2 u3 u4 u5 : Z) (i : Z) :
  is_byte u0 -> is_byte u1 -> is_byte u2 -> is_byte u3 -> is_byte u4 ->
  is_byte u5 ->
  i = Z.of_nat (List.length pre) ->
  uid_is_null_at (pre ++ u0 :: u1 :: u2 :: u3 :: u4 :: u5 :: post) i
  = Some (forallb (Z.eqb 0) [u0; u1; u2; u3; u4; u5]).
Proof.
  unfold is_byte. intros H0 H1 H2 H3 H4 H5 ->. unfold uid_is_null_at.
  rewrite (load16_app pre _ u0 u1 0) by (reflexivity || lia). cbn [bind].
  rewrite (load32_app pre _ u2 u3 u4 u5 2) by (reflexivity || lia).
  cbn [bind forallb].
  rewrite word16_add by (unfold is_byte; lia).
  rewrite word32_add by (unfold is_byte; lia).
  destruct (Z.eqb_spec 0 u0), (Z.eqb_spec 0 u1), (Z.eqb_spec 0 u2),
    (Z.eqb_spec 0 u3), (Z.eqb_spec 0 u4), (Z.eqb_spec 0 u5),
    (Z.eqb_spec (u0 + 256 * u1) 0),
    (Z.eqb_spec (u2 + 256 * u3 + 65536 * u4 + 16777216 * u5) 0);
    cbn [andb]; try reflexivity; lia.
Qed.

Lemma emplace_loop_optional (size : Z) (en : bool)
  (spre spost dpre dpost : bytes)
  (u0 u1 u2 u3 u4 u5 d0 d1 d2 d3 d4 d5 : Z) (n : Z) :
  is_byte u0 -> is_byte u1 -> is_byte u2 -> is_byte u3 -> is_byte u4 ->
  is_byte u5 ->
  n = Z.of_nat (List.length spre) -> List.length spre = List.length dpre ->
  emplace_loop (c_array "v") 0 size en
    (spre ++ u0 :: u1 :: u2 :: u3 :: u4 :: u5 :: spost) n
    (dpre ++ d0 :: d1 :: d2 :: d3 :: d4 :: d5 :: dpost)
  = if negb en && forallb (Z.eqb 0) [u0; u1; u2; u3; u4; u5]
    then Some (n, dpre ++ d0 :: d1 :: d2 :: d3 :: d4 :: d5 :: dpost)
    else Some (n + 6, dpre ++ u1 :: u0 :: u5 :: u4 :: u3 :: u2 :: dpost).
Proof.
  intros H0 H1 H2 H3 H4 H5 Hn Hp.
  change (c_array "v") with ["v"%char; NUL].
  cbn [emplace_loop].
  change ("v" =? NUL)%char with false. cbv iota.
  unfold emplace_field.
  change (is_chr "v" "b" "B") with false.
  change (is_chr "v" "w" "W") with false.
  change (is_chr "v" "d" "D") with false.
  change (is_chr "v" "u" "U") with false.
  change (is_chr "v" "v" "V") with true.
  cbn [orb andb]. cbv iota.
  destruct en; cbn [negb bind andb].
  - replace (uidmove (dpre ++ d0 :: d1 :: d2 :: d3 :: d4 :: d5 :: dpost) n
               (spre ++ u0 :: u1 :: u2 :: u3 :: u4 :: u5 :: spost) n)
      with (uidmove (dpre ++ d0 :: d1 :: d2 :: d3 :: d4 :: d5 :: dpost)
              (Z.of_nat (List.length dpre))
              (spre ++ u0 :: u1 :: u2 :: u3 :: u4 :: u5 :: spost)
              (Z.of_nat (List.length spre)))
      by (f_equal; lia).
    rewrite uidmove_app by assumption. cbn [bind emplace_loop].
    rewrite Ascii.eqb_refl. reflexivity.
  - rewrite uid_is_null_at_app by assumption. cbn [bind].
    destruct (forallb (Z.eqb 0) [u0; u1; u2; u3; u4; u5]); [reflexivity |].
    replace (uidmove (dpre ++ d0 :: d1 :: d2 :: d3 :: d4 :: d5 :: dpost) n
               (spre ++ u0 :: u1 :: u2 :: u3 :: u4 :: u5 :: spost) n)
      with (uidmove (dpre ++ d0 :: d1 :: d2 :: d3 :: d4 :: d5 :: dpost)
              (Z.of_nat (List.length dpre))
              (spre ++ u0 :: u1 :: u2 :: u3 :: u4 :: u5 :: spost)
              (Z.of_nat (List.length spre)))
      by (f_equal; lia).
    rewrite uidmove_app by assumption. cbn [bind emplace_loop].
    rewrite Ascii.eqb_refl. reflexivity.
Qed.

(** X11. An optional UID [v] after the fields of a format: with
    [encode_nulls] unset a null UID ends the parameter, its six bytes
    of the destination stay as they were and are not counted in the
    value returned; a UID that is not null, or any UID when
    [encode_nulls] is set, is moved like a UID [u]. *)
Theorem pd_emplace_optional_uid (sbody spost dbody dpost : bytes)
  (u0 u1 u2 u3 u4 u5 d0 d1 d2 d3 d4 d5 : Z) (dest_size src_size : Z)
  (format : string) (encode_nulls : bool) (sz : Z) :
  plain_size (list_ascii_of_string format) = Some sz -> sz + 6 <= 231 ->
  List.length sbody = Z.to_nat sz -> List.length dbody = Z.to_nat sz ->
  Forall is_byte sbody ->
  is_byte u0 -> is_byte u1 -> is_byte u2 -> is_byte u3 -> is_byte u4 ->
  is_byte u5 ->
  pd_emplace (dbody ++ d0 :: d1 :: d2 :: d3 :: d4 :: d5 :: dpost) dest_size
    (format ++ "v") (sbody ++ u0 :: u1 :: u2 :: u3 :: u4 :: u5 :: spost)
    src_size encode_nulls
  = if negb encode_nulls && forallb (Z.eqb 0) [u0; u1; u2; u3; u4; u5]
    then Some (sz,
               swap_fields (list_ascii_of_string format) sbody
               ++ d0 :: d1 :: d2 :: d3 :: d4 :: d5 :: dpost)
    else Some (sz + 6,
               swap_fields (list_ascii_of_string format) sbody
               ++ u1 :: u0 :: u5 :: u4 :: u3 :: u2 :: dpost).
Proof.
  intros E Hsz Ls Ld Hb H0 H1 H2 H3 H4 H5.
  pose proof (plain_size_nonneg _ _ E) as Hnn.
  unfold pd_emplace.
  rewrite (rdm_param_parse_plain_tail format "v" "v" sz E)
    by (reflexivity || lia || discriminate).
  rewrite parse_loop_optional by lia. cbn [bind].
  rewrite to_int_small by lia.
  assert (E1 : (sz + 6 <? 1) = false) by lia. rewrite E1.
  change (Z.to_nat 1) with 1%nat. cbn [emplace_params].
  unfold c_array at 1. rewrite list_ascii_of_string_app, <- app_assoc.
  fold (c_array "v").
  pose proof (emplace_loop_plain (list_ascii_of_string format)
                (c_array "v") sz
                (if dest_size <? (if src_size >? 231 then 231 else src_size)
                 then dest_size
                 else if src_size >? 231 then 231 else src_size)
                encode_nulls [] sbody
                (u0 :: u1 :: u2 :: u3 :: u4 :: u5 :: spost) [] dbody
                (d0 :: d1 :: d2 :: d3 :: d4 :: d5 :: dpost) E Ls Ld Hb
                eq_refl) as H.
  cbn [app List.length Z.of_nat] in H. rewrite H. clear H.
  rewrite (emplace_loop_optional _ _ sbody spost
             (swap_fields (list_ascii_of_string format) sbody) dpost)
    by (assumption || lia
        || (rewrite (length_swap_fields _ sbody sz E Ls); reflexivity)).
  destruct (negb encode_nulls && forallb (Z.eqb 0) [u0; u1; u2; u3; u4; u5]);
    reflexivity.
Qed.

Lemma pd_emplace_optional_uid_witness :
  (plain_size (list_ascii_of_string "w") = Some 2 /\ 2 + 6 <= 231
   /\ List.length [1; 2] = Z.to_nat 2 /\ List.length [9; 9] = Z.to_nat 2
   /\ Forall is_byte [1; 2]
   /\ is_byte 0 /\ is_byte 0 /\ is_byte 0 /\ is_byte 0 /\ is_byte 0
   /\ is_byte 0)
  /\ pd_emplace ([9; 9] ++ [9; 9; 9; 9; 9; 9]) 8 ("w" ++ "v")
       ([1; 2] ++ [0; 0; 0; 0; 0; 0]) 8 false
     = Some (2, [2; 1; 9; 9; 9; 9; 9; 9]).
Proof.
  assert (Hb : Forall is_byte [1; 2])
    by (repeat constructor; unfold is_byte; lia).
  assert (H0 : is_byte 0) by (unfold is_byte; lia).
  split.
  - repeat split; try reflexivity; try lia; assumption.
  - apply (pd_emplace_optional_uid [1; 2] [] [9; 9] [] 0 0 0 0 0 0
             9 9 9 9 9 9 8 8 "w" false 2); try reflexivity; try lia;
      assumption.
Defined.

(** ** More on the discovery codec *)

Lemma land_is_byte (a b : Z) : is_byte a -> is_byte (Z.land a b).
Proof.
  unfold is_byte. intros H.
  assert (E : Z.land a b = Z.land a b mod 256).
  { change 256 with (2 ^ 8). rewrite <- Z.land_ones by lia.
    rewrite <- Z.land_assoc, (Z.land_comm b), Z.land_assoc.
    rewrite (Z.land_ones a) by lia. change (2 ^ 8) with 256.
    rewrite Z.mod_small by lia. reflexivity. }
  rewrite E. apply Z.mod_pos_bound. lia.
Qed.

(** The scan for the delimiter: where it stops. *)
Lemma preamble_scan_total (todo : nat) :
  forall (m : bytes) (i : Z),
    0 <= i -> i + Z.of_nat todo <= Z.of_nat (List.length m) ->
    exists p, preamble_scan m i todo = Some p
              /\ i <= p <= i + Z.of_nat todo
              /\ (forall j, i <= j < p -> byte_at m j <> RDM_DELIMITER)
              /\ (p < i + Z.of_nat todo -> byte_at m p = RDM_DELIMITER).
Proof.
  induction todo as [| todo IH]; intros m i Hi Hn.
  - exists i. cbn [preamble_scan Z.of_nat]. repeat split; lia.
  - cbn [preamble_scan]. rewrite load8_nth by lia. cbn [bind].
    fold (byte_at m i).
    destruct (Z.eqb_spec (byte_at m i) RDM_DELIMITER) as [E | E].
    + exists i. repeat split; lia.
    + destruct (IH m (i + 1)) as [p [Ep [Hp [Hbefore Hat]]]]; try lia.
      exists p. split; [exact Ep |]. split; [lia |]. split.
      * intros j Hj. destruct (Z.eq_dec j i) as [-> | Hne];
          [exact E | apply Hbefore; lia].
      * intros H. apply Hat. lia.
Qed.

(** X12. [get_preamble_len] returns the offset of the first delimiter
    among the first eight bytes, and 8 when there is none. *)
Theorem get_preamble_len_first_delimiter (data : bytes) :
  (8 <= List.length data)%nat ->
  exists p, get_preamble_len data = Some p
            /\ 0 <= p <= 8
            /\ (forall j, 0 <= j < p -> byte_at data j <> RDM_DELIMITER)
            /\ (p < 8 -> byte_at data p = RDM_DELIMITER).
Proof.
  intros H. unfold get_preamble_len.
  destruct (preamble_scan_total 8 data 0) as [p [E [Hp [Hb Ha]]]]; try lia.
  exists p. repeat split; try assumption; lia.
Qed.

Lemma get_preamble_len_first_delimiter_witness :
  (8 <= List.length [254; 254; 170; 1; 2; 3; 4; 5])%nat
  /\ exists p, get_preamble_len [254; 254; 170; 1; 2; 3; 4; 5] = Some p
               /\ 0 <= p <= 8
               /\ (forall j, 0 <= j < p ->
                     byte_at [254; 254; 170; 1; 2; 3; 4; 5] j
                     <> RDM_DELIMITER)
               /\ (p < 8 ->
                   byte_at [254; 254; 170; 1; 2; 3; 4; 5] p = RDM_DELIMITER).
Proof.
  split.
  - simpl. lia.
  - apply (get_preamble_len_first_delimiter [254; 254; 170; 1; 2; 3; 4; 5]).
    simpl. lia.
Defined.

(** X13. [uid_decode] fails, returning 0 and leaving [*uid] as it was,
    when [size] is below 17, when none of the first eight bytes is the
    delimiter, and when the frame after the preamble does not fit into
    [size]. *)
Theorem uid_decode_rejects (uid0 : rdm_uid_t) (source : bytes) (size : Z) :
  size < 17
  \/ ((8 <= List.length source)%nat
      /\ ((forall j, 0 <= j < 8 -> byte_at source j <> RDM_DELIMITER)
          \/ exists p, 0 <= p < 8 /\ byte_at source p = RDM_DELIMITER
                       /\ (forall j, 0 <= j < p ->
                             byte_at source j <> RDM_DELIMITER)
                       /\ size < p + 17)) ->
  uid_decode uid0 source size = Some (0, uid0).
Proof.
  intros H. unfold uid_decode.
  destruct (Z.ltb_spec size 17) as [Hlt | Hge]; [reflexivity |].
  destruct H as [H | [Hlen H]]; [lia |].
  unfold get_preamble_len.
  destruct (preamble_scan_total 8 source 0) as [q [E [Hq [Hb Ha]]]];
    try lia.
  rewrite E. cbn [bind].
  destruct H as [Hnone | [p [Hp [Hdel [Hfirst Hsize]]]]].
  - assert (q = 8).
    { destruct (Z.eq_dec q 8) as [-> | Hne]; [reflexivity |].
      exfalso. apply (Hnone q); [lia |]. apply Ha. lia. }
    subst q. reflexivity.
  - assert (Hqp : p <= q).
    { destruct (Z.le_gt_cases p q) as [Hle | Hgt]; [exact Hle |].
      exfalso. apply (Hfirst q); [lia |]. apply Ha. lia. }
    assert (Ecase : ((q >? 7) || (size <? q + 17)) = true).
    { apply orb_true_iff. right. apply Z.ltb_lt. lia. }
    rewrite Ecase. reflexivity.
Qed.

Lemma uid_decode_rejects_witness :
  (24 < 17
   \/ ((8 <= List.length (repeat 254 24))%nat
       /\ ((forall j, 0 <= j < 8 ->
              byte_at (repeat 254 24) j <> RDM_DELIMITER)
           \/ exists p, 0 <= p < 8
                        /\ byte_at (repeat 254 24) p = RDM_DELIMITER
                        /\ (forall j, 0 <= j < p ->
                              byte_at (repeat 254 24) j <> RDM_DELIMITER)
                        /\ 24 < p + 17)))
  /\ uid_decode (mk_uid 1 2) (repeat 254 24) 24 = Some (0, mk_uid 1 2).
Proof.
  assert (H : forall j, 0 <= j < 8 ->
                        byte_at (repeat 254 24) j <> RDM_DELIMITER).
  { intros j Hj.
    assert (C : j = 0 \/ j = 1 \/ j = 2 \/ j = 3 \/ j = 4 \/ j = 5 \/ j = 6
                \/ j = 7) by lia.
    repeat (destruct C as [-> | C]; [discriminate |]). subst j.
    discriminate. }
  split.
  - right. split; [simpl; lia |]. left. exact H.
  - apply (uid_decode_rejects (mk_uid 1 2) (repeat 254 24) 24).
    right. split; [simpl; lia |]. left. exact H.
Defined.

(** X14. [uid_decode] accepts every buffer in which the first delimiter
    comes after at most seven other bytes and in which [size] has room
    for the seventeen bytes from the delimiter on: it returns their
    number with the preamble and the UID whose bytes are the pairs of
    the encoded UID combined by [&].  It reads neither the four bytes of
    the checksum nor anything after them, so they are not verified. *)
Theorem uid_decode_ignores_checksum (pre rest : bytes)
  (e0 e1 e2 e3 e4 e5 e6 e7 e8 e9 e10 e11 : Z) (size : Z)
  (uid0 : rdm_uid_t) :
  (List.length pre <= 7)%nat ->
  Forall (fun b => b <> RDM_DELIMITER) pre ->
  Z.of_nat (List.length pre) + 17 <= size ->
  Forall is_byte [e0; e1; e2; e3; e4; e5; e6; e7; e8; e9; e10; e11] ->
  uid_decode uid0
    (pre ++ RDM_DELIMITER :: e0 :: e1 :: e2 :: e3 :: e4 :: e5 :: e6 :: e7
         :: e8 :: e9 :: e10 :: e11 :: rest) size
  = Some (Z.of_nat (List.length pre) + 17,
          mk_uid (256 * Z.land e0 e1 + Z.land e2 e3)
            (16777216 * Z.land e4 e5 + 65536 * Z.land e6 e7
             + 256 * Z.land e8 e9 + Z.land e10 e11)).
Proof.
  intros Hp Hpre Hsize Hb.
  rewrite (uid_decode_accepts _
             [e0; e1; e2; e3; e4; e5; e6; e7; e8; e9; e10; e11] size
             (Z.of_nat (List.length pre)) uid0); try lia; try reflexivity.
  - cbn [pair_and].
    repeat match goal with
           | H : Forall _ (_ :: _) |- _ => inversion H; subst; clear H
           end.
    rewrite uidcpy_from_wire by (apply land_is_byte; assumption).
    reflexivity.
  - intros j Hj. unfold load8.
    replace (0 <=? j) with true by (symmetry; apply Z.leb_le; lia).
    rewrite nth_error_app1 by lia.
    destruct (nth_error pre (Z.to_nat j)) as [b |] eqn:E.
    + exists b. split; [reflexivity |].
      rewrite Forall_forall in Hpre. apply Hpre.
      apply (nth_error_In _ _ E).
    + apply nth_error_None in E. lia.
  - replace (Z.of_nat (List.length pre))
      with (Z.of_nat (List.length pre + 0)) by lia.
    rewrite load8_app. reflexivity.
  - intros k Hk.
    replace (Z.of_nat (List.length pre) + 1 + Z.of_nat k)
      with (Z.of_nat (List.length pre + S k)) by lia.
    rewrite load8_app. cbn [nth_error].
    do 12 (destruct k as [| k]; [reflexivity |]). lia.
Qed.

Lemma uid_decode_ignores_checksum_witness :
  ((List.length [254; 254] <= 7)%nat
   /\ Forall (fun b => b <> RDM_DELIMITER) [254; 254]
   /\ Z.of_nat (List.length [254; 254]) + 17 <= 24
   /\ Forall is_byte [171; 85; 170; 87; 170; 85; 170; 85; 170; 85; 186; 85])
  /\ uid_decode RDM_UID_NULL
       ([254; 254]
        ++ RDM_DELIMITER :: 171 :: 85 :: 170 :: 87 :: 170 :: 85 :: 170 :: 85
             :: 170 :: 85 :: 186 :: 85 :: [0; 0; 0; 0]) 24
     = Some (Z.of_nat (List.length [254; 254]) + 17,
             mk_uid (256 * Z.land 171 85 + Z.land 170 87)
               (16777216 * Z.land 170 85 + 65536 * Z.land 170 85
                + 256 * Z.land 170 85 + Z.land 186 85)).
Proof.
  assert (H1 : Forall (fun b => b <> RDM_DELIMITER) [254; 254])
    by (repeat constructor; discriminate).
  assert (H2 : Forall is_byte
                 [171; 85; 170; 87; 170; 85; 170; 85; 170; 85; 186; 85])
    by (repeat constructor; unfold is_byte; lia).
  split.
  - repeat split; try assumption; simpl; lia.
  - apply (uid_decode_ignores_checksum [254; 254] [0; 0; 0; 0]);
      try assumption; simpl; lia.
Defined.

(** ** More on [uid_encode] *)

Lemma encode_preamble_frame (todo : nat) :
  forall (m m' : bytes) (i : Z),
    encode_preamble m i todo = Some m' ->
    forall j, i + Z.of_nat todo <= j -> load8 m' j = load8 m j.
Proof.
  induction todo as [| todo IH]; intros m m' i E j Hj.
  - inversion E. reflexivity.
  - cbn [encode_preamble] in E.
    destruct (store8 m i RDM_PREAMBLE) as [m1 |] eqn:E1; [| discriminate].
    cbn [bind] in E.
    rewrite (IH m1 m' (i + 1) E j) by lia.
    unfold store8 in E1.
    destruct (Z.leb_spec 0 i) as [Hi | Hi]; cbn [andb] in E1;
      [| discriminate].
    destruct (i <? Z.of_nat (List.length m)); [| discriminate].
    inversion E1. apply load8_upd_neq. lia.
Qed.

Lemma firstn_skipn_loads (l : bytes) :
  forall (m : bytes) (i : nat),
    (forall k, (k < List.length l)%nat ->
       load8 m (Z.of_nat (i + k)) = Some (nth k l 0)) ->
    firstn (List.length l) (skipn i m) = l.
Proof.
  induction l as [| x l IH]; intros m i H.
  - reflexivity.
  - pose proof (H 0%nat ltac:(cbn [List.length]; lia)) as H0.
    rewrite Nat.add_0_r in H0. unfold load8 in H0.
    replace (0 <=? Z.of_nat i) with true in H0
      by (symmetry; apply Z.leb_le; lia).
    rewrite Nat2Z.id in H0. cbn [nth] in H0.
    assert (Hlt : (i < List.length m)%nat).
    { apply nth_error_Some. rewrite H0. discriminate. }
    rewrite (skipn_cons_nth m i Hlt). cbn [List.length firstn].
    f_equal.
    + apply (nth_error_nth m i 0) in H0. exact H0.
    + apply IH. intros k Hk.
      specialize (H (S k) ltac:(cbn [List.length]; lia)).
      cbn [nth] in H. rewrite <- H. f_equal. lia.
Qed.

(** X15. [uid_encode] clamps the preamble to seven bytes, writes the
    preamble, the delimiter and the twelve bytes of the encoded UID,
    then the 16-bit sum of those twelve bytes, each of its two bytes
    once with [0xAA] and once with [0x55] set; it returns the number of
    bytes it wrote and touches no byte after them. *)
Theorem uid_encode_checksum (destination : bytes) (u : rdm_uid_t)
  (preamble_len : Z) :
  0 <= preamble_len ->
  Z.min preamble_len 7 + 17 <= Z.of_nat (List.length destination) ->
  exists m,
    uid_encode destination u preamble_len
    = Some (Z.min preamble_len 7 + 17, m)
    /\ List.length m = List.length destination
    /\ load_range m (Z.min preamble_len 7 + 1) 12 = Some (euid_bytes u)
    /\ load_range m (Z.min preamble_len 7 + 13) 4
       = Some [ Z.lor (Z.shiftr (sum_bytes (euid_bytes u) mod 65536) 8) 170;
                Z.lor (Z.shiftr (sum_bytes (euid_bytes u) mod 65536) 8) 85;
                Z.lor (Z.land (sum_bytes (euid_bytes u) mod 65536) 255) 170;
                Z.lor (Z.land (sum_bytes (euid_bytes u) mod 65536) 255) 85 ]
    /\ forall j, Z.min preamble_len 7 + 17 <= j ->
                 load8 m j = load8 destination j.
Proof.
  intros H0 Hlen. unfold uid_encode.
  assert (Hclamp : (if preamble_len >? 7 then 7 else preamble_len)
                   = Z.min preamble_len 7)
    by (destruct (Z.gtb_spec preamble_len 7); lia).
  rewrite Hclamp. clear Hclamp.
  assert (Hp : 0 <= Z.min preamble_len 7 <= 7) by lia.
  revert Hlen Hp. generalize (Z.min preamble_len 7). intros p Hlen Hp.
  destruct (encode_preamble_spec (Z.to_nat p) destination 0)
    as [m1 [E1 [L1 [P1 _]]]]; try lia.
  rewrite E1. cbn [bind].
  pose proof (encode_preamble_frame _ _ _ _ E1) as F1.
  do 13 store_step.
  match goal with
  | |- context [checksum_loop ?m ?i ?n ?c0] =>
      assert (Ec : checksum_loop m i n c0
                   = Some (sum_bytes (euid_bytes u) mod 65536))
  end.
  { rewrite checksum_loop_sum by (rewrite ?length_upd; lia).
    rewrite Z.add_0_l. do 3 f_equal.
    change 12%nat with (List.length (euid_bytes u)).
    apply firstn_skipn_loads. intros k Hk.
    replace (Z.of_nat (Z.to_nat (p + 1) + k)) with (p + 1 + Z.of_nat k)
      by lia.
    cbn [List.length euid_bytes] in Hk.
    do 12 (destruct k as [| k]; [cbn [Z.of_nat nth euid_bytes]; load_upd;
                                reflexivity |]).
    lia. }
  rewrite Ec. cbn [bind].
  do 4 store_step.
  eexists. split; [f_equal; f_equal; lia |].
  split; [rewrite !length_upd; exact L1 |].
  split; [| split].
  - cbn [load_range]. load_upd. cbn [bind]. load_upd. cbn [bind].
    load_upd. cbn [bind]. load_upd. cbn [bind]. load_upd. cbn [bind].
    load_upd. cbn [bind]. load_upd. cbn [bind]. load_upd. cbn [bind].
    load_upd. cbn [bind]. load_upd. cbn [bind]. load_upd. cbn [bind].
    load_upd. cbn [bind]. reflexivity.
  - cbn [load_range]. load_upd. cbn [bind]. load_upd. cbn [bind].
    load_upd. cbn [bind]. load_upd. cbn [bind]. reflexivity.
  - intros j Hj. load_upd. apply F1. lia.
Qed.

Lemma uid_encode_checksum_witness :
  (0 <= 9 /\ Z.min 9 7 + 17 <= Z.of_nat (List.length (repeat 0 25)))
  /\ exists m,
       uid_encode (repeat 0 25) (mk_uid 23294 305419896) 9
       = Some (Z.min 9 7 + 17, m)
       /\ List.length m = List.length (repeat 0 25)
       /\ load_range m (Z.min 9 7 + 1) 12
          = Some (euid_bytes (mk_uid 23294 305419896))
       /\ load_range m (Z.min 9 7 + 13) 4
          = Some [ Z.lor (Z.shiftr (sum_bytes
                     (euid_bytes (mk_uid 23294 305419896)) mod 65536) 8) 170;
                   Z.lor (Z.shiftr (sum_bytes
                     (euid_bytes (mk_uid 23294 305419896)) mod 65536) 8) 85;
                   Z.lor (Z.land (sum_bytes
                     (euid_bytes (mk_uid 23294 305419896)) mod 65536) 255)
                     170;
                   Z.lor (Z.land (sum_bytes
                     (euid_bytes (mk_uid 23294 305419896)) mod 65536) 255)
                     85 ]
       /\ forall j, Z.min 9 7 + 17 <= j ->
                    load8 m j = load8 (repeat 0 25) j.
Proof.
  split.
  - simpl. lia.
  - apply (uid_encode_checksum (repeat 0 25) (mk_uid 23294 305419896) 9);
      simpl; lia.
Defined.

(** ** More on frame I/O *)

(** X16. [rdm_write] refuses, returning 0 and leaving the port as it
    was, a port number that is out of range, a [pdl] above 231, a [pdl]
    without parameter data, a call with neither a header nor parameter
    data, a port without a driver, and a port that is sending. *)
Theorem rdm_write_rejects (T : rdm_types) (dmx_num : Z)
  (driver : option dmx_driver_t) (header : option rdm_header_t) (pdl : Z)
  (pd : option bytes) :
  DMX_NUM_MAX T <= dmx_num
  \/ 231 < pdl
  \/ (pd = None /\ 0 < pdl)
  \/ (header = None /\ (pd = None \/ pdl <= 0))
  \/ driver = None
  \/ (exists d, driver = Some d /\ is_sending d = true) ->
  rdm_write T dmx_num driver header pdl pd = Some (0, driver).
Proof.
  intros H. unfold rdm_write.
  destruct (Z.ltb_spec dmx_num (DMX_NUM_MAX T)) as [H1 | H1]; cbn [negb];
    [| reflexivity].
  destruct (Z.leb_spec pdl 231) as [H2 | H2]; cbn [andb negb];
    [| reflexivity].
  destruct (is_null pd && (pdl >? 0)) eqn:H3; cbn [negb]; [reflexivity |].
  destruct (negb (is_null header) || negb (is_null pd) && (pdl >? 0)) eqn:H4;
    cbn [negb]; [| reflexivity].
  destruct H as [H | [H | [[Hpd Hpdl] | [[Hh Hpd] | [H | [d [Hd Hs]]]]]]];
    try lia.
  - subst pd. cbn [is_null andb] in H3.
    destruct (Z.gtb_spec pdl 0); [discriminate | lia].
  - subst header. cbn [is_null negb orb] in H4.
    destruct Hpd as [-> | Hpdl]; [discriminate |].
    destruct (Z.gtb_spec pdl 0); [lia |].
    rewrite andb_false_r in H4. discriminate.
  - subst driver. reflexivity.
  - subst driver. rewrite Hs. reflexivity.
Qed.

Lemma rdm_write_rejects_witness :
  (DMX_NUM_MAX spec_types <= 0
   \/ 231 < 232
   \/ (Some (repeat 0 232) = None /\ 0 < 232)
   \/ (Some scenario_header = None
       /\ (Some (repeat 0 232) = None \/ 232 <= 0))
   \/ Some (idle_driver 0) = None
   \/ (exists d, Some (idle_driver 0) = Some d /\ is_sending d = true))
  /\ rdm_write spec_types 0 (Some (idle_driver 0)) (Some scenario_header) 232
       (Some (repeat 0 232))
     = Some (0, Some (idle_driver 0)).
Proof.
  split.
  - right. left. lia.
  - apply (rdm_write_rejects spec_types 0 (Some (idle_driver 0))
             (Some scenario_header) 232 (Some (repeat 0 232))).
    right. left. lia.
Defined.

(** X17. [rdm_write] makes no use of the header: the buffer, the
    transmit size and the value returned are the same for any two
    headers, and the same without a header when there is parameter
    data. *)
Theorem rdm_write_header_unused (T : rdm_types) (dmx_num : Z)
  (driver : option dmx_driver_t) (h1 h2 : rdm_header_t) (pdl : Z)
  (pd : option bytes) :
  rdm_write T dmx_num driver (Some h1) pdl pd
  = rdm_write T dmx_num driver (Some h2) pdl pd
  /\ (pd <> None -> 0 < pdl ->
      rdm_write T dmx_num driver None pdl pd
      = rdm_write T dmx_num driver (Some h1) pdl pd).
Proof.
  split; [apply rdm_write_ignores_header |].
  intros Hpd Hpdl. unfold rdm_write.
  destruct (negb (dmx_num <? DMX_NUM_MAX T)); [reflexivity |].
  destruct (negb ((pdl <=? 231) && negb (is_null pd && (pdl >? 0))));
    [reflexivity |].
  destruct pd as [b |]; [| contradiction].
  replace (pdl >? 0) with true by lia.
  cbn [is_null negb orb andb].
  destruct driver as [d |]; [| reflexivity].
  destruct (is_sending d); [reflexivity |].
  rewrite !pd_emplace_header. reflexivity.
Qed.

(** A header read back from its own object representation. *)
Lemma byte_of_byte (x : Z) : is_byte x -> byte_of x 0 = x.
Proof.
  unfold is_byte. intros H. rewrite byte_of_div by lia.
  change (2 ^ (8 * 0)) with 1. rewrite Z.div_1_r. apply Z.mod_small. lia.
Qed.

Lemma word16_of_bytes (x : Z) :
  0 <= x < 65536 -> Z.lor (byte_of x 0) (Z.shiftl (byte_of x 1) 8) = x.
Proof.
  intros H. rewrite word16_add by (apply byte_of_is_byte; lia).
  rewrite !byte_of_div by lia.
  change (2 ^ (8 * 0)) with 1. change (2 ^ (8 * 1)) with 256.
  Z.div_mod_to_equations. lia.
Qed.

Lemma word32_of_bytes (x : Z) :
  0 <= x < 4294967296 ->
  Z.lor (byte_of x 0)
    (Z.lor (Z.shiftl (byte_of x 1) 8)
       (Z.lor (Z.shiftl (byte_of x 2) 16) (Z.shiftl (byte_of x 3) 24)))
  = x.
Proof.
  intros H. rewrite word32_add by (apply byte_of_is_byte; lia).
  rewrite !byte_of_div by lia.
  change (2 ^ (8 * 0)) with 1. change (2 ^ (8 * 1)) with 256.
  change (2 ^ (8 * 2)) with 65536. change (2 ^ (8 * 3)) with 16777216.
  Z.div_mod_to_equations. lia.
Qed.

Lemma header_of_image_image (h : rdm_header_t) :
  header_in_range h -> header_of_image (header_image h) = Some h.
Proof.
  destruct h as [a b c [d1 d2] [e1 e2] f g i j k l m].
  unfold header_in_range, uid_in_range.
  cbn [start_code sub_start_code message_len dest_uid src_uid tn port_id
       message_count sub_device cc pid pdl man_id dev_id].
  intros [Ha [Hb [Hc [[Hd1 Hd2] [[He1 He2] [Hf [Hg [Hi [Hj [Hk [Hl Hm]]]]]]]]]]].
  cbv -[byte_of Z.lor Z.shiftl].
  rewrite !word32_of_bytes by assumption.
  rewrite !word16_of_bytes by assumption.
  rewrite !byte_of_byte by assumption.
  reflexivity.
Qed.

(** [memmove] between any two offsets of two blocks. *)
Lemma memmove_splice_at (dst src : bytes) (i j len : nat) :
  (j + len <= List.length src)%nat -> (i + len <= List.length dst)%nat ->
  memmove dst (Z.of_nat i) src (Z.of_nat j) (Z.of_nat len)
  = Some (firstn i dst ++ firstn len (skipn j src) ++ skipn (i + len) dst).
Proof.
  intros Hs Hd. unfold memmove. rewrite Nat2Z.id.
  rewrite load_range_splice by lia. cbn [bind].
  assert (Hl : List.length (firstn len (skipn j src)) = len)
    by (rewrite firstn_length_le; [lia | rewrite length_skipn; lia]).
  rewrite store_range_splice by lia. rewrite Hl. reflexivity.
Qed.

(** X18. On a buffer that starts with the start code and the sub-start
    code and whose checksum over the first [MSG_LEN] bytes is the one
    stored behind them, [rdm_read] returns [MSG_LEN + 2], copies to
    [pd] as many bytes from offset 25 as [*pdl] allows and the byte at
    offset 24 announces, stores that number in [*pdl], and leaves the
    header of the caller as it was. *)
Theorem rdm_read_accepts (T : rdm_types) (dmx_num : Z) (d : dmx_driver_t)
  (header : option rdm_header_t) (pdl : option Z) (pd : option bytes) :
  dmx_num < DMX_NUM_MAX T ->
  List.length (data_buffer d) = 513%nat ->
  Forall is_byte (data_buffer d) ->
  byte_at (data_buffer d) 0 = 204 ->
  byte_at (data_buffer d) 1 = 1 ->
  frame_checksum (data_buffer d) = stored_checksum (data_buffer d) ->
  (forall h, header = Some h -> header_in_range h) ->
  let cpy_size :=
    match pdl with
    | None => byte_at (data_buffer d) 24
    | Some v => Z.min v (byte_at (data_buffer d) 24)
    end in
  0 <= cpy_size ->
  (forall block, pd = Some block ->
                 cpy_size <= Z.of_nat (List.length block)) ->
  rdm_read T dmx_num (Some d) header pdl pd
  = Some (byte_at (data_buffer d) 2 + 2, header,
          match pdl with
          | None => None
          | Some _ => Some cpy_size
          end,
          match pd with
          | None => None
          | Some block =>
              Some (firstn (Z.to_nat cpy_size) (skipn 25 (data_buffer d))
                    ++ skipn (Z.to_nat cpy_size) block)
          end).
Proof.
  intros Hnum Hlen Hbytes Hsc Hsub Hsum Hh cpy_size Hcpy Hpd.
  unfold rdm_read.
  assert (E1 : (dmx_num <? DMX_NUM_MAX T) = true) by lia.
  rewrite E1. cbn [negb].
  pose proof (byte_at_is_byte _ 0 Hbytes ltac:(lia)) as B0.
  pose proof (byte_at_is_byte _ 1 Hbytes ltac:(lia)) as B1.
  pose proof (byte_at_is_byte _ 2 Hbytes ltac:(lia)) as B2.
  pose proof (byte_at_is_byte _ 24 Hbytes ltac:(lia)) as B24.
  unfold load16 at 1. rewrite !load8_byte_at by lia. cbn [bind].
  change (0 + 1) with 1. rewrite Hsc, Hsub.
  change (negb (Z.lor 204 (Z.shiftl 1 8)
                =? Z.lor RDM_SC (Z.shiftl RDM_SUB_SC 8))) with false.
  cbv iota.
  unfold is_byte in B2, B24.
  rewrite checksum_loop_sum by lia. cbn [bind].
  unfold load16. rewrite !load8_byte_at by lia. cbn [bind].
  pose proof (byte_at_is_byte _ (byte_at (data_buffer d) 2) Hbytes
                ltac:(lia)) as C0.
  pose proof (byte_at_is_byte _ (byte_at (data_buffer d) 2 + 1) Hbytes
                ltac:(lia)) as C1.
  rewrite word16_add by exact C0.
  rewrite bswap16_add.
  destruct (byte_of_word16 _ _ C0 C1) as [F0 F1]. rewrite F0, F1.
  change (skipn (Z.to_nat 0) (data_buffer d)) with (data_buffer d).
  rewrite Z.add_0_l.
  fold (frame_checksum (data_buffer d)).
  fold (stored_checksum (data_buffer d)).
  rewrite Hsum, Z.eqb_refl. cbn [negb].
  assert (Eh : match header with
               | Some h =>
                   '(_, image) <-
                      pd_emplace (header_image h) sizeof_header header_format
                        (data_buffer d) 513 true ;;
                   h' <- header_of_image image ;; Some (Some h')
               | None => Some None
               end = Some header).
  { destruct header as [h |]; [| reflexivity].
    rewrite pd_emplace_header. cbn [bind].
    rewrite header_of_image_image by (apply Hh; reflexivity).
    reflexivity. }
  rewrite Eh. cbn [bind].
  assert (Ecpy : match pdl with
                 | Some v =>
                     if v >? byte_at (data_buffer d) 24
                     then byte_at (data_buffer d) 24
                     else v
                 | None => byte_at (data_buffer d) 24
                 end = cpy_size).
  { subst cpy_size. destruct pdl as [v |]; [| reflexivity].
    destruct (Z.gtb_spec v (byte_at (data_buffer d) 24)); lia. }
  rewrite Ecpy.
  assert (Hmax : cpy_size <= 255).
  { subst cpy_size. destruct pdl as [v |]; lia. }
  destruct pd as [block |]; [| reflexivity].
  specialize (Hpd block eq_refl). unfold memcpy.
  replace cpy_size with (Z.of_nat (Z.to_nat cpy_size)) at 1 by lia.
  rewrite (memmove_splice_at block (data_buffer d) 0 25) by lia.
  cbn [bind firstn app Nat.add]. reflexivity.
Qed.

Lemma rdm_read_accepts_witness :
  (0 < DMX_NUM_MAX spec_types
   /\ List.length framed_buffer = 513%nat
   /\ Forall is_byte framed_buffer
   /\ byte_at framed_buffer 0 = 204
   /\ byte_at framed_buffer 1 = 1
   /\ frame_checksum framed_buffer = stored_checksum framed_buffer
   /\ (forall h, Some scenario_header = Some h -> header_in_range h)
   /\ 0 <= Z.min 9 (byte_at framed_buffer 24)
   /\ (forall block, Some [7; 7; 7; 7] = Some block ->
         Z.min 9 (byte_at framed_buffer 24)
         <= Z.of_nat (List.length block)))
  /\ rdm_read spec_types 0 (Some (set_buffer (idle_driver 0) framed_buffer))
       (Some scenario_header) (Some 9) (Some [7; 7; 7; 7])
     = Some (29, Some scenario_header, Some 2, Some [5; 6; 7; 7]).
Proof.
  assert (Hbytes : Forall is_byte framed_buffer).
  { unfold framed_buffer. repeat (apply Forall_app; split);
      try (apply Forall_forall; intros x Hx; apply repeat_spec in Hx;
           subst x; unfold is_byte; lia);
      repeat constructor; unfold is_byte; lia. }
  assert (Hh : forall h, Some scenario_header = Some h -> header_in_range h).
  { intros h E. inversion E. subst h.
    unfold header_in_range, uid_in_range, is_byte. cbn. lia. }
  assert (Hpd : forall block, Some [7; 7; 7; 7] = Some block ->
                  Z.min 9 (byte_at framed_buffer 24)
                  <= Z.of_nat (List.length block)).
  { intros block E. inversion E. subst block. vm_compute. discriminate. }
  split.
  - split; [reflexivity |]. split; [reflexivity |].
    split; [exact Hbytes |]. split; [reflexivity |].
    split; [reflexivity |]. split; [reflexivity |].
    split; [exact Hh |]. split; [vm_compute; discriminate | exact Hpd].
  - apply (rdm_read_accepts spec_types 0
             (set_buffer (idle_driver 0) framed_buffer)
             (Some scenario_header) (Some 9) (Some [7; 7; 7; 7]));
      try reflexivity; try assumption; vm_compute; discriminate.
Defined.

Lemma firstn_upd_ge (m : bytes) :
  forall (n i : nat) (v : Z), (n <= i)%nat -> firstn n (upd m i v) = firstn n m.
Proof.
  induction m as [| x m IH]; intros n i v H.
  - destruct i; reflexivity.
  - destruct i as [| i]; [assert (n = 0%nat) by lia; subst n; reflexivity |].
    destruct n as [| n]; [reflexivity |].
    cbn [upd firstn]. f_equal. apply IH. lia.
Qed.

Lemma bswap16_stored (c : Z) :
  0 <= c < 65536 ->
  bswap16 (Z.lor (byte_of (bswap16 c) 0) (Z.shiftl (byte_of (bswap16 c) 1) 8))
  = c.
Proof.
  intros H.
  pose proof (byte_of_is_byte c 0 ltac:(lia)) as B0.
  pose proof (byte_of_is_byte c 1 ltac:(lia)) as B1.
  rewrite (bswap16_add c).
  replace (256 * byte_of c 0 + byte_of c 1)
    with (byte_of c 1 + 256 * byte_of c 0) by lia.
  destruct (byte_of_word16 _ _ B1 B0) as [E0 E1]. rewrite E0, E1.
  rewrite word16_add by exact B1. rewrite bswap16_add.
  destruct (byte_of_word16 _ _ B1 B0) as [F0 F1]. rewrite F0, F1.
  rewrite !byte_of_div by lia.
  change (2 ^ (8 * 0)) with 1. change (2 ^ (8 * 1)) with 256.
  Z.div_mod_to_equations. lia.
Qed.

Lemma sum_firstn_two (m : bytes) (n : nat) (x0 x1 : Z) :
  load8 m 0 = Some x0 -> load8 m 1 = Some x1 ->
  sum_bytes (firstn (S (S n)) m)
  = x0 + x1 + sum_bytes (firstn n (skipn 2 m)).
Proof.
  intros H0 H1. destruct m as [| y0 [| y1 m]]; try discriminate.
  cbv in H0, H1. inversion H0. inversion H1. subst.
  unfold sum_bytes. cbn [firstn skipn fold_right]. lia.
Qed.

(** X19. Write, then read, on a buffer that holds the start of a frame:
    when the buffer starts with the start code and the sub-start code
    and the length that [rdm_write] leaves at offset 2 is at least 3,
    [rdm_write] returns that length plus 2, makes it the transmit size
    of the port and sets RTS to outbound, and the checksum that it
    stores is the one that [rdm_read] computes: [rdm_read] accepts the
    buffer and returns the same size. *)
Theorem rdm_write_then_read (T : rdm_types) (dmx_num : Z) (d : dmx_driver_t)
  (header : option rdm_header_t) (pdl : Z) (pd : option bytes) :
  dmx_num < DMX_NUM_MAX T ->
  List.length (data_buffer d) = 513%nat ->
  is_sending d = false ->
  0 <= pdl <= 231 ->
  (pd = None -> pdl = 0) ->
  (forall block, pd = Some block -> pdl <= Z.of_nat (List.length block)) ->
  header <> None \/ (pd <> None /\ 0 < pdl) ->
  byte_at (data_buffer d) 0 = 204 ->
  byte_at (data_buffer d) 1 = 1 ->
  let len := u8 (byte_at (data_buffer d) 2 + pdl) in
  3 <= len ->
  exists d',
    rdm_write T dmx_num (Some d) header pdl pd = Some (len + 2, Some d')
    /\ data_tx_size d' = len + 2
    /\ uart_rts d' = (if uart_rts d =? 1 then 0 else uart_rts d)
    /\ rdm_read T dmx_num (Some d') None None None
       = Some (len + 2, None, None, None).
Proof.
  intros Hnum Hlen Hsend Hpdl Hnone Hpd Hany Hsc Hsub len Hlen3.
  assert (Hu8 : 0 <= len < 256) by (apply Z.mod_pos_bound; lia).
  unfold rdm_write.
  assert (E1 : (dmx_num <? DMX_NUM_MAX T) = true) by lia.
  rewrite E1. cbn [negb].
  assert (E2 : negb ((pdl <=? 231) && negb (is_null pd && (pdl >? 0)))
               = false).
  { destruct pd as [b |]; cbn [is_null andb negb].
    - rewrite andb_true_r. apply negb_false_iff. lia.
    - specialize (Hnone eq_refl). subst pdl. reflexivity. }
  rewrite E2.
  assert (E3 : negb (negb (is_null header)
                     || negb (is_null pd) && (pdl >? 0)) = false).
  { destruct Hany as [Hh | [Hp Hpos]].
    - destruct header; [reflexivity | contradiction].
    - destruct pd; [| contradiction]. cbn [is_null negb andb].
      replace (pdl >? 0) with true by lia. rewrite orb_true_r.
      reflexivity. }
  rewrite E3. rewrite Hsend.
  rewrite pd_emplace_header. cbn [bind].
  set (drv := if dmx_uart_get_rts d =? 1 then dmx_uart_set_rts d 0 else d).
  assert (Hbuf : data_buffer drv = data_buffer d)
    by (subst drv; destruct (dmx_uart_get_rts d =? 1); reflexivity).
  assert (Hrts : uart_rts drv = if uart_rts d =? 1 then 0 else uart_rts d).
  { subst drv. unfold dmx_uart_get_rts.
    destruct (uart_rts d =? 1); reflexivity. }
  rewrite Hbuf.
  destruct (memmove_Some (data_buffer d)
              match pd with
              | Some b => b
              | None => []
              end 25 0 pdl) as [m1 [Em1 [L1 K1]]]; try lia.
  { destruct pd as [b |].
    - specialize (Hpd b eq_refl). lia.
    - specialize (Hnone eq_refl). simpl. lia. }
  unfold memcpy. rewrite Em1. cbn [bind].
  rewrite (K1 2) by lia. rewrite (load8_byte_at (data_buffer d) 2) by lia.
  cbn [bind]. fold len.
  do 2 store_step.
  rewrite load8_upd_neq by lia.
  rewrite load8_upd_eq by lia. cbn [bind].
  set (mA := upd (upd m1 (Z.to_nat 2) len) (Z.to_nat 24) pdl).
  assert (LA : List.length mA = 513%nat)
    by (subst mA; rewrite !length_upd; lia).
  assert (A0 : load8 mA 0 = Some 204).
  { subst mA. rewrite !load8_upd_neq by lia. rewrite K1 by lia.
    rewrite load8_byte_at by lia. rewrite Hsc. reflexivity. }
  assert (A1 : load8 mA 1 = Some 1).
  { subst mA. rewrite !load8_upd_neq by lia. rewrite K1 by lia.
    rewrite load8_byte_at by lia. rewrite Hsub. reflexivity. }
  assert (A2 : load8 mA 2 = Some len).
  { subst mA. rewrite load8_upd_neq by lia.
    rewrite load8_upd_eq by lia. reflexivity. }
  rewrite checksum_loop_sum by (try (change (RDM_SC + RDM_SUB_SC) with 205);
                                lia).
  cbn [bind].
  change (RDM_SC + RDM_SUB_SC) with 205.
  set (c := (205 + sum_bytes (firstn (Z.to_nat (len - 2))
                                (skipn (Z.to_nat 2) mA))) mod 65536).
  assert (Hc : 0 <= c < 65536) by (apply Z.mod_pos_bound; lia).
  unfold store16. do 2 store_step.
  set (mB := upd (upd mA (Z.to_nat len) (byte_of (bswap16 c) 0))
               (Z.to_nat (len + 1)) (byte_of (bswap16 c) 1)).
  assert (LB : List.length mB = 513%nat)
    by (subst mB; rewrite !length_upd; lia).
  assert (B2 : load8 mB 2 = Some len).
  { subst mB. rewrite !load8_upd_neq by lia. exact A2. }
  rewrite B2. cbn [bind].
  eexists. split; [reflexivity |].
  split; [reflexivity |].
  split; [exact Hrts |].
  unfold rdm_read. rewrite E1. cbn [negb data_buffer set_tx_size set_buffer].
  assert (B0 : load8 mB 0 = Some 204).
  { subst mB. rewrite !load8_upd_neq by lia. exact A0. }
  assert (B1 : load8 mB 1 = Some 1).
  { subst mB. rewrite !load8_upd_neq by lia. exact A1. }
  unfold load16 at 1. change (0 + 1) with 1. rewrite B0, B1. cbn [bind].
  change (negb (Z.lor 204 (Z.shiftl 1 8)
                =? Z.lor RDM_SC (Z.shiftl RDM_SUB_SC 8))) with false.
  cbv iota. rewrite B2. cbn [bind].
  rewrite checksum_loop_sum by lia. cbn [bind].
  unfold load16.
  assert (BL : load8 mB len = Some (byte_of (bswap16 c) 0)).
  { subst mB. rewrite load8_upd_neq by lia.
    rewrite load8_upd_eq by (rewrite ?length_upd; lia). reflexivity. }
  assert (BL1 : load8 mB (len + 1) = Some (byte_of (bswap16 c) 1)).
  { subst mB. rewrite load8_upd_eq by (rewrite ?length_upd; lia).
    reflexivity. }
  rewrite BL, BL1. cbn [bind].
  rewrite bswap16_stored by exact Hc.
  assert (Esum : (0 + sum_bytes (firstn (Z.to_nat len)
                                   (skipn (Z.to_nat 0) mB))) mod 65536 = c).
  { subst c. f_equal. change (skipn (Z.to_nat 0) mB) with mB.
    subst mB. rewrite !firstn_upd_ge by lia.
    replace (Z.to_nat len) with (S (S (Z.to_nat (len - 2)))) by lia.
    rewrite (sum_firstn_two mA _ 204 1 A0 A1).
    change (Z.to_nat 2) with 2%nat. lia. }
  rewrite Esum, Z.eqb_refl. cbn [negb bind].
  rewrite (load8_nth mB 24) by lia. cbn [bind]. reflexivity.
Qed.

Lemma rdm_write_then_read_witness :
  (0 < DMX_NUM_MAX spec_types
   /\ List.length (data_buffer preloaded_driver) = 513%nat
   /\ is_sending preloaded_driver = false
   /\ 0 <= 2 <= 231
   /\ (Some [0; 5] = None -> 2 = 0)
   /\ (forall block, Some [0; 5] = Some block ->
                     2 <= Z.of_nat (List.length block))
   /\ (Some scenario_header <> None \/ (Some [0; 5] <> None /\ 0 < 2))
   /\ byte_at (data_buffer preloaded_driver) 0 = 204
   /\ byte_at (data_buffer preloaded_driver) 1 = 1
   /\ 3 <= u8 (byte_at (data_buffer preloaded_driver) 2 + 2))
  /\ exists d',
       rdm_write spec_types 0 (Some preloaded_driver) (Some scenario_header)
         2 (Some [0; 5])
       = Some (u8 (byte_at (data_buffer preloaded_driver) 2 + 2) + 2,
               Some d')
       /\ data_tx_size d'
          = u8 (byte_at (data_buffer preloaded_driver) 2 + 2) + 2
       /\ uart_rts d'
          = (if uart_rts preloaded_driver =? 1 then 0
             else uart_rts preloaded_driver)
       /\ rdm_read spec_types 0 (Some d') None None None
          = Some (u8 (byte_at (data_buffer preloaded_driver) 2 + 2) + 2,
                  None, None, None).
Proof.
  assert (H5 : Some [0; 5] = None -> 2 = 0) by discriminate.
  assert (H6 : forall block, Some [0; 5] = Some block ->
                             2 <= Z.of_nat (List.length block)).
  { intros block E. inversion E. simpl. lia. }
  assert (H7 : Some scenario_header <> None
               \/ (Some [0; 5] <> None /\ 0 < 2))
    by (left; discriminate).
  assert (H10 : 3 <= u8 (byte_at (data_buffer preloaded_driver) 2 + 2))
    by (vm_compute; discriminate).
  split.
  - split; [reflexivity |]. split; [reflexivity |]. split; [reflexivity |].
    split; [lia |]. split; [exact H5 |]. split; [exact H6 |].
    split; [exact H7 |]. split; [reflexivity |]. split; [reflexivity |].
    exact H10.
  - apply (rdm_write_then_read spec_types 0 preloaded_driver
             (Some scenario_header) 2 (Some [0; 5]));
      try reflexivity; try lia; assumption.
Defined.

(** ** More on the transaction engine *)

(** X20. When the bus reports an error for the response, [rdm_request]
    returns the size that [dmx_receive] returned, stores the error in
    the ack with the type [INVALID] and [num = 0], and reads nothing:
    [*pdl_out] and [pd_out] stay as they were.  The header keeps the
    values of the request: the port number and the UID of the port
    where the caller left them 0, the transaction number of the port,
    and no message count. *)
Theorem rdm_request_receive_error (T : rdm_types) (HAL : dmx_hal)
  (dmx_num : Z) (d : dmx_driver_t) (h : rdm_header_t) (pdl_in : Z)
  (pd_in : option bytes) (pdl_out : option Z) (pd_out : option bytes)
  (ack : option rdm_ack_t) :
  dmx_num < DMX_NUM_MAX T ->
  request_preconditions T (Some h) pdl_in pd_in pdl_out pd_out ->
  List.length (data_buffer d) = 513%nat ->
  0 <= pdl_in ->
  (forall b, pd_in = Some b -> pdl_in <= Z.of_nat (List.length b)) ->
  dev_id (dest_uid h) <> 4294967295
  \/ (pid h = RDM_PID_DISC_UNIQUE_BRANCH T /\ cc h = RDM_CC_DISC_COMMAND) ->
  (forall d1, snd (dmx_receive HAL dmx_num 2 d1) <> 0) ->
  exists n d' h' d2 size err,
    rdm_write T dmx_num (Some d) (Some h') pdl_in pd_in = Some (n, Some d')
    /\ dmx_receive HAL dmx_num 2 (dmx_send HAL dmx_num n d') = (d2, size, err)
    /\ h' = mk_header (start_code h) (sub_start_code h) (message_len h)
              (dest_uid h)
              (if uid_is_null (src_uid h)
               then rdm_driver_get_uid HAL dmx_num d
               else src_uid h)
              (rdm_tn d)
              (if port_id h =? 0 then u8 (dmx_num + 1) else port_id h)
              0 (sub_device h) (cc h) (pid h) (pdl h)
    /\ rdm_request T HAL dmx_num (Some d) (Some h) pdl_in pd_in pdl_out
         pd_out ack
       = Some (mk_result size (Some d2) (Some h') pdl_out pd_out
                 match ack with
                 | Some _ => Some (mk_ack err (RDM_RESPONSE_TYPE_INVALID T) 0)
                 | None => None
                 end
                 [CallSend n (firstn (Z.to_nat n) (data_buffer d'));
                  CallReceive 2]).
Proof.
  intros Hnum Hpre Hlen Hpdl Hpd Hexp Herr.
  apply request_preconditions_iff in Hpre. destruct Hpre as [C1 [C2 C3]].
  apply response_expected_iff in Hexp.
  unfold rdm_request.
  replace (dmx_num <? DMX_NUM_MAX T) with true
    by (symmetry; apply Z.ltb_lt; lia).
  rewrite C1, C2, C3. cbn [negb]. cbv zeta.
  set (h' := set_tn_count _ (rdm_tn d) 0).
  assert (Hexp' : response_expected T h' = true).
  { rewrite <- Hexp. subst h'. unfold response_expected.
    destruct (port_id h =? 0);
      match goal with
      | |- context [if ?b then _ else _] => destruct b
      end; reflexivity. }
  assert (Hh' : h' = mk_header (start_code h) (sub_start_code h)
                       (message_len h) (dest_uid h)
                       (if uid_is_null (src_uid h)
                        then rdm_driver_get_uid HAL dmx_num d
                        else src_uid h)
                       (rdm_tn d)
                       (if port_id h =? 0 then u8 (dmx_num + 1)
                        else port_id h)
                       0 (sub_device h) (cc h) (pid h) (pdl h)).
  { subst h'. destruct (port_id h =? 0);
      cbn [set_port_id src_uid];
      destruct (uid_is_null (src_uid h)); reflexivity. }
  destruct (rdm_write_total T dmx_num d (Some h') pdl_in pd_in Hlen Hpdl Hpd)
    as [n [d' Ew]].
  rewrite Ew. cbn [bind]. rewrite Hexp'.
  specialize (Herr (dmx_send HAL dmx_num n d')).
  destruct (dmx_receive HAL dmx_num 2 (dmx_send HAL dmx_num n d'))
    as [[d2 size] err] eqn:Er.
  cbn [snd] in Herr.
  replace (err =? 0) with false by (symmetry; apply Z.eqb_neq; exact Herr).
  cbn [negb].
  exists n, d', h', d2, size, err.
  split; [exact Ew |]. split; [exact Er |]. split; [exact Hh' |].
  destruct ack; reflexivity.
Qed.

Lemma rdm_request_receive_error_witness :
  (0 < DMX_NUM_MAX spec_types
   /\ request_preconditions spec_types (Some scenario_header) 0 None None
        None
   /\ List.length (data_buffer (idle_driver 5)) = 513%nat
   /\ 0 <= 0
   /\ (forall b, @None bytes = Some b -> 0 <= Z.of_nat (List.length b))
   /\ (dev_id (dest_uid scenario_header) <> 4294967295
       \/ (pid scenario_header = RDM_PID_DISC_UNIQUE_BRANCH spec_types
           /\ cc scenario_header = RDM_CC_DISC_COMMAND))
   /\ (forall d1, snd (dmx_receive (silent_bus (mk_uid 3 4)) 0 2 d1) <> 0))
  /\ exists n d' h' d2 size err,
       rdm_write spec_types 0 (Some (idle_driver 5)) (Some h') 0 None
       = Some (n, Some d')
       /\ dmx_receive (silent_bus (mk_uid 3 4)) 0 2
            (dmx_send (silent_bus (mk_uid 3 4)) 0 n d')
          = (d2, size, err)
       /\ h' = mk_header (start_code scenario_header)
                 (sub_start_code scenario_header)
                 (message_len scenario_header) (dest_uid scenario_header)
                 (if uid_is_null (src_uid scenario_header)
                  then rdm_driver_get_uid (silent_bus (mk_uid 3 4)) 0
                         (idle_driver 5)
                  else src_uid scenario_header)
                 (rdm_tn (idle_driver 5))
                 (if port_id scenario_header =? 0 then u8 (0 + 1)
                  else port_id scenario_header)
                 0 (sub_device scenario_header) (cc scenario_header)
                 (pid scenario_header) (pdl scenario_header)
       /\ rdm_request spec_types (silent_bus (mk_uid 3 4)) 0
            (Some (idle_driver 5)) (Some scenario_header) 0 None None None
            (Some (mk_ack 7 7 7))
          = Some (mk_result size (Some d2) (Some h') None None
                    (Some (mk_ack err (RDM_RESPONSE_TYPE_INVALID spec_types)
                             0))
                    [CallSend n (firstn (Z.to_nat n) (data_buffer d'));
                     CallReceive 2]).
Proof.
  assert (H1 : 0 < DMX_NUM_MAX spec_types) by reflexivity.
  assert (H2 : request_preconditions spec_types (Some scenario_header) 0
                 None None None).
  { exists scenario_header. split; [reflexivity |].
    split; [right; reflexivity |]. split; [right; left; reflexivity |].
    split; [simpl; lia |]. split; [simpl; lia |].
    split; [right; left; reflexivity |]. left. simpl. lia. }
  assert (H3 : List.length (data_buffer (idle_driver 5)) = 513%nat)
    by reflexivity.
  assert (H4 : 0 <= 0) by lia.
  assert (H5 : forall b, @None bytes = Some b ->
                         0 <= Z.of_nat (List.length b))
    by (intros b E; discriminate E).
  assert (H6 : dev_id (dest_uid scenario_header) <> 4294967295
               \/ (pid scenario_header
                   = RDM_PID_DISC_UNIQUE_BRANCH spec_types
                   /\ cc scenario_header = RDM_CC_DISC_COMMAND))
    by (left; discriminate).
  assert (H7 : forall d1,
             snd (dmx_receive (silent_bus (mk_uid 3 4)) 0 2 d1) <> 0)
    by (intros d1; discriminate).
  split; [auto 10 |].
  apply (rdm_request_receive_error spec_types (silent_bus (mk_uid 3 4)) 0
           (idle_driver 5) scenario_header 0 None None None
           (Some (mk_ack 7 7 7)) H1 H2 H3 H4 H5 H6 H7).
Defined.

(** [uid_decode] of what [uid_encode] wrote, with room to spare. *)
Lemma uid_decode_of_encode (destination m : bytes) (u uid0 : rdm_uid_t)
  (p size : Z) :
  0 <= p <= 7 -> uid_in_range u ->
  p + 17 <= Z.of_nat (List.length destination) -> p + 17 <= size ->
  uid_encode destination u p = Some (p + 17, m) ->
  uid_decode uid0 m size = Some (p + 17, u).
Proof.
  intros Hp [Hman Hdev] Hlen Hsize Eenc.
  destruct (uid_encode_spec destination u p Hp Hlen)
    as [m' [E [L [Hpre [Hdel Henc]]]]].
  rewrite Eenc in E. inversion E; subst m'. clear E.
  rewrite (uid_decode_accepts m (euid_bytes u) size p uid0);
    try assumption; try lia; try reflexivity.
  - cbn [euid_bytes pair_and]. rewrite !land_lor_euid.
    rewrite uidcpy_from_wire by (apply byte_of_is_byte; lia).
    f_equal. f_equal. destruct u as [man dev]. cbn [man_id dev_id] in *.
    rewrite !byte_of_div by lia.
    change (2 ^ (8 * 0)) with 1. change (2 ^ (8 * 1)) with 256.
    change (2 ^ (8 * 2)) with 65536. change (2 ^ (8 * 3)) with 16777216.
    f_equal; Z.div_mod_to_equations; lia.
  - intros j Hj. exists RDM_PREAMBLE. split; [apply Hpre; exact Hj |].
    discriminate.
Qed.

(** X21. A discovery: when the request is a [DISC_UNIQUE_BRANCH] and
    the bus delivers without error the discovery response that
    [uid_encode] makes for the UID [u], [rdm_request] reads at most 24
    bytes of it, returns the size of the response, acknowledges with
    [ACK] and [num = 0], and leaves in the header a response that it
    makes up: the source is [u], the destination the null UID, the
    command class [DISC_COMMAND_RESPONSE]. *)
Theorem rdm_request_discovery (T : rdm_types) (HAL : dmx_hal)
  (dmx_num : Z) (d : dmx_driver_t) (h : rdm_header_t) (pdl_in : Z)
  (pd_in : option bytes) (pdl_out : option Z) (pd_out : option bytes)
  (ack : option rdm_ack_t) (u : rdm_uid_t) (p size : Z) (euid : bytes) :
  dmx_num < DMX_NUM_MAX T ->
  request_preconditions T (Some h) pdl_in pd_in pdl_out pd_out ->
  List.length (data_buffer d) = 513%nat ->
  0 <= pdl_in ->
  (forall b, pd_in = Some b -> pdl_in <= Z.of_nat (List.length b)) ->
  pid h = RDM_PID_DISC_UNIQUE_BRANCH T ->
  cc h = RDM_CC_DISC_COMMAND ->
  0 <= p <= 7 -> uid_in_range u ->
  uid_encode (repeat 0 24) u p = Some (p + 17, euid) ->
  p + 17 <= size ->
  (forall d1, exists d2,
     dmx_receive HAL dmx_num 2 d1 = (d2, size, 0)
     /\ dmx_read HAL dmx_num (repeat 0 24) (Z.min size 24) d2 = euid) ->
  exists n d' d2,
    rdm_request T HAL dmx_num (Some d) (Some h) pdl_in pd_in pdl_out pd_out
      ack
    = Some (mk_result (p + 17) (Some d2)
              (Some (mk_header (start_code h) (sub_start_code h)
                       (message_len h) RDM_UID_NULL u 0
                       (u8 (RDM_RESPONSE_TYPE_ACK T)) 0
                       (u16 (RDM_SUB_DEVICE_ROOT T))
                       RDM_CC_DISC_COMMAND_RESPONSE
                       (u16 (RDM_PID_DISC_UNIQUE_BRANCH T)) (pdl h)))
              pdl_out pd_out
              match ack with
              | Some _ => Some (mk_ack 0 (RDM_RESPONSE_TYPE_ACK T) 0)
              | None => None
              end
              [CallSend n (firstn (Z.to_nat n) (data_buffer d'));
               CallReceive 2; CallRead (Z.min size 24)]).
Proof.
  intros Hnum Hpre Hlen Hpdl Hpd Hpid Hcc Hp Hu Eenc Hsize Hrecv.
  apply request_preconditions_iff in Hpre. destruct Hpre as [C1 [C2 C3]].
  unfold rdm_request.
  replace (dmx_num <? DMX_NUM_MAX T) with true
    by (symmetry; apply Z.ltb_lt; lia).
  rewrite C1, C2, C3. cbn [negb]. cbv zeta.
  set (h' := set_tn_count _ (rdm_tn d) 0).
  assert (Hf : pid h' = pid h /\ cc h' = cc h
               /\ start_code h' = start_code h
               /\ sub_start_code h' = sub_start_code h
               /\ message_len h' = message_len h /\ pdl h' = pdl h).
  { subst h'. destruct (port_id h =? 0);
      match goal with
      | |- context [if ?b then _ else _] => destruct b
      end; repeat split. }
  destruct Hf as [Hpid' [Hcc' [Hs1 [Hs2 [Hs3 Hs4]]]]].
  assert (Hexp' : response_expected T h' = true).
  { unfold response_expected. rewrite Hpid', Hcc', Hpid, Hcc.
    rewrite !Z.eqb_refl. apply orb_true_r. }
  destruct (rdm_write_total T dmx_num d (Some h') pdl_in pd_in Hlen Hpdl Hpd)
    as [n [d' Ew]].
  rewrite Ew. cbn [bind]. rewrite Hexp'.
  destruct (Hrecv (dmx_send HAL dmx_num n d')) as [d2 [Er Hread]].
  rewrite Er. cbn [negb]. change (0 =? 0) with true. cbn [negb].
  rewrite Hpid', Hpid, Z.eqb_refl. cbn [negb].
  assert (Emin : (if size >? 24 then 24 else size) = Z.min size 24)
    by (destruct (Z.gtb_spec size 24); lia).
  rewrite Emin. rewrite Hread.
  rewrite (uid_decode_of_encode (repeat 0 24) euid u RDM_UID_NULL p
             (Z.min size 24) Hp Hu)
    by (try exact Eenc; rewrite ?repeat_length; lia).
  cbn [bind].
  assert (Ez : (p + 17 =? 0) = false) by lia. rewrite Ez.
  rewrite Hs1, Hs2, Hs3, Hs4.
  exists n, d', d2. destruct ack; reflexivity.
Qed.

Lemma rdm_request_discovery_witness :
  (0 < DMX_NUM_MAX spec_types
   /\ request_preconditions spec_types (Some discovery_header) 12
        (Some (repeat 0 12)) None None
   /\ List.length (data_buffer (idle_driver 5)) = 513%nat
   /\ 0 <= 12
   /\ (forall b, Some (repeat 0 12) = Some b ->
                 12 <= Z.of_nat (List.length b))
   /\ pid discovery_header = RDM_PID_DISC_UNIQUE_BRANCH spec_types
   /\ cc discovery_header = RDM_CC_DISC_COMMAND
   /\ 0 <= 7 <= 7
   /\ uid_in_range (mk_uid 23294 305419896)
   /\ uid_encode (repeat 0 24) (mk_uid 23294 305419896) 7
      = Some (7 + 17, discovery_response)
   /\ 7 + 17 <= 24
   /\ (forall d1, exists d2,
         dmx_receive (answering_bus (mk_uid 3 4) discovery_response) 0 2 d1
         = (d2, 24, 0)
         /\ dmx_read (answering_bus (mk_uid 3 4) discovery_response) 0
              (repeat 0 24) (Z.min 24 24) d2
            = discovery_response))
  /\ exists n d' d2,
       rdm_request spec_types
         (answering_bus (mk_uid 3 4) discovery_response) 0
         (Some (idle_driver 5)) (Some discovery_header) 12
         (Some (repeat 0 12)) None None (Some (mk_ack 7 7 7))
       = Some (mk_result (7 + 17) (Some d2)
                 (Some (mk_header 0 0 0 RDM_UID_NULL
                          (mk_uid 23294 305419896) 0 1 0 0
                          RDM_CC_DISC_COMMAND_RESPONSE 1 12))
                 None None (Some (mk_ack 0 1 0))
                 [CallSend n (firstn (Z.to_nat n) (data_buffer d'));
                  CallReceive 2; CallRead (Z.min 24 24)]).
Proof.
  assert (H2 : request_preconditions spec_types (Some discovery_header) 12
                 (Some (repeat 0 12)) None None).
  { exists discovery_header. split; [reflexivity |].
    split; [left; discriminate |]. split; [right; left; reflexivity |].
    split; [simpl; lia |]. split; [simpl; lia |].
    split; [left; reflexivity |]. left. simpl. lia. }
  assert (H5 : forall b, Some (repeat 0 12) = Some b ->
                         12 <= Z.of_nat (List.length b)).
  { intros b E. inversion E. simpl. lia. }
  assert (H9 : uid_in_range (mk_uid 23294 305419896))
    by (unfold uid_in_range; simpl; lia).
  assert (H12 : forall d1, exists d2,
              dmx_receive (answering_bus (mk_uid 3 4) discovery_response) 0
                2 d1 = (d2, 24, 0)
              /\ dmx_read (answering_bus (mk_uid 3 4) discovery_response) 0
                   (repeat 0 24) (Z.min 24 24) d2
                 = discovery_response)
    by (intros d1; eexists; split; reflexivity).
  split.
  - split; [reflexivity |]. split; [exact H2 |]. split; [reflexivity |].
    split; [lia |]. split; [exact H5 |]. split; [reflexivity |].
    split; [reflexivity |]. split; [lia |]. split; [exact H9 |].
    split; [reflexivity |]. split; [lia | exact H12].
  - apply (rdm_request_discovery spec_types
             (answering_bus (mk_uid 3 4) discovery_response)
             0 (idle_driver 5) discovery_header 12 (Some (repeat 0 12)) None
             None (Some (mk_ack 7 7 7)) (mk_uid 23294 305419896) 7 24
             discovery_response);
      try reflexivity; try lia; assumption.
Defined.

(** X22. A discovery that brings back fewer than 17 bytes, as a
    collision may: [rdm_request] decodes no UID, returns the number of
    bytes received, sets the ack to [INVALID] with [num = 0], and
    leaves the header with the values of the request. *)
Theorem rdm_request_discovery_short (T : rdm_types) (HAL : dmx_hal)
  (dmx_num : Z) (d : dmx_driver_t) (h : rdm_header_t) (pdl_in : Z)
  (pd_in : option bytes) (pdl_out : option Z) (pd_out : option bytes)
  (ack : option rdm_ack_t) (size : Z) :
  dmx_num < DMX_NUM_MAX T ->
  request_preconditions T (Some h) pdl_in pd_in pdl_out pd_out ->
  List.length (data_buffer d) = 513%nat ->
  0 <= pdl_in ->
  (forall b, pd_in = Some b -> pdl_in <= Z.of_nat (List.length b)) ->
  pid h = RDM_PID_DISC_UNIQUE_BRANCH T ->
  cc h = RDM_CC_DISC_COMMAND ->
  size < 17 ->
  (forall d1, exists d2, dmx_receive HAL dmx_num 2 d1 = (d2, size, 0)) ->
  exists n d' d2,
    rdm_request T HAL dmx_num (Some d) (Some h) pdl_in pd_in pdl_out pd_out
      ack
    = Some (mk_result size (Some d2)
              (Some (mk_header (start_code h) (sub_start_code h)
                       (message_len h) (dest_uid h)
                       (if uid_is_null (src_uid h)
                        then rdm_driver_get_uid HAL dmx_num d
                        else src_uid h)
                       (rdm_tn d)
                       (if port_id h =? 0 then u8 (dmx_num + 1)
                        else port_id h)
                       0 (sub_device h) (cc h) (pid h) (pdl h)))
              pdl_out pd_out
              match ack with
              | Some _ => Some (mk_ack 0 (RDM_RESPONSE_TYPE_INVALID T) 0)
              | None => None
              end
              [CallSend n (firstn (Z.to_nat n) (data_buffer d'));
               CallReceive 2; CallRead size]).
Proof.
  intros Hnum Hpre Hlen Hpdl Hpd Hpid Hcc Hsize Hrecv.
  apply request_preconditions_iff in Hpre. destruct Hpre as [C1 [C2 C3]].
  unfold rdm_request.
  replace (dmx_num <? DMX_NUM_MAX T) with true
    by (symmetry; apply Z.ltb_lt; lia).
  rewrite C1, C2, C3. cbn [negb]. cbv zeta.
  set (h' := set_tn_count _ (rdm_tn d) 0).
  assert (Hh' : h' = mk_header (start_code h) (sub_start_code h)
                       (message_len h) (dest_uid h)
                       (if uid_is_null (src_uid h)
                        then rdm_driver_get_uid HAL dmx_num d
                        else src_uid h)
                       (rdm_tn d)
                       (if port_id h =? 0 then u8 (dmx_num + 1)
                        else port_id h)
                       0 (sub_device h) (cc h) (pid h) (pdl h)).
  { subst h'. destruct (port_id h =? 0);
      cbn [set_port_id src_uid];
      destruct (uid_is_null (src_uid h)); reflexivity. }
  assert (Hpid' : pid h' = pid h) by (rewrite Hh'; reflexivity).
  assert (Hcc' : cc h' = cc h) by (rewrite Hh'; reflexivity).
  assert (Hexp' : response_expected T h' = true).
  { unfold response_expected. rewrite Hpid', Hcc', Hpid, Hcc.
    rewrite !Z.eqb_refl. apply orb_true_r. }
  destruct (rdm_write_total T dmx_num d (Some h') pdl_in pd_in Hlen Hpdl Hpd)
    as [n [d' Ew]].
  rewrite Ew. cbn [bind]. rewrite Hexp'.
  destruct (Hrecv (dmx_send HAL dmx_num n d')) as [d2 Er].
  rewrite Er. change (0 =? 0) with true. cbn [negb].
  rewrite Hpid', Hpid, Z.eqb_refl. cbn [negb].
  assert (Emin : (if size >? 24 then 24 else size) = size)
    by (destruct (Z.gtb_spec size 24); lia).
  rewrite Emin. unfold uid_decode.
  assert (Elt : (size <? 17) = true) by lia. rewrite Elt. cbn [bind].
  change (0 =? 0) with true. cbv iota.
  exists n, d', d2. clearbody h'. subst h'. rewrite ?Hpid.
  destruct ack; reflexivity.
Qed.

Lemma rdm_request_discovery_short_witness :
  (0 < DMX_NUM_MAX spec_types
   /\ request_preconditions spec_types (Some discovery_header) 12
        (Some (repeat 0 12)) None None
   /\ List.length (data_buffer (idle_driver 5)) = 513%nat
   /\ 0 <= 12
   /\ (forall b, Some (repeat 0 12) = Some b ->
                 12 <= Z.of_nat (List.length b))
   /\ pid discovery_header = RDM_PID_DISC_UNIQUE_BRANCH spec_types
   /\ cc discovery_header = RDM_CC_DISC_COMMAND
   /\ 3 < 17
   /\ (forall d1, exists d2,
         dmx_receive (answering_bus (mk_uid 3 4) [254; 170; 255]) 0 2 d1
         = (d2, 3, 0)))
  /\ exists n d' d2,
       rdm_request spec_types (answering_bus (mk_uid 3 4) [254; 170; 255]) 0
         (Some (idle_driver 5)) (Some discovery_header) 12
         (Some (repeat 0 12)) None None (Some (mk_ack 7 7 7))
       = Some (mk_result 3 (Some d2)
                 (Some (mk_header 0 0 0 (mk_uid 65535 4294967295)
                          (mk_uid 3 4) 5 1 0 0 16 1 12))
                 None None
                 (Some (mk_ack 0 (RDM_RESPONSE_TYPE_INVALID spec_types) 0))
                 [CallSend n (firstn (Z.to_nat n) (data_buffer d'));
                  CallReceive 2; CallRead 3]).
Proof.
  assert (H2 : request_preconditions spec_types (Some discovery_header) 12
                 (Some (repeat 0 12)) None None).
  { exists discovery_header. split; [reflexivity |].
    split; [left; discriminate |]. split; [right; left; reflexivity |].
    split; [simpl; lia |]. split; [simpl; lia |].
    split; [left; reflexivity |]. left. simpl. lia. }
  assert (H5 : forall b, Some (repeat 0 12) = Some b ->
                         12 <= Z.of_nat (List.length b)).
  { intros b E. inversion E. simpl. lia. }
  assert (H9 : forall d1, exists d2,
             dmx_receive (answering_bus (mk_uid 3 4) [254; 170; 255]) 0 2 d1
             = (d2, 3, 0))
    by (intros d1; eexists; reflexivity).
  split.
  - split; [reflexivity |]. split; [exact H2 |]. split; [reflexivity |].
    split; [lia |]. split; [exact H5 |]. split; [reflexivity |].
    split; [reflexivity |]. split; [lia | exact H9].
  - apply (rdm_request_discovery_short spec_types
             (answering_bus (mk_uid 3 4) [254; 170; 255]) 0 (idle_driver 5)
             discovery_header 12 (Some (repeat 0 12)) None None
             (Some (mk_ack 7 7 7)) 3);
      try reflexivity; try lia; assumption.
Defined.

(** [rdm_write] keeps the size of the buffer. *)
Lemma rdm_write_total_length (T : rdm_types) (dmx_num : Z) (d : dmx_driver_t)
  (header : option rdm_header_t) (pdl : Z) (pd : option bytes) :
  List.length (data_buffer d) = 513%nat ->
  0 <= pdl ->
  (forall b, pd = Some b -> pdl <= Z.of_nat (List.length b)) ->
  exists n d', rdm_write T dmx_num (Some d) header pdl pd = Some (n, Some d')
               /\ List.length (data_buffer d') = 513%nat.
Proof.
  intros Hlen Hpdl Hpd. unfold rdm_write.
  destruct (negb (dmx_num <? DMX_NUM_MAX T)); [eauto |].
  destruct (Z.leb_spec pdl 231) as [Hmax | Hmax]; cbn [andb negb];
    [| eauto].
  destruct (negb (is_null pd && (pdl >? 0))) eqn:Hnull; cbn [negb];
    [| eauto].
  destruct (negb (is_null header) || negb (is_null pd) && (pdl >? 0));
    cbn [negb]; [| eauto].
  destruct (is_sending d); [eauto |].
  rewrite pd_emplace_header. cbn [bind].
  set (drv := if dmx_uart_get_rts d =? 1 then dmx_uart_set_rts d 0 else d).
  assert (Hbuf : data_buffer drv = data_buffer d)
    by (subst drv; destruct (dmx_uart_get_rts d =? 1); reflexivity).
  rewrite Hbuf.
  destruct (memmove_Some (data_buffer d)
              match pd with
              | Some b => b
              | None => []
              end 25 0 pdl) as [m1 [E1 [L1 _]]]; try lia.
  { destruct pd as [b |].
    - specialize (Hpd b eq_refl). lia.
    - simpl in Hnull. destruct (Z.gtb_spec pdl 0); [discriminate |].
      simpl. lia. }
  unfold memcpy. rewrite E1. cbn [bind].
  rewrite (load8_nth m1 2) by lia. cbn [bind].
  set (len := u8 (nth (Z.to_nat 2) m1 0 + pdl)).
  assert (Hu8 : 0 <= len < 256) by (apply Z.mod_pos_bound; lia).
  do 2 store_step.
  rewrite load8_upd_neq by lia.
  rewrite load8_upd_eq by lia. cbn [bind].
  match goal with
  | |- context [checksum_loop ?m ?i ?n ?c0] =>
      destruct (checksum_loop_Some n m i c0) as [c Ec];
      rewrite ?length_upd; try lia
  end.
  rewrite Ec. cbn [bind]. unfold store16.
  do 2 store_step.
  rewrite load8_nth by (rewrite !length_upd; lia). cbn [bind].
  eexists. eexists. split; [reflexivity |].
  cbn [data_buffer set_tx_size set_buffer]. rewrite !length_upd. lia.
Qed.

(** [rdm_read] returns, whatever the buffer holds, when the buffer has
    its 513 slots, those at the offsets 2 and 24 hold bytes, and [pd]
    has room for what [*pdl] allows. *)
Lemma header_of_image_Some (h : rdm_header_t) :
  exists hd, header_of_image (header_image h) = Some hd.
Proof.
  destruct h as [a b c [d1 d2] [e1 e2] f g i j k l m].
  eexists. cbv -[byte_of Z.lor Z.shiftl]. reflexivity.
Qed.

Lemma rdm_read_total (T : rdm_types) (dmx_num : Z) (d : dmx_driver_t)
  (h : rdm_header_t) (pdl : option Z) (pd : option bytes) :
  List.length (data_buffer d) = 513%nat ->
  is_byte (byte_at (data_buffer d) 2) ->
  is_byte (byte_at (data_buffer d) 24) ->
  (forall b, pd = Some b ->
     match pdl with
     | Some v => v <= Z.of_nat (List.length b)
     | None => 255 <= Z.of_nat (List.length b)
     end) ->
  exists rd hd po pdo,
    rdm_read T dmx_num (Some d) (Some h) pdl pd = Some (rd, Some hd, po, pdo).
Proof.
  intros Hlen B2 B24 Hpd. unfold rdm_read.
  destruct (negb (dmx_num <? DMX_NUM_MAX T)); [eauto 6 |].
  unfold is_byte in B2, B24.
  destruct (load16_Some (data_buffer d) 0) as [sc Esc]; try lia.
  rewrite Esc. cbn [bind].
  destruct (negb (sc =? Z.lor RDM_SC (Z.shiftl RDM_SUB_SC 8))); [eauto 6 |].
  rewrite (load8_byte_at _ 2) by lia. cbn [bind].
  destruct (checksum_loop_Some (Z.to_nat (byte_at (data_buffer d) 2))
              (data_buffer d) 0 0) as [sum Esum]; try lia.
  rewrite Esum. cbn [bind].
  destruct (load16_Some (data_buffer d) (byte_at (data_buffer d) 2))
    as [stored Est]; try lia.
  rewrite Est. cbn [bind].
  destruct (negb (sum =? bswap16 stored)); [eauto 6 |].
  rewrite pd_emplace_header. cbn [bind].
  destruct (header_of_image_Some h) as [hd Ehd]. rewrite Ehd. cbn [bind].
  rewrite (load8_byte_at _ 24) by lia. cbn [bind].
  destruct pd as [block |]; cbn [bind]; [| eauto 6].
  specialize (Hpd block eq_refl).
  set (cpy := match pdl with
              | Some v =>
                  if v >? byte_at (data_buffer d) 24
                  then byte_at (data_buffer d) 24
                  else v
              | None => byte_at (data_buffer d) 24
              end).
  assert (Hcpy : cpy <= Z.of_nat (List.length block) /\ cpy <= 255).
  { subst cpy. destruct pdl as [v |]; [| lia].
    destruct (Z.gtb_spec v (byte_at (data_buffer d) 24)); lia. }
  unfold memcpy, memmove.
  destruct (load_range_Some (Z.to_nat cpy) (data_buffer d) 25)
    as [bs [Ebs Lbs]]; try lia.
  rewrite Ebs. cbn [bind].
  destruct (store_range_Some bs block 0) as [m' [Em' _]]; try lia.
  rewrite Em'. cbn [bind]. eauto 6.
Qed.

(** X23. No response to a request that is not a discovery is taken for
    valid: whatever [dmx_receive] reports and whatever the buffer holds
    afterwards, [rdm_request] returns and leaves in the ack the type
    [INVALID] and [num = 0].  The frame may carry a right checksum and
    the right answer: [rdm_read] does not bring its header to the
    caller, so the command class compared with that of the request is
    the one of the request itself. *)
Theorem rdm_request_ack_invalid (T : rdm_types) (HAL : dmx_hal)
  (dmx_num : Z) (d : dmx_driver_t) (h : rdm_header_t) (pdl_in : Z)
  (pd_in : option bytes) (pdl_out : option Z) (pd_out : option bytes)
  (ack : option rdm_ack_t) :
  dmx_num < DMX_NUM_MAX T ->
  request_preconditions T (Some h) pdl_in pd_in pdl_out pd_out ->
  List.length (data_buffer d) = 513%nat ->
  0 <= pdl_in ->
  (forall b, pd_in = Some b -> pdl_in <= Z.of_nat (List.length b)) ->
  dev_id (dest_uid h) <> 4294967295 ->
  pid h <> RDM_PID_DISC_UNIQUE_BRANCH T ->
  RDM_RESPONSE_TYPE_INVALID T <> RDM_RESPONSE_TYPE_ACK T ->
  RDM_RESPONSE_TYPE_INVALID T <> RDM_RESPONSE_TYPE_ACK_TIMER T ->
  RDM_RESPONSE_TYPE_INVALID T <> RDM_RESPONSE_TYPE_NACK_REASON T ->
  (forall b, pd_out = Some b ->
     match pdl_out with
     | Some v => v <= Z.of_nat (List.length b)
     | None => 255 <= Z.of_nat (List.length b)
     end) ->
  (forall n d1,
     List.length (data_buffer d1) = 513%nat ->
     let d2 := fst (fst (dmx_receive HAL dmx_num 2
                           (dmx_send HAL dmx_num n d1))) in
     List.length (data_buffer d2) = 513%nat
     /\ is_byte (byte_at (data_buffer d2) 2)
     /\ is_byte (byte_at (data_buffer d2) 24)) ->
  exists r err,
    rdm_request T HAL dmx_num (Some d) (Some h) pdl_in pd_in pdl_out pd_out
      ack = Some r
    /\ ack_after r
       = match ack with
         | Some _ => Some (mk_ack err (RDM_RESPONSE_TYPE_INVALID T) 0)
         | None => None
         end.
Proof.
  intros Hnum Hpre Hlen Hpdl Hpd Hdest Hpid Hack Htimer Hnack Hout Hbus.
  apply request_preconditions_iff in Hpre. destruct Hpre as [C1 [C2 C3]].
  unfold rdm_request.
  replace (dmx_num <? DMX_NUM_MAX T) with true
    by (symmetry; apply Z.ltb_lt; lia).
  rewrite C1, C2, C3. cbn [negb]. cbv zeta.
  set (h' := set_tn_count _ (rdm_tn d) 0).
  assert (Hf : pid h' = pid h /\ cc h' = cc h /\ dest_uid h' = dest_uid h).
  { subst h'. destruct (port_id h =? 0);
      match goal with
      | |- context [if ?b then _ else _] => destruct b
      end; repeat split. }
  destruct Hf as [Hpid' [Hcc' Hdest']].
  assert (Hexp' : response_expected T h' = true).
  { unfold response_expected, uid_is_broadcast. rewrite Hdest'.
    replace (dev_id (dest_uid h) =? 4294967295) with false
      by (symmetry; apply Z.eqb_neq; exact Hdest).
    reflexivity. }
  destruct (rdm_write_total_length T dmx_num d (Some h') pdl_in pd_in Hlen
              Hpdl Hpd) as [n [d' [Ew Ld']]].
  rewrite Ew. cbn [bind]. rewrite Hexp'.
  specialize (Hbus n d' Ld'). cbv zeta in Hbus.
  destruct (dmx_receive HAL dmx_num 2 (dmx_send HAL dmx_num n d'))
    as [[d2 size] err].
  cbn [fst] in Hbus. destruct Hbus as [Hlen2 [B2 B24]].
  destruct (negb (err =? 0)).
  - eexists. exists err. split; [reflexivity |]. destruct ack; reflexivity.
  - rewrite Hpid'.
    replace (pid h =? RDM_PID_DISC_UNIQUE_BRANCH T) with false
      by (symmetry; apply Z.eqb_neq; exact Hpid).
    cbn [negb].
    destruct (rdm_read_total T dmx_num d2 h' pdl_out pd_out Hlen2 B2 B24
                Hout) as [rd [hd [po [pdo Er]]]].
    rewrite Er. cbn [bind].
    rewrite (classify_same_cc T h' hd rd).
    + unfold decode_ack.
      replace (RDM_RESPONSE_TYPE_INVALID T =? RDM_RESPONSE_TYPE_ACK T)
        with false by (symmetry; apply Z.eqb_neq; exact Hack).
      replace (RDM_RESPONSE_TYPE_INVALID T =? RDM_RESPONSE_TYPE_ACK_TIMER T)
        with false by (symmetry; apply Z.eqb_neq; exact Htimer).
      replace (RDM_RESPONSE_TYPE_INVALID T
               =? RDM_RESPONSE_TYPE_NACK_REASON T)
        with false by (symmetry; apply Z.eqb_neq; exact Hnack).
      cbn [bind].
      eexists. exists err. split; [reflexivity |]. destruct ack; reflexivity.
    + assert (Hbyte : byte_of (cc h') 0 = cc h').
      { rewrite Hcc'. apply header_checks_iff in C3.
        destruct C3 as [_ [_ [[E | [E | E]] _]]]; rewrite E; reflexivity. }
      destruct (rdm_read_header_cc _ _ _ _ _ _ _ _ _ _ Er) as [H | H];
        [left; exact H | right; congruence].
Qed.

Lemma rdm_request_ack_invalid_witness :
  (0 < DMX_NUM_MAX spec_types
   /\ request_preconditions spec_types (Some scenario_header) 0 None
        (Some 2) (Some [0; 0])
   /\ List.length (data_buffer (idle_driver 5)) = 513%nat
   /\ 0 <= 0
   /\ (forall b, @None bytes = Some b -> 0 <= Z.of_nat (List.length b))
   /\ dev_id (dest_uid scenario_header) <> 4294967295
   /\ pid scenario_header <> RDM_PID_DISC_UNIQUE_BRANCH spec_types
   /\ RDM_RESPONSE_TYPE_INVALID spec_types
      <> RDM_RESPONSE_TYPE_ACK spec_types
   /\ RDM_RESPONSE_TYPE_INVALID spec_types
      <> RDM_RESPONSE_TYPE_ACK_TIMER spec_types
   /\ RDM_RESPONSE_TYPE_INVALID spec_types
      <> RDM_RESPONSE_TYPE_NACK_REASON spec_types
   /\ (forall b, Some [0; 0] = Some b ->
         match Some 2 with
         | Some v => v <= Z.of_nat (List.length b)
         | None => 255 <= Z.of_nat (List.length b)
         end)
   /\ (forall n d1,
         List.length (data_buffer d1) = 513%nat ->
         let d2 :=
           fst (fst (dmx_receive (answering_bus (mk_uid 3 4) nack_response)
                       0 2
                       (dmx_send (answering_bus (mk_uid 3 4) nack_response)
                          0 n d1))) in
         List.length (data_buffer d2) = 513%nat
         /\ is_byte (byte_at (data_buffer d2) 2)
         /\ is_byte (byte_at (data_buffer d2) 24)))
  /\ exists r err,
       rdm_request spec_types (answering_bus (mk_uid 3 4) nack_response) 0
         (Some (idle_driver 5)) (Some scenario_header) 0 None (Some 2)
         (Some [0; 0]) (Some (mk_ack 7 7 7))
       = Some r
       /\ ack_after r
          = Some (mk_ack err (RDM_RESPONSE_TYPE_INVALID spec_types) 0).
Proof.
  assert (H2 : request_preconditions spec_types (Some scenario_header) 0
                 None (Some 2) (Some [0; 0])).
  { exists scenario_header. split; [reflexivity |].
    split; [right; reflexivity |]. split; [left; discriminate |].
    split; [simpl; lia |]. split; [simpl; lia |].
    split; [right; left; reflexivity |]. left. simpl. lia. }
  assert (H5 : forall b, @None bytes = Some b ->
                         0 <= Z.of_nat (List.length b))
    by (intros b E; discriminate E).
  assert (H6 : dev_id (dest_uid scenario_header) <> 4294967295)
    by discriminate.
  assert (H7 : pid scenario_header <> RDM_PID_DISC_UNIQUE_BRANCH spec_types)
    by discriminate.
  assert (H11 : forall b, Some [0; 0] = Some b ->
                  match Some 2 with
                  | Some v => v <= Z.of_nat (List.length b)
                  | None => 255 <= Z.of_nat (List.length b)
                  end).
  { intros b E. inversion E. simpl. lia. }
  assert (H12 : forall n d1,
             List.length (data_buffer d1) = 513%nat ->
             let d2 :=
               fst (fst (dmx_receive
                           (answering_bus (mk_uid 3 4) nack_response) 0 2
                           (dmx_send
                              (answering_bus (mk_uid 3 4) nack_response) 0 n
                              d1))) in
             List.length (data_buffer d2) = 513%nat
             /\ is_byte (byte_at (data_buffer d2) 2)
             /\ is_byte (byte_at (data_buffer d2) 24)).
  { intros n d1 L. cbn [answering_bus dmx_receive dmx_send fst set_buffer
                        set_tn data_buffer].
    split; [| split].
    - rewrite length_app, length_skipn, L. reflexivity.
    - change (is_byte 26). unfold is_byte. lia.
    - change (is_byte 0). unfold is_byte. lia. }
  split.
  - split; [reflexivity |]. split; [exact H2 |]. split; [reflexivity |].
    split; [lia |]. split; [exact H5 |]. split; [exact H6 |].
    split; [exact H7 |]. split; [discriminate |]. split; [discriminate |].
    split; [discriminate |]. split; [exact H11 | exact H12].
  - apply (rdm_request_ack_invalid spec_types
             (answering_bus (mk_uid 3 4) nack_response) 0 (idle_driver 5)
             scenario_header 0 None (Some 2) (Some [0; 0])
             (Some (mk_ack 7 7 7)));
      try reflexivity; try lia; try assumption; discriminate.
Defined.

(** ** [memcpyswap] *)

Lemma firstn_succ_nth (m : bytes) :
  forall k, (k < List.length m)%nat ->
            firstn (S k) m = firstn k m ++ [nth k m 0].
Proof.
  induction m as [| x m IH]; intros [| k] H; cbn [List.length] in H;
    try lia.
  - reflexivity.
  - cbn [firstn nth app]. f_equal. apply IH. lia.
Qed.

Lemma nth_skipn (m : bytes) :
  forall j k, nth k (skipn j m) 0 = nth (j + k) m 0.
Proof.
  induction m as [| x m IH]; intros [| j] k; cbn [skipn Nat.add nth];
    try reflexivity.
  - destruct k; reflexivity.
  - apply IH.
Qed.

Lemma upd_firstn_succ (m : bytes) :
  forall (i : nat) (v : Z),
    (i < List.length m)%nat -> firstn (S i) (upd m i v) = firstn i m ++ [v].
Proof.
  induction m as [| x m IH]; intros [| i] v H; cbn [List.length] in H;
    try lia.
  - reflexivity.
  - change (x :: firstn (S i) (upd m i v) = x :: (firstn i m ++ [v])).
    f_equal. apply IH. lia.
Qed.

Lemma upd_skipn_gt (m : bytes) :
  forall (i k : nat) (v : Z),
    (i < k)%nat -> skipn k (upd m i v) = skipn k m.
Proof.
  induction m as [| x m IH]; intros [| i] [| k] v H; try lia;
    try reflexivity.
  change (skipn k (upd m i v) = skipn k m). apply IH. lia.
Qed.

Lemma memcpyswap_loop_spec (source : bytes) (j : nat) (left : nat) :
  forall (dest : bytes) (i : nat),
    (j + left <= List.length source)%nat ->
    (i + left <= List.length dest)%nat ->
    memcpyswap_loop dest (Z.of_nat i) source (Z.of_nat j) left
    = Some (Z.of_nat (i + left),
            firstn i dest ++ rev (firstn left (skipn j source))
            ++ skipn (i + left) dest).
Proof.
  induction left as [| left IH]; intros dest i Hs Hd.
  - cbn [memcpyswap_loop firstn rev app]. rewrite Nat.add_0_r.
    rewrite firstn_skipn. reflexivity.
  - cbn [memcpyswap_loop].
    rewrite load8_nth by lia. cbn [bind].
    rewrite store8_Some by lia. cbn [bind].
    replace (Z.of_nat i + 1) with (Z.of_nat (S i)) by lia.
    rewrite IH by (rewrite ?length_upd; lia).
    rewrite Nat2Z.id.
    rewrite upd_firstn_succ by lia.
    rewrite upd_skipn_gt by lia.
    rewrite (firstn_succ_nth (skipn j source) left)
      by (rewrite length_skipn; lia).
    rewrite rev_unit, nth_skipn.
    replace (Z.to_nat (Z.of_nat j + Z.of_nat left)) with (j + left)%nat
      by lia.
    rewrite <- app_assoc. cbn [app].
    replace (S i + left)%nat with (i + S left)%nat by lia.
    reflexivity.
Qed.

(** X24. [memcpyswap] writes the [n] bytes of the source in reverse
    order, touches nothing else and returns the end of what it wrote;
    with [n = 0] it writes nothing. *)
Theorem memcpyswap_reverses (dest source : bytes) (i j n : nat) :
  (j + n <= List.length source)%nat ->
  (i + n <= List.length dest)%nat ->
  memcpyswap dest (Z.of_nat i) source (Z.of_nat j) (Z.of_nat n)
  = Some (Z.of_nat (i + n),
          firstn i dest ++ rev (firstn n (skipn j source))
          ++ skipn (i + n) dest).
Proof.
  intros Hs Hd. unfold memcpyswap. rewrite Nat2Z.id.
  apply memcpyswap_loop_spec; assumption.
Qed.

Lemma memcpyswap_reverses_witness :
  ((1 + 3 <= List.length [1; 2; 3; 4; 5])%nat
   /\ (2 + 3 <= List.length [0; 0; 0; 0; 0; 0])%nat)
  /\ memcpyswap [0; 0; 0; 0; 0; 0] (Z.of_nat 2) [1; 2; 3; 4; 5] (Z.of_nat 1)
       (Z.of_nat 3)
     = Some (Z.of_nat (2 + 3), [0; 0; 4; 3; 2; 0]).
Proof.
  split.
  - simpl. lia.
  - apply (memcpyswap_reverses [0; 0; 0; 0; 0; 0] [1; 2; 3; 4; 5] 2 1 3);
      simpl; lia.
Defined.

(** ** The controller *)

(** X25. The two senders for the DMX start address send nothing: each
    returns [false] on every input and leaves the ack as it was, and
    the getter never writes [*dmx_start_address].  When all of their
    checks pass they stamp the header: the source UID is that of the
    port, the port number is [dmx_num + 1] as a byte, and the command
    class, the parameter id and the length of the parameter data are
    those of the request; the other fields stay.  When a check fails
    the header stays as it was. *)
Theorem rdm_send_dmx_start_address_stub (T : rdm_types)
  (rdm_uid_get : Z -> dmx_driver_t -> rdm_uid_t) (pid_dmx_start_address : Z)
  (dmx_num : Z) (driver : option dmx_driver_t)
  (header : option rdm_header_t) (address_out : option Z) (address_in : Z)
  (ack : option rdm_ack_t) :
  let stamped h d c l :=
    mk_header (start_code h) (sub_start_code h) (message_len h) (dest_uid h)
      (rdm_uid_get dmx_num d) (tn h) (u8 (dmx_num + 1)) (message_count h)
      (sub_device h) c (u16 pid_dmx_start_address) l in
  let get :=
    rdm_send_get_dmx_start_address T rdm_uid_get pid_dmx_start_address
      dmx_num driver header address_out ack in
  let set :=
    rdm_send_set_dmx_start_address T rdm_uid_get pid_dmx_start_address
      dmx_num driver header address_in ack in
  (forall h d,
     dmx_num < DMX_NUM_MAX T -> header = Some h -> address_out <> None ->
     driver = Some d ->
     get = (false, Some (stamped h d RDM_CC_GET_COMMAND 0), address_out, ack))
  /\ (DMX_NUM_MAX T <= dmx_num \/ header = None \/ address_out = None
      \/ driver = None ->
      get = (false, header, address_out, ack))
  /\ (forall h d,
        dmx_num < DMX_NUM_MAX T -> header = Some h -> address_in < 513 ->
        driver = Some d ->
        set = (false, Some (stamped h d RDM_CC_SET_COMMAND 2), ack))
  /\ (DMX_NUM_MAX T <= dmx_num \/ header = None \/ 513 <= address_in
      \/ driver = None ->
      set = (false, header, ack)).
Proof.
  cbv zeta.
  unfold rdm_send_get_dmx_start_address, rdm_send_set_dmx_start_address.
  repeat split.
  - intros h d Hnum -> Hout ->.
    replace (dmx_num <? DMX_NUM_MAX T) with true by lia.
    destruct address_out; [reflexivity | contradiction].
  - intros Hfail.
    destruct (Z.ltb_spec dmx_num (DMX_NUM_MAX T)); [| reflexivity].
    cbn [negb]. destruct header as [h |]; [| reflexivity].
    destruct address_out as [a |]; [| reflexivity]. cbn [is_null].
    destruct driver as [d |]; [| reflexivity].
    exfalso. destruct Hfail as [H' | [H' | [H' | H']]];
      [lia | discriminate | discriminate | discriminate].
  - intros h d Hnum -> Hin ->.
    replace (dmx_num <? DMX_NUM_MAX T) with true by lia.
    replace (address_in <? 513) with true by lia. reflexivity.
  - intros Hfail.
    destruct (Z.ltb_spec dmx_num (DMX_NUM_MAX T)); [| reflexivity].
    cbn [negb]. destruct header as [h |]; [| reflexivity].
    destruct (Z.ltb_spec address_in 513); [| reflexivity]. cbn [negb].
    destruct driver as [d |]; [| reflexivity].
    exfalso. destruct Hfail as [H' | [H' | [H' | H']]];
      [lia | discriminate | lia | discriminate].
Qed.

Lemma rdm_send_dmx_start_address_stub_witness :
  rdm_send_get_dmx_start_address spec_types (fun _ _ => mk_uid 3 4) 240 0
    (Some (idle_driver 5)) (Some broadcast_header) (Some 7)
    (Some (mk_ack 7 7 7))
  = (false,
     Some (mk_header 0 0 0 (mk_uid 65535 4294967295) (mk_uid 3 4) 0 1 0 0
             RDM_CC_GET_COMMAND 240 0),
     Some 7, Some (mk_ack 7 7 7)).
Proof.
  apply (proj1 (rdm_send_dmx_start_address_stub spec_types
                  (fun _ _ => mk_uid 3 4) 240 0 (Some (idle_driver 5))
                  (Some broadcast_header) (Some 7) 0 (Some (mk_ack 7 7 7)))
           broadcast_header (idle_driver 5)).
  - reflexivity.
  - reflexivity.
  - discriminate.
  - reflexivity.
Defined.

(** ** The string field *)





(** ** The layout that [rdm_write] leaves *)

Lemma skipn_upd_ge (m : bytes) :
  forall (k i : nat) (v : Z),
    (k <= i)%nat -> skipn k (upd m i v) = upd (skipn k m) (i - k) v.
Proof.
  induction m as [| x m IH]; intros k i v H.
  - destruct k; destruct i; reflexivity.
  - destruct k as [| k]; [rewrite Nat.sub_0_r; reflexivity |].
    destruct i as [| i]; [lia |].
    change (skipn k (upd m i v) = upd (skipn k m) (i - k) v).
    apply IH. lia.
Qed.

Lemma byte_of_bswap16 (c : Z) :
  0 <= c < 65536 ->
  256 * byte_of (bswap16 c) 0 + byte_of (bswap16 c) 1 = c.
Proof.
  intros H.
  pose proof (byte_of_is_byte c 0 ltac:(lia)) as B0.
  pose proof (byte_of_is_byte c 1 ltac:(lia)) as B1.
  rewrite (bswap16_add c).
  replace (256 * byte_of c 0 + byte_of c 1)
    with (byte_of c 1 + 256 * byte_of c 0) by lia.
  destruct (byte_of_word16 _ _ B1 B0) as [E0 E1]. rewrite E0, E1.
  rewrite !byte_of_div by lia.
  change (2 ^ (8 * 0)) with 1. change (2 ^ (8 * 1)) with 256.
  Z.div_mod_to_equations. lia.
Qed.

Lemma byte_at_load8 (m : bytes) (i v : Z) :
  0 <= i < Z.of_nat (List.length m) -> load8 m i = Some v -> byte_at m i = v.
Proof.
  intros H E. rewrite load8_byte_at in E by exact H. inversion E.
  reflexivity.
Qed.

(** X27. Where [rdm_write] puts things when the buffer holds a header
    of 24 bytes: [pdl] at offset 24, the parameter data from offset 25
    on, [MSG_LEN = 24 + pdl] at offset 2, and the checksum of the bytes
    from offset 2 up to [MSG_LEN] at the offsets [MSG_LEN] and
    [MSG_LEN + 1].  The first of these is where the last byte of the
    parameter data was: the frame of [MSG_LEN + 2] bytes that the
    function returns carries all but the last byte of [pd]. *)
Theorem rdm_write_layout (T : rdm_types) (dmx_num : Z) (d : dmx_driver_t)
  (header : option rdm_header_t) (pdl : Z) (pd : bytes) :
  dmx_num < DMX_NUM_MAX T ->
  List.length (data_buffer d) = 513%nat ->
  is_sending d = false ->
  1 <= pdl <= 231 ->
  pdl <= Z.of_nat (List.length pd) ->
  byte_at (data_buffer d) 2 = 24 ->
  exists d',
    rdm_write T dmx_num (Some d) header pdl (Some pd)
    = Some (26 + pdl, Some d')
    /\ byte_at (data_buffer d') 2 = 24 + pdl
    /\ byte_at (data_buffer d') 24 = pdl
    /\ (forall k, 0 <= k < pdl - 1 ->
          byte_at (data_buffer d') (25 + k) = nth (Z.to_nat k) pd 0)
    /\ 256 * byte_at (data_buffer d') (24 + pdl)
       + byte_at (data_buffer d') (25 + pdl)
       = (205 + sum_bytes (firstn (Z.to_nat (22 + pdl))
                             (skipn 2 (data_buffer d')))) mod 65536.
Proof.
  intros Hnum Hlen Hsend Hpdl Hpd Hmsg.
  unfold rdm_write.
  assert (E1 : (dmx_num <? DMX_NUM_MAX T) = true) by lia.
  rewrite E1. cbn [negb is_null andb].
  replace (pdl <=? 231) with true by lia.
  replace (pdl >? 0) with true by lia.
  cbn [negb andb]. rewrite orb_true_r. cbn [negb].
  rewrite Hsend.
  rewrite pd_emplace_header. cbn [bind].
  set (drv := if dmx_uart_get_rts d =? 1 then dmx_uart_set_rts d 0 else d).
  assert (Hbuf : data_buffer drv = data_buffer d)
    by (subst drv; destruct (dmx_uart_get_rts d =? 1); reflexivity).
  rewrite Hbuf. unfold memcpy.
  pose proof (memmove_splice_at (data_buffer d) pd 25 0 (Z.to_nat pdl)
                ltac:(lia) ltac:(lia)) as Em.
  change (Z.of_nat 25) with 25 in Em. change (Z.of_nat 0) with 0 in Em.
  rewrite Z2Nat.id in Em by lia. change (skipn 0 pd) with pd in Em.
  rewrite Em. cbn [bind]. clear Em.
  set (m1 := firstn 25 (data_buffer d) ++ firstn (Z.to_nat pdl) pd
             ++ skipn (25 + Z.to_nat pdl) (data_buffer d)).
  assert (Lpre : List.length (firstn 25 (data_buffer d)) = 25%nat)
    by (apply firstn_length_le; lia).
  assert (Lpd : List.length (firstn (Z.to_nat pdl) pd) = Z.to_nat pdl)
    by (apply firstn_length_le; lia).
  assert (L1 : List.length m1 = 513%nat).
  { subst m1. rewrite !length_app, Lpre, Lpd, length_skipn. lia. }
  assert (K1 : forall j, 0 <= j < 25 -> load8 m1 j = load8 (data_buffer d) j).
  { intros j Hj. subst m1. unfold load8.
    replace (0 <=? j) with true by lia.
    rewrite nth_error_app1 by lia.
    rewrite nth_error_firstn.
    replace (Z.to_nat j <? 25)%nat with true
      by (symmetry; apply Nat.ltb_lt; lia).
    reflexivity. }
  assert (P1 : forall k, 0 <= k < pdl ->
                         load8 m1 (25 + k) = Some (nth (Z.to_nat k) pd 0)).
  { intros k Hk. subst m1.
    replace (25 + k)
      with (Z.of_nat (List.length (firstn 25 (data_buffer d)) + Z.to_nat k))
      by lia.
    rewrite load8_app. rewrite nth_error_app1 by lia.
    rewrite nth_error_firstn.
    replace (Z.to_nat k <? Z.to_nat pdl)%nat with true
      by (symmetry; apply Nat.ltb_lt; lia).
    apply nth_error_nth'. lia. }
  rewrite (K1 2) by lia. rewrite (load8_byte_at (data_buffer d) 2) by lia.
  cbn [bind]. rewrite Hmsg.
  assert (Elen : u8 (24 + pdl) = 24 + pdl)
    by (unfold u8; apply Z.mod_small; lia).
  rewrite Elen.
  do 2 store_step.
  rewrite load8_upd_neq by lia.
  rewrite load8_upd_eq by lia. cbn [bind].
  set (mA := upd (upd m1 (Z.to_nat 2) (24 + pdl)) (Z.to_nat 24) pdl).
  assert (LA : List.length mA = 513%nat)
    by (subst mA; rewrite !length_upd; lia).
  rewrite checksum_loop_sum by (try (change (RDM_SC + RDM_SUB_SC) with 205);
                                lia).
  cbn [bind]. change (RDM_SC + RDM_SUB_SC) with 205.
  set (c := (205 + sum_bytes (firstn (Z.to_nat (24 + pdl - 2))
                                (skipn (Z.to_nat 2) mA))) mod 65536).
  assert (Hc : 0 <= c < 65536) by (apply Z.mod_pos_bound; lia).
  unfold store16. do 2 store_step.
  set (mB := upd (upd mA (Z.to_nat (24 + pdl)) (byte_of (bswap16 c) 0))
               (Z.to_nat (24 + pdl + 1)) (byte_of (bswap16 c) 1)).
  assert (LB : List.length mB = 513%nat)
    by (subst mB; rewrite !length_upd; lia).
  assert (B2 : load8 mB 2 = Some (24 + pdl)).
  { subst mB mA. rewrite !load8_upd_neq by lia.
    rewrite load8_upd_eq by lia. reflexivity. }
  rewrite B2. cbn [bind].
  eexists. split; [f_equal; f_equal; lia |].
  cbn [data_buffer set_tx_size set_buffer].
  split; [apply byte_at_load8; [lia | exact B2] |].
  split.
  { apply byte_at_load8; [lia |]. subst mB mA.
    rewrite !load8_upd_neq by lia.
    rewrite load8_upd_eq by (rewrite ?length_upd; lia). reflexivity. }
  split.
  { intros k Hk. apply byte_at_load8; [lia |]. subst mB mA.
    rewrite !load8_upd_neq by lia. apply P1. lia. }
  assert (BL : byte_at mB (24 + pdl) = byte_of (bswap16 c) 0).
  { apply byte_at_load8; [lia |]. subst mB.
    rewrite load8_upd_neq by lia.
    rewrite load8_upd_eq by (rewrite ?length_upd; lia). reflexivity. }
  assert (BL1 : byte_at mB (25 + pdl) = byte_of (bswap16 c) 1).
  { apply byte_at_load8; [lia |]. subst mB.
    rewrite load8_upd_eq by (rewrite ?length_upd; lia). reflexivity. }
  rewrite BL, BL1, byte_of_bswap16 by exact Hc.
  subst c. f_equal. f_equal. f_equal.
  replace (Z.to_nat (24 + pdl - 2)) with (Z.to_nat (22 + pdl)) by lia.
  change (Z.to_nat 2) with 2%nat.
  subst mB. rewrite !skipn_upd_ge by lia.
  rewrite !firstn_upd_ge by lia. reflexivity.
Qed.

Lemma rdm_write_layout_witness :
  (0 < DMX_NUM_MAX spec_types
   /\ List.length (data_buffer preloaded_driver) = 513%nat
   /\ is_sending preloaded_driver = false
   /\ 1 <= 2 <= 231
   /\ 2 <= Z.of_nat (List.length [0; 5])
   /\ byte_at (data_buffer preloaded_driver) 2 = 24)
  /\ exists d',
       rdm_write spec_types 0 (Some preloaded_driver) (Some scenario_header)
         2 (Some [0; 5])
       = Some (26 + 2, Some d')
       /\ byte_at (data_buffer d') 2 = 24 + 2
       /\ byte_at (data_buffer d') 24 = 2
       /\ (forall k, 0 <= k < 2 - 1 ->
             byte_at (data_buffer d') (25 + k) = nth (Z.to_nat k) [0; 5] 0)
       /\ 256 * byte_at (data_buffer d') (24 + 2)
          + byte_at (data_buffer d') (25 + 2)
          = (205 + sum_bytes (firstn (Z.to_nat (22 + 2))
                                (skipn 2 (data_buffer d')))) mod 65536.
Proof.
  split.
  - split; [reflexivity |]. split; [reflexivity |]. split; [reflexivity |].
    split; [lia |]. split; [simpl; lia | reflexivity].
  - apply (rdm_write_layout spec_types 0 preloaded_driver
             (Some scenario_header) 2 [0; 5]);
      try reflexivity; try lia; simpl; lia.
Defined.
